(** * Netflix Wrapped: the two viewing-history processors

    A shallow embedding of [scripts/process_data.py] and
    [scripts/process_netflix_data.py], and the properties of their
    statistics.

    - Python text is a list of characters with code points below 256;
      white space and digits are those of [str.isspace] and
      [str.isdecimal] in that range.
    - Python integers are [Z]; a float that is a ratio of counts, or a
      count of tenths, is the exact rational [Q].
    - A cell of a text column of the export is a string or NaN, the
      missing value; a column in which every cell is missing is a
      column of floats. A parsed timestamp is a day ordinal and an
      hour, NaT is [None]; a frame is the list of its rows, and an
      insertion-ordered [dict] is an association list.
    - Code that can raise runs in the exception monad [res];
      [try]/[except] catches it.
    - [re.match] and [re.sub] are a backtracking matcher over the
      syntax of the patterns the source uses.

    Reading the file, printing, JSON output and the fun facts are left
    out; each statistics record lists the entries it leaves out. Some
    of these entries ([hourly_breakdown], the key of the biggest
    binge, the device name) and [main] of process_data.py are
    modelled on their own, after the statistics. *)

From Stdlib Require Import ZArith List Bool Ascii String Lia QArith.
From Stdlib Require Import Sorting.Sorted.
From Stdlib Require Import DecimalString DecimalZ.
Import ListNotations.

Local Open Scope Z_scope.

(* ===================================================================== *)
(** * Part I: definitions *)
(* ===================================================================== *)

(** ** Python values and exceptions *)

Module Py.

(** A [str]; string literals are written [s2l "..."]. *)
Definition str := list ascii.

Definition s2l (s : string) : str := list_ascii_of_string s.

Definition str_eqb (a b : str) : bool :=
  if list_eq_dec ascii_dec a b then true else false.

Inductive exn :=
  TypeError | ValueError | IndexError | AttributeError | KeyError.

Inductive res (A : Type) : Type :=
| Ok (a : A)
| Raise (e : exn).

Arguments Ok {A} a.
Arguments Raise {A} e.

Definition bind {A B} (m : res A) (f : A -> res B) : res B :=
  match m with
  | Ok a => f a
  | Raise e => Raise e
  end.

(** [try: body  except: return handler] with a bare [except]. *)
Definition try_except {A} (body : res A) (handler : A) : A :=
  match body with
  | Ok a => a
  | Raise _ => handler
  end.

(** [list.apply]-style traversal that stops at the first exception. *)
Fixpoint mapM {A B} (f : A -> res B) (l : list A) : res (list B) :=
  match l with
  | [] => Ok []
  | x :: l' =>
      bind (f x) (fun y => bind (mapM f l') (fun ys => Ok (y :: ys)))
  end.

(** A cell of a text column: a string, or NaN for a missing value. *)
Inductive cell :=
| NaN
| Str (s : str).

(** [str.isspace] on one character, for code points below 256. *)
Definition is_space (c : ascii) : bool :=
  let n := nat_of_ascii c in
  (((9 <=? n) && (n <=? 13)) || ((28 <=? n) && (n <=? 32))
   || (n =? 133) || (n =? 160))%nat.

(** Decimal digits below code point 256 are ['0'..'9']. *)
Definition is_digit (c : ascii) : bool :=
  let n := nat_of_ascii c in ((48 <=? n) && (n <=? 57))%nat.

Definition digit_val (c : ascii) : Z := Z.of_nat (nat_of_ascii c) - 48.

(** The white space [int()] skips around a literal: below code point
    127 only the C locale's, above it any [isspace] character. *)
Definition is_int_space (c : ascii) : bool :=
  let n := nat_of_ascii c in
  (((9 <=? n) && (n <=? 13)) || (n =? 32) || (n =? 133) || (n =? 160))%nat.

Fixpoint lstrip_by (sp : ascii -> bool) (s : str) : str :=
  match s with
  | c :: s' => if sp c then lstrip_by sp s' else s
  | [] => []
  end.

Definition rstrip_by (sp : ascii -> bool) (s : str) : str :=
  rev (lstrip_by sp (rev s)).

Definition strip_by (sp : ascii -> bool) (s : str) : str :=
  rstrip_by sp (lstrip_by sp s).

(** [s.strip()] *)
Definition strip (s : str) : str := strip_by is_space s.

(** [s.split(sep)] for a one-character separator: never empty. *)
Fixpoint split (sep : ascii) (s : str) : list str :=
  match s with
  | [] => [[]]
  | c :: s' =>
      if Ascii.eqb c sep then [] :: split sep s'
      else match split sep s' with
           | p :: ps => (c :: p) :: ps
           | [] => [[c]]
           end
  end.

Fixpoint starts_with (p s : str) : bool :=
  match p, s with
  | [], _ => true
  | a :: p', b :: s' => Ascii.eqb a b && starts_with p' s'
  | _ :: _, [] => false
  end.

(** [sub in s] *)
Fixpoint contains (sub s : str) : bool :=
  starts_with sub s ||
  match s with
  | [] => false
  | _ :: s' => contains sub s'
  end.

(** The digit part of an integer literal: digits, with single
    underscores allowed between two digits. [seen] tells whether the
    previous character was a digit. *)
Fixpoint int_digits (acc : Z) (seen : bool) (s : str) : res Z :=
  match s with
  | [] => if seen then Ok acc else Raise ValueError
  | c :: s' =>
      if is_digit c then int_digits (10 * acc + digit_val c) true s'
      else if Ascii.eqb c "_"%char && seen then int_digits acc false s'
      else Raise ValueError
  end.

(** [sys.get_int_max_str_digits()] as the interpreter starts with it:
    a literal of more digits is refused. *)
Definition int_max_str_digits : Z := 4300.

(** The literal after its sign: its digits are counted without the
    underscores, leading zeros included, and beyond the limit the
    conversion raises [ValueError], as it does on a malformed
    literal. *)
Definition int_literal (s : str) : res Z :=
  bind (int_digits 0 false s) (fun z =>
  if Z.of_nat (List.length (filter is_digit s)) >? int_max_str_digits
  then Raise ValueError
  else Ok z).

(** [int(s)] on a [str], base 10: surrounding white space is dropped,
    one sign is accepted; neither counts as a digit. *)
Definition int (s : str) : res Z :=
  match strip_by is_int_space s with
  | c :: s' =>
      if Ascii.eqb c "-"%char then bind (int_literal s') (fun z => Ok (- z))
      else if Ascii.eqb c "+"%char then int_literal s'
      else int_literal (c :: s')
  | [] => Raise ValueError
  end.

(** [l[0]] *)
Definition first_item {A} (l : list A) : res A :=
  match l with
  | x :: _ => Ok x
  | [] => Raise IndexError
  end.

(** Look-up in an insertion-ordered [dict] with a default:
    [d.get(k, default)]. *)
Fixpoint dict_get {V} (d : list (str * V)) (k : str) (default : V) : V :=
  match d with
  | [] => default
  | (k', v) :: d' => if str_eqb k' k then v else dict_get d' k default
  end.

(** [max(d, key=d.get)] and [Series.idxmax()]: the first key, in
    iteration order, whose value is the largest. [best] is the current
    candidate. *)
Fixpoint max_by_loop {K} (best : K * Z) (d : list (K * Z)) : K * Z :=
  match d with
  | [] => best
  | kv :: d' => max_by_loop (if snd kv >? snd best then kv else best) d'
  end.

Definition max_by_value {K} (d : list (K * Z)) : res K :=
  match d with
  | [] => Raise ValueError
  | kv :: d' => Ok (fst (max_by_loop kv d'))
  end.

(** [a > b] on floats that are ratios of counts, or counts in tenths:
    below 2^50 the float comparison has the outcome of the exact
    one, which is what is modelled. *)
Definition Qgtb (a b : Q) : bool := negb (Qle_bool a b).

End Py.

Import Py.

(** ** The fragment of [re] the patterns of the source use *)

Module Re.

(** One-character atoms. *)
Inductive cclass :=
| CAny                (* .   any character but a newline *)
| CSpace              (* \s *)
| CDigit              (* \d *)
| CChar (a : ascii).  (* a literal character *)

Definition newline : ascii := ascii_of_nat 10.

Definition cmatch (cl : cclass) (a : ascii) : bool :=
  match cl with
  | CAny => negb (Ascii.eqb a newline)
  | CSpace => is_space a
  | CDigit => is_digit a
  | CChar b => Ascii.eqb b a
  end.

(** Every quantifier of the source patterns ranges over a one-character
    atom, except [?] over a group, which is [Alt r Eps]. *)
Inductive regex :=
| Eps
| One (cl : cclass)
| Seq (r1 r2 : regex)
| Alt (r1 r2 : regex)                  (* r1|r2, r1 tried first *)
| Rep (greedy : bool) (cl : cclass)    (* cl*  and  cl*? *)
| Group (n : nat) (r : regex)          (* capturing group number n *)
| Bol                                  (* ^ *)
| Eol.                                 (* $ *)

Fixpoint lit (s : str) : regex :=
  match s with
  | [] => Eps
  | a :: s' => Seq (One (CChar a)) (lit s')
  end.

Definition plus (greedy : bool) (cl : cclass) : regex :=
  Seq (One cl) (Rep greedy cl).

Definition opt (r : regex) : regex := Alt r Eps.

Definition caps := list (nat * str).

Fixpoint group (c : caps) (n : nat) : option str :=
  match c with
  | [] => None
  | (n', w) :: c' => if (n' =? n)%nat then Some w else group c' n
  end.

(** The backtracking matcher, in continuation-passing style: [i] is the
    position in the subject, [s] what is left of it, [c] the groups
    captured so far, [k] what must still match. The first success in
    the order the engine tries things is the result. *)
Section Matcher.
Context {R : Type}.

Definition cont := nat -> str -> caps -> option R.

Definition or_else (x : option R) (y : unit -> option R) : option R :=
  match x with
  | Some r => Some r
  | None => y tt
  end.

Fixpoint rep_greedy (cl : cclass) (i : nat) (s : str) (c : caps) (k : cont)
  : option R :=
  match s with
  | a :: s' =>
      if cmatch cl a
      then or_else (rep_greedy cl (S i) s' c k) (fun _ => k i s c)
      else k i s c
  | [] => k i s c
  end.

Fixpoint rep_lazy (cl : cclass) (i : nat) (s : str) (c : caps) (k : cont)
  : option R :=
  or_else (k i s c)
    (fun _ =>
       match s with
       | a :: s' => if cmatch cl a then rep_lazy cl (S i) s' c k else None
       | [] => None
       end).

Fixpoint run (r : regex) (i : nat) (s : str) (c : caps) (k : cont)
  : option R :=
  match r with
  | Eps => k i s c
  | One cl =>
      match s with
      | a :: s' => if cmatch cl a then k (S i) s' c else None
      | [] => None
      end
  | Seq r1 r2 => run r1 i s c (fun i' s' c' => run r2 i' s' c' k)
  | Alt r1 r2 => or_else (run r1 i s c k) (fun _ => run r2 i s c k)
  | Rep true cl => rep_greedy cl i s c k
  | Rep false cl => rep_lazy cl i s c k
  | Group n r1 =>
      run r1 i s c (fun i' s' c' => k i' s' ((n, firstn (i' - i) s) :: c'))
  | Bol => if (i =? 0)%nat then k i s c else None
  | Eol =>
      match s with
      | [] => k i s c
      | [a] => if Ascii.eqb a newline then k i s c else None
      | _ => None
      end
  end.
End Matcher.

(** [re.match(pattern, s)]: the groups of the match, if there is one. *)
Definition re_match (r : regex) (s : str) : option caps :=
  run r 0%nat s [] (fun _ _ c => Some c).

(** [re.sub(pattern, '', s)]: scan from the left; where the pattern
    matches a non-empty piece, drop it and go on after it; elsewhere
    keep the character. *)
Fixpoint sub_loop (fuel : nat) (r : regex) (i : nat) (s : str) : str :=
  match fuel with
  | O => s
  | S fuel' =>
      let keep :=
        match s with
        | [] => []
        | a :: s' => a :: sub_loop fuel' r (S i) s'
        end in
      match run r i s [] (fun i' s' _ => Some (i', s')) with
      | Some (i', s') => if (i <? i')%nat then sub_loop fuel' r i' s' else keep
      | None => keep
      end
  end.

Definition sub_empty (r : regex) (s : str) : str :=
  sub_loop (S (List.length s)) r 0%nat s.

End Re.

Infix ">>" := Re.Seq (at level 61, right associativity).

(** ** Dates: the proleptic Gregorian calendar of [datetime] *)

Module Cal.

(** A parsed timestamp: the day as [date.toordinal()] (1 is 1 January
    of year 1) and the hour of the day. Minutes and seconds play no
    part in the statistics. *)
Record Timestamp := { ordinal : Z; hour : Z }.

Definition days_before_month_tbl : list Z :=
  [-1; 0; 31; 59; 90; 120; 151; 181; 212; 243; 273; 304; 334].

Definition days_in_month_tbl : list Z :=
  [-1; 31; 28; 31; 30; 31; 30; 31; 31; 30; 31; 30; 31].

Definition tbl (t : list Z) (m : Z) : Z := nth (Z.to_nat m) t 0.

Definition b2z (b : bool) : Z := if b then 1 else 0.

(** Ordinal to (year, month, day), as [datetime] computes it. *)
Definition ord2ymd (n : Z) : Z * Z * Z :=
  let n := n - 1 in
  let n400 := n / 146097 in
  let n := n mod 146097 in
  let n100 := n / 36524 in
  let n := n mod 36524 in
  let n4 := n / 1461 in
  let n := n mod 1461 in
  let n1 := n / 365 in
  let n := n mod 365 in
  let year := n400 * 400 + 1 + n100 * 100 + n4 * 4 + n1 in
  if (n1 =? 4) || (n100 =? 4) then (year - 1, 12, 31)
  else
    let leapyear := (n1 =? 3) && (negb (n4 =? 24) || (n100 =? 3)) in
    let month := Z.shiftr (n + 50) 5 in
    let preceding :=
      tbl days_before_month_tbl month + b2z ((month >? 2) && leapyear) in
    if preceding >? n then
      let month := month - 1 in
      let preceding :=
        preceding
        - (tbl days_in_month_tbl month + b2z ((month =? 2) && leapyear)) in
      (year, month, n - preceding + 1)
    else (year, month, n - preceding + 1).

Definition is_leap (y : Z) : bool :=
  (y mod 4 =? 0) && (negb (y mod 100 =? 0) || (y mod 400 =? 0)).

(** (year, month, day) to ordinal, used to write dates down. *)
Definition ymd2ord (y m d : Z) : Z :=
  let y' := y - 1 in
  y' * 365 + y' / 4 - y' / 100 + y' / 400
  + (tbl days_before_month_tbl m + b2z ((m >? 2) && is_leap y))
  + d.

Definition month_order : list str :=
  map s2l ["January"; "February"; "March"; "April"; "May"; "June";
           "July"; "August"; "September"; "October"; "November";
           "December"]%string.

Definition dow_order : list str :=
  map s2l ["Monday"; "Tuesday"; "Wednesday"; "Thursday"; "Friday";
           "Saturday"; "Sunday"]%string.

(** [.dt.year], [.dt.month], [.dt.month_name()], [.dt.day_name()],
    [.dt.date] *)
Definition year (t : Timestamp) : Z := fst (fst (ord2ymd (ordinal t))).

Definition month (t : Timestamp) : Z := snd (fst (ord2ymd (ordinal t))).

Definition month_name (t : Timestamp) : str :=
  nth (Z.to_nat (month t - 1)) month_order [].

Definition weekday (t : Timestamp) : Z := (ordinal t + 6) mod 7.

Definition day_name (t : Timestamp) : str :=
  nth (Z.to_nat (weekday t)) dow_order [].

Definition date (t : Timestamp) : Z := ordinal t.

End Cal.

(** ** The export file and the pandas operations on it *)

Module Csv.

(** One row of ViewingActivity.csv after [read_csv] and
    [pd.to_datetime(..., errors='coerce')]: a timestamp that does not
    parse is NaT, here [None]. The timestamp column is called
    [Date] or [Start Time] in the export. *)
Record Row := {
  Title : cell;
  Start_Time : option Cal.Timestamp;
  Duration : cell;
  Supplemental_Video_Type : cell
}.

End Csv.

Module Pd.

(** [len(df[cond])] and [groupby(col).size().get(k, 0)]: how many rows
    satisfy a test. *)
Definition count {A} (f : A -> bool) (df : list A) : Z :=
  Z.of_nat (List.length (filter f df)).

Definition key := (Z * str)%type.

Definition key_eq_dec (a b : key) : {a = b} + {a <> b}.
Proof.
  decide equality; [apply (list_eq_dec ascii_dec)|apply Z.eq_dec].
Defined.

(** [groupby([date, show]).size()]: one entry per distinct key, with
    the number of rows that carry it. pandas orders the entries by
    key; the order plays no part in what is computed from them here. *)
Definition group_sizes (keys : list key) : list (key * Z) :=
  map (fun k => (k, Z.of_nat (count_occ key_eq_dec keys k)))
      (nodup key_eq_dec keys).

(** [Series.max()] of a non-empty series of counts. *)
Definition max_of (x : Z) (l : list Z) : Z := fold_left Z.max l x.

(** [col.nunique()] *)
Definition nunique (col : list str) : Z :=
  Z.of_nat (List.length (nodup (list_eq_dec ascii_dec) col)).

Fixpoint insert (x : Z) (l : list Z) : list Z :=
  match l with
  | [] => [x]
  | y :: l' => if x <=? y then x :: l else y :: insert x l'
  end.

(** [sorted(col.unique())] on dates *)
Definition sorted_unique (col : list Z) : list Z :=
  fold_right insert [] (nodup Z.eq_dec col).

End Pd.

(** ** The streak loop, the same text in both files *)

Module Streak.

(** One turn of
    [for i in range(1, len(dates))]: the state is
    [(max_streak, current_streak)]. *)
Definition step (dates : list Z) (st : Z * Z) (i : nat) : Z * Z :=
  let '(max_streak, current_streak) := st in
  if nth i dates 0 - nth (i - 1) dates 0 =? 1
  then (Z.max max_streak (current_streak + 1), current_streak + 1)
  else (max_streak, 1).

Definition longest_streak (dates : list Z) : Z :=
  fst (fold_left (step dates) (seq 1 (List.length dates - 1)) (1, 1)).

(** The same loop by recursion on the dates that follow [prev]. *)
Fixpoint walk (prev : Z) (st : Z * Z) (rest : list Z) : Z * Z :=
  match rest with
  | [] => st
  | d :: rest' =>
      walk d
        (if d - prev =? 1
         then (Z.max (fst st) (snd st + 1), snd st + 1)
         else (fst st, 1))
        rest'
  end.

End Streak.

(** ** process_netflix_data.py: the row-level functions *)

Module ProcessNetflixData.

Import Re.

(** [parse_duration(duration_str)]: the arithmetic runs inside
    [try: ... except: return 0]. *)
Definition parse_duration (duration_str : cell) : Z :=
  match duration_str with
  | NaN => 0
  | Str s =>
      if str_eqb s [] then 0
      else
        try_except
          (let parts := split ":"%char s in
           match parts with
           | [p0; p1; p2] =>
               bind (int p0) (fun h =>
               bind (int p1) (fun m =>
               bind (int p2) (fun sec => Ok (h * 3600 + m * 60 + sec))))
           | [p0; p1] =>
               bind (int p0) (fun m =>
               bind (int p1) (fun sec => Ok (m * 60 + sec)))
           | _ => Ok 0
           end)
          0
  end.

(** [\(Episode\s*(\d+)\)], the optional part of the pattern below *)
Definition episode_group : regex :=
  lit (s2l "(Episode") >> Rep true CSpace >> Group 3 (plus true CDigit)
    >> One (CChar ")").

(** [r'^(.+?):\s*Season\s*(\d+).*?(?:\(Episode\s*(\d+)\))?$'] *)
Definition season_ep_pattern : regex :=
  Bol >> Group 1 (plus false CAny) >> One (CChar ":") >> Rep true CSpace
      >> lit (s2l "Season") >> Rep true CSpace >> Group 2 (plus true CDigit)
      >> Rep false CAny >> opt episode_group >> Eol.

(** [r'_hook.*|_primary.*|Clip \d+:|Teaser.*:'] *)
Definition suffix_pattern : regex :=
  Alt (lit (s2l "_hook") >> Rep true CAny)
    (Alt (lit (s2l "_primary") >> Rep true CAny)
       (Alt (lit (s2l "Clip ") >> plus true CDigit >> One (CChar ":"))
            (lit (s2l "Teaser") >> Rep true CAny >> One (CChar ":")))).

Record show_info := {
  show : str;
  season : option Z;
  episode : option Z;
  is_episode : bool
}.

(** [extract_show_info(title)]. A NaN title is a float, on which
    [re.match] raises. The unused [hook_pattern] is left out. *)
Definition extract_show_info (title : cell) : res show_info :=
  match title with
  | NaN => Raise TypeError
  | Str t =>
      match re_match season_ep_pattern t with
      | Some m =>
          bind (match group m 1 with
                | Some g => Ok (strip g)
                | None => Raise AttributeError
                end) (fun sh =>
          bind (match group m 2 with
                | Some g => int g
                | None => Raise TypeError
                end) (fun se =>
          bind (match group m 3 with
                | Some (a :: g) =>
                    bind (int (a :: g)) (fun e => Ok (Some e))
                | _ => Ok None
                end) (fun ep =>
          Ok {| show := sh; season := Some se; episode := ep;
                is_episode := true |})))
      | None =>
          if negb (contains (s2l ": Season") t)
             && negb (contains (s2l ": Episode") t)
          then
            let clean_title := sub_empty suffix_pattern t in
            Ok {| show := strip clean_title; season := None;
                  episode := None; is_episode := false |}
          else
            bind (first_item (split ":"%char t)) (fun p =>
            Ok {| show := strip p; season := None; episode := None;
                  is_episode := false |})
      end
  end.

(** [get_time_category(hour)] *)
Definition get_time_category (hour : Z) : str :=
  if (6 <=? hour) && (hour <? 12) then s2l "Morning (6am-12pm)"
  else if (12 <=? hour) && (hour <? 18) then s2l "Afternoon (12pm-6pm)"
  else if (18 <=? hour) && (hour <? 22) then s2l "Evening (6pm-10pm)"
  else s2l "Night Owl (10pm-6am)".

(** The statistics dictionary. Left out: [estimated_hours] and
    [estimated_days] (floating-point rounding of a quotient), the
    [top_shows] ranking and the [number_one_*] entries, [top_device],
    [biggest_binge_show] and [fun_facts]. [personality] is absent until
    it is assigned. *)
Record stats := {
  year : Z;
  total_titles_watched : Z;
  unique_shows : Z;
  peak_month : str;
  peak_month_count : Z;
  favorite_day : str;
  favorite_day_count : Z;
  longest_streak : Z;
  binge_sessions : Z;
  biggest_binge : Z;
  active_days : Z;
  peak_time : str;
  monthly_breakdown : list (str * Z);
  day_of_week : list (str * Z);
  time_categories : list (str * Z);
  movies_watched : Z;
  episodes_watched : Z;
  first_watch_date : Z;
  last_watch_date : Z;
  personality : option (str * str)
}.

Definition set_personality (s : stats) (p : str * str) : stats :=
  {| year := year s; total_titles_watched := total_titles_watched s;
     unique_shows := unique_shows s; peak_month := peak_month s;
     peak_month_count := peak_month_count s; favorite_day := favorite_day s;
     favorite_day_count := favorite_day_count s;
     longest_streak := longest_streak s; binge_sessions := binge_sessions s;
     biggest_binge := biggest_binge s; active_days := active_days s;
     peak_time := peak_time s; monthly_breakdown := monthly_breakdown s;
     day_of_week := day_of_week s; time_categories := time_categories s;
     movies_watched := movies_watched s;
     episodes_watched := episodes_watched s;
     first_watch_date := first_watch_date s;
     last_watch_date := last_watch_date s; personality := Some p |}.

(** [sum(d.values())] *)
Definition sum_values (d : list (str * Z)) : Z :=
  fold_left Z.add (map snd d) 0.

(** [x or 1] on an integer *)
Definition or_1 (x : Z) : Z := if x =? 0 then 1 else x.

Definition plot_twist_addict : str * str :=
  (s2l "The Plot Twist Addict",
   s2l "New show? Sign me up. Your watchlist is basically a buffet.").
Definition marathon_runner : str * str :=
  (s2l "The Marathon Runner",
   s2l "Consistency is your middle name. Rain or shine, you show up for your shows.").
Definition after_hours_explorer : str * str :=
  (s2l "The After Hours Explorer",
   s2l "The world sleeps, you stream. Some stories just hit different at 2am.").
Definition serial_chiller : str * str :=
  (s2l "The Serial Chiller",
   s2l "One episode is never enough. You don't watch shows, you experience them.").
Definition couch_critic : str * str :=
  (s2l "The Couch Critic",
   s2l "Movies, series, documentaries - you appreciate it all. A true connoisseur.").
Definition weekend_wanderer : str * str :=
  (s2l "The Weekend Wanderer",
   s2l "Saturdays and Sundays are sacred. Your couch knows what's up.").
Definition steady_streamer : str * str :=
  (s2l "The Steady Streamer",
   s2l "You've made streaming a lifestyle. Netflix is basically a roommate at this point.").
Definition casual_viewer : str * str :=
  (s2l "The Casual Viewer",
   s2l "You watch on your own terms. No algorithm can define you.").

Definition night_ratio (s : stats) : Q :=
  let night_pct := dict_get (time_categories s) (s2l "Night Owl (10pm-6am)") 0 in
  let total_time := or_1 (sum_values (time_categories s)) in
  (inject_Z night_pct / inject_Z total_time)%Q.

Definition weekend_ratio (s : stats) : Q :=
  let weekend_count :=
    dict_get (day_of_week s) (s2l "Saturday") 0
    + dict_get (day_of_week s) (s2l "Sunday") 0 in
  let total_dow := or_1 (sum_values (day_of_week s)) in
  (inject_Z weekend_count / inject_Z total_dow)%Q.

(** [if cond: personalities.append(p)] *)
Definition append_if (cond : bool) (p : str * str) (l : list (str * str))
  : list (str * str) :=
  if cond then l ++ [p] else l.

(** [determine_personality(stats)] *)
Definition determine_personality (s : stats) : res (str * str) :=
  let personalities := [] in
  let personalities :=
    append_if (unique_shows s >? 100) plot_twist_addict personalities in
  let personalities :=
    append_if ((longest_streak s >? 20) && (binge_sessions s >? 40))
      marathon_runner personalities in
  let personalities :=
    append_if (Qgtb (night_ratio s) (1 # 2)) after_hours_explorer
      personalities in
  let personalities :=
    append_if (binge_sessions s >? 50) serial_chiller personalities in
  let personalities :=
    append_if ((movies_watched s >? 150) && (episodes_watched s >? 400))
      couch_critic personalities in
  let personalities :=
    append_if (Qgtb (weekend_ratio s) (4 # 10)) weekend_wanderer
      personalities in
  let personalities :=
    append_if (active_days s >? 200) steady_streamer personalities in
  let personalities :=
    append_if (match personalities with [] => true | _ => false end)
      casual_viewer personalities in
  first_item personalities.

(** A row of [df_main] with its derived columns. *)
Record main_row := {
  Start : Cal.Timestamp;
  Duration_Seconds : Z;
  Show : str;
  Is_Episode : bool;
  Hour : Z;
  DayOfWeek : str;
  Month : str;
  Date : Z;
  TimeCategory : str
}.

(** [df[df['Start Time'].dt.year == 2025]]: the year of NaT compares
    unequal, so a surviving row has a timestamp, kept next to it. *)
Fixpoint year_2025 (df : list Csv.Row) : list (Cal.Timestamp * Csv.Row) :=
  match df with
  | [] => []
  | r :: df' =>
      match Csv.Start_Time r with
      | Some t =>
          if Cal.year t =? 2025 then (t, r) :: year_2025 df'
          else year_2025 df'
      | None => year_2025 df'
      end
  end.

(** An entry of the column [Duration_Seconds], as the exact integer
    [parse_duration] returns. pandas keeps the column in 64-bit
    integers when every duration fits; one that does not makes it a
    column of Python integers, and converting those to floats, as the
    division by 60 for [Duration_Minutes] does, raises
    [OverflowError] beyond the range of floats. That column and its
    exception are not modelled. *)
Definition duration_seconds (r : Cal.Timestamp * Csv.Row) : Z :=
  parse_duration (Csv.Duration (snd r)).

(** [df[df['Duration_Seconds'] > 0]] after the year filter *)
Definition df_valid (csv : list Csv.Row) : list (Cal.Timestamp * Csv.Row) :=
  filter (fun r => duration_seconds r >? 0) (year_2025 csv).

(** [df[df['Duration_Seconds'] >= 60]] *)
Definition df_meaningful (csv : list Csv.Row)
  : list (Cal.Timestamp * Csv.Row) :=
  filter (fun r => duration_seconds r >=? 60) (df_valid csv).

Definition not_supplemental (r : Cal.Timestamp * Csv.Row) : bool :=
  match Csv.Supplemental_Video_Type (snd r) with
  | NaN => true
  | Str s => str_eqb s []
  end.

(** The rows all statistics are computed from. *)
Definition df_main_rows (csv : list Csv.Row)
  : list (Cal.Timestamp * Csv.Row) :=
  filter not_supplemental (df_meaningful csv).

Definition derive (r : Cal.Timestamp * Csv.Row) : res main_row :=
  let t := fst r in
  bind (extract_show_info (Csv.Title (snd r))) (fun info =>
  Ok {| Start := t; Duration_Seconds := duration_seconds r;
        Show := show info; Is_Episode := is_episode info;
        Hour := Cal.hour t; DayOfWeek := Cal.day_name t;
        Month := Cal.month_name t; Date := Cal.date t;
        TimeCategory := get_time_category (Cal.hour t) |}).

Definition df_main (csv : list Csv.Row) : res (list main_row) :=
  mapM derive (df_main_rows csv).

Definition time_category_names : list str :=
  map s2l ["Morning (6am-12pm)"; "Afternoon (12pm-6pm)";
           "Evening (6pm-10pm)"; "Night Owl (10pm-6am)"]%string.

Definition binge_threshold : Z := 4.

(** [min(dates)] and [max(dates)] of a Python list *)
Definition py_min (l : list Z) : res Z :=
  match l with
  | [] => Raise ValueError
  | x :: l' => Ok (fold_left Z.min l' x)
  end.

Definition py_max (l : list Z) : res Z :=
  match l with
  | [] => Raise ValueError
  | x :: l' => Ok (fold_left Z.max l' x)
  end.

(** [df_main[df_main['Is_Episode']].groupby(['Date', 'Show']).size()]:
    the number of episode rows of each date and show. On an empty
    [df_main] the [Is_Episode] column holds no boolean, so the
    selection is one of columns by label and leaves none, and
    [groupby] raises [KeyError] on ['Date']. *)
Definition daily_show_counts (df : list main_row)
  : res (list (Pd.key * Z)) :=
  match df with
  | [] => Raise KeyError
  | _ :: _ =>
      Ok (Pd.group_sizes
            (map (fun r => (Date r, Show r)) (filter Is_Episode df)))
  end.

(** The statistics of [process_netflix_data], from [df_main] on, in
    the order of the source. The lines on [Device Type] are left out,
    the column being no part of [Csv.Row]: they come after the
    [groupby] and raise nothing on a column of text and missing
    values, but on a column of numbers the test ['TV' in top_device]
    raises [TypeError]. So an exception of [compute_stats] is the
    exception of the code, and a result of [compute_stats] is the
    result of the code for an export whose device column is text. *)
Definition compute_stats (df : list main_row) : res stats :=
  let total_titles := Z.of_nat (List.length df) in
  let unique := Pd.nunique (map Show df) in
  let monthly_breakdown :=
    map (fun m => (m, Pd.count (fun r => str_eqb (Month r) m) df))
        Cal.month_order in
  let day_of_week :=
    map (fun d => (d, Pd.count (fun r => str_eqb (DayOfWeek r) d) df))
        Cal.dow_order in
  let time_categories :=
    map (fun c => (c, Pd.count (fun r => str_eqb (TimeCategory r) c) df))
        time_category_names in
  let active_dates := Pd.sorted_unique (map Date df) in
  let active_days := Z.of_nat (List.length active_dates) in
  let longest_streak := Streak.longest_streak active_dates in
  bind (daily_show_counts df) (fun daily_show_counts =>
  let binge_sessions :=
    Pd.count (fun g => snd g >=? binge_threshold) daily_show_counts in
  let biggest_binge :=
    match map snd daily_show_counts with
    | [] => 0
    | x :: l => Pd.max_of x l
    end in
  bind (max_by_value monthly_breakdown) (fun peak_month =>
  let peak_month_count := dict_get monthly_breakdown peak_month 0 in
  bind (max_by_value day_of_week) (fun favorite_day =>
  let favorite_day_count := dict_get day_of_week favorite_day 0 in
  bind (max_by_value time_categories) (fun peak_time =>
  let movies_watched := Pd.count (fun r => negb (Is_Episode r)) df in
  let episodes_watched := Pd.count Is_Episode df in
  bind (py_min active_dates) (fun first_watch_date =>
  bind (py_max active_dates) (fun last_watch_date =>
  let s :=
    {| year := 2025; total_titles_watched := total_titles;
       unique_shows := unique; peak_month := peak_month;
       peak_month_count := peak_month_count; favorite_day := favorite_day;
       favorite_day_count := favorite_day_count;
       longest_streak := longest_streak; binge_sessions := binge_sessions;
       biggest_binge := biggest_binge; active_days := active_days;
       peak_time := peak_time; monthly_breakdown := monthly_breakdown;
       day_of_week := day_of_week; time_categories := time_categories;
       movies_watched := movies_watched;
       episodes_watched := episodes_watched;
       first_watch_date := first_watch_date;
       last_watch_date := last_watch_date; personality := None |} in
  bind (determine_personality s) (fun p =>
  Ok (set_personality s p)))))))).

(** [process_netflix_data(data_dir)] once ViewingActivity.csv is
    loaded. *)
Definition process_netflix_data (csv : list Csv.Row) : res stats :=
  bind (df_main csv) compute_stats.

End ProcessNetflixData.

(** ** process_data.py *)

Module ProcessData.

(** A row of the frame [load_viewing_data] returns. [WeekOfYear] is
    never read and is left out. *)
Record row := {
  Title : cell;
  Date : Cal.Timestamp;
  Year : Z;
  Month : Z;
  MonthName : str;
  DayOfWeek : str;
  Hour : Z;
  ShowName : str;
  IsEpisode : option bool
}.

(** [extract_show_name(title)] *)
Definition extract_show_name (title : cell) : res str :=
  match title with
  | NaN => Ok (s2l "Unknown")
  | Str t =>
      let parts := split ":"%char t in
      bind (first_item parts) (fun p => Ok (strip p))
  end.

(** [df['Title'].str.contains(':', regex=False)], an entry of a
    nullable column: on the text dtype of [read_csv] a missing title
    gives [False]. *)
Definition str_contains_colon (title : cell) : option bool :=
  match title with
  | NaN => Some false
  | Str t => Some (contains [":"%char] t)
  end.

(** [df.dropna(subset=['Date'])]: a surviving row has a timestamp,
    kept next to it. *)
Fixpoint dropna_date (df : list Csv.Row) : list (Cal.Timestamp * Csv.Row) :=
  match df with
  | [] => []
  | r :: df' =>
      match Csv.Start_Time r with
      | Some t => (t, r) :: dropna_date df'
      | None => dropna_date df'
      end
  end.

Definition derive (r : Cal.Timestamp * Csv.Row) : res row :=
  let t := fst r in
  let title := Csv.Title (snd r) in
  bind (extract_show_name title) (fun name =>
  Ok {| Title := title; Date := t; Year := Cal.year t;
        Month := Cal.month t; MonthName := Cal.month_name t;
        DayOfWeek := Cal.day_name t; Hour := Cal.hour t;
        ShowName := name; IsEpisode := str_contains_colon title |}).

Definition is_text (c : cell) : bool :=
  match c with
  | Str _ => true
  | NaN => false
  end.

(** Whether [read_csv] gave [Title] a text dtype: it does when some
    title is there, and when the file has no row. A column of missing
    values only is a column of floats. *)
Definition title_is_text (csv : list Csv.Row) : bool :=
  match csv with
  | [] => true
  | _ :: _ => existsb (fun r => is_text (Csv.Title r)) csv
  end.

(** [load_viewing_data(filepath)] once the file is read. The rows are
    derived column by column; the last column, [IsEpisode], goes
    through the [.str] accessor, which raises [AttributeError] on a
    column that is not text, whatever rows are left. *)
Definition load_viewing_data (csv : list Csv.Row) : res (list row) :=
  bind (mapM derive (dropna_date csv)) (fun df =>
  if title_is_text csv then Ok df else Raise AttributeError).

Record personality_t := { type : str; description : str }.

(** The statistics dictionary. Left out: [estimated_days],
    [top_shows] and the [number_one_*] entries, [hourly_breakdown],
    [biggest_binge_show], [biggest_binge_date] and [fun_facts]. A key
    the code sets under a condition is an [option]; [personality] is
    absent until it is assigned. *)
Record stats := {
  total_titles_watched : Z;
  unique_shows : Z;
  year : Z;
  estimated_hours : Q;
  monthly_breakdown : list (str * Z);
  peak_month : option str;
  peak_month_count : option Z;
  day_of_week : list (str * Z);
  favorite_day : option str;
  favorite_day_count : option Z;
  time_categories : list (str * Z);
  peak_time : str;
  binge_sessions : Z;
  biggest_binge : Z;
  longest_streak : Z;
  active_days : Z;
  personality : option personality_t
}.

Definition set_personality (s : stats) (p : personality_t) : stats :=
  {| total_titles_watched := total_titles_watched s;
     unique_shows := unique_shows s; year := year s;
     estimated_hours := estimated_hours s;
     monthly_breakdown := monthly_breakdown s; peak_month := peak_month s;
     peak_month_count := peak_month_count s; day_of_week := day_of_week s;
     favorite_day := favorite_day s;
     favorite_day_count := favorite_day_count s;
     time_categories := time_categories s; peak_time := peak_time s;
     binge_sessions := binge_sessions s; biggest_binge := biggest_binge s;
     longest_streak := longest_streak s; active_days := active_days s;
     personality := Some p |}.

(** What [calculate_stats] returns: the error dictionary or the
    statistics. *)
Inductive output :=
| Error (msg : str)
| Stats (s : stats).

(** [round(n * 0.75, 1)] for a row count [n]: [n * 0.75] is exact, and
    its tenth [15 n / 2] is rounded to the nearest integer, a half
    going to the even neighbour. *)
Definition estimate_hours (n : Z) : Q :=
  let q := (15 * n) / 2 in
  let tenths :=
    if (15 * n) mod 2 =? 0 then q else if Z.even q then q else q + 1 in
  (tenths # 10)%Q.

Definition casual_viewer : personality_t :=
  {| type := s2l "The Casual Viewer";
     description := s2l "You enjoy Netflix at a comfortable pace." |}.
Definition streaming_champion : personality_t :=
  {| type := s2l "The Streaming Champion";
     description := s2l "Netflix might as well be your second home. You have seen it ALL." |}.
Definition binge_master : personality_t :=
  {| type := s2l "The Binge Master";
     description := s2l "One more episode? Make that ten. Sleep is optional when the plot thickens." |}.
Definition night_owl : personality_t :=
  {| type := s2l "The Night Owl";
     description := s2l "The best shows come out at night. Or maybe you just lost track of time again." |}.
Definition devoted_streamer : personality_t :=
  {| type := s2l "The Devoted Streamer";
     description := s2l "Rain or shine, you never miss a day. Netflix is part of your daily routine." |}.
Definition enthusiast : personality_t :=
  {| type := s2l "The Enthusiast";
     description := s2l "You know what you like and you are not afraid to watch it all." |}.
Definition early_bird : personality_t :=
  {| type := s2l "The Early Bird";
     description := s2l "Coffee and Netflix? You start your days right." |}.

(** [determine_personality(stats)]: [personality] starts as the casual
    viewer and the [if]/[elif] chain overwrites its two entries. *)
Definition determine_personality (s : stats) : personality_t :=
  let personality := casual_viewer in
  let hours := estimated_hours s in
  let binges := binge_sessions s in
  let peak_time := peak_time s in
  let streak := longest_streak s in
  if Qgtb hours (500 # 1) then streaming_champion
  else if binges >? 50 then binge_master
  else if contains (s2l "Night") peak_time then night_owl
  else if streak >? 30 then devoted_streamer
  else if Qgtb hours (200 # 1) then enthusiast
  else if contains (s2l "Morning") peak_time then early_bird
  else personality.

Definition binge_threshold : Z := 3.

(** [if year: df = df[df['Year'] == year]]: [None] and [0] are falsy. *)
Definition select_year (df : list row) (y : option Z) : list row :=
  match y with
  | Some y' => if y' =? 0 then df else filter (fun r => Year r =? y') df
  | None => df
  end.

(** [calculate_stats(df, year)] *)
Definition calculate_stats (df : list row) (y : option Z) : res output :=
  let df := select_year df y in
  match df with
  | [] => Ok (Error (s2l "No data found for the specified year"))
  | r0 :: df' =>
      let total := Z.of_nat (List.length df) in
      let year_max := Pd.max_of (Year r0) (map Year df') in
      let stats_year :=
        match y with
        | Some y' => if y' =? 0 then year_max else y'
        | None => year_max
        end in
      let monthly :=
        map (fun m => (m, Pd.count (fun r => str_eqb (MonthName r) m) df))
            Cal.month_order in
      let dow_counts :=
        map (fun d => (d, Pd.count (fun r => str_eqb (DayOfWeek r) d) df))
            Cal.dow_order in
      let time_cats :=
        [(s2l "Morning (6am-12pm)",
          Pd.count (fun r => (Hour r >=? 6) && (Hour r <? 12)) df);
         (s2l "Afternoon (12pm-6pm)",
          Pd.count (fun r => (Hour r >=? 12) && (Hour r <? 18)) df);
         (s2l "Evening (6pm-10pm)",
          Pd.count (fun r => (Hour r >=? 18) && (Hour r <? 22)) df);
         (s2l "Night Owl (10pm-6am)",
          Pd.count (fun r => (Hour r >=? 22) || (Hour r <? 6)) df)] in
      bind (match monthly with
            | [] => Ok None
            | _ => bind (max_by_value monthly) (fun k => Ok (Some k))
            end) (fun peak_month =>
      bind (match dow_counts with
            | [] => Ok None
            | _ => bind (max_by_value dow_counts) (fun k => Ok (Some k))
            end) (fun favorite_day =>
      bind (max_by_value time_cats) (fun peak_time =>
      let daily_shows :=
        Pd.group_sizes
          (map (fun r => (Cal.date (Date r), ShowName r)) df) in
      let binges :=
        filter (fun g => snd g >=? binge_threshold) daily_shows in
      let unique_dates :=
        Pd.sorted_unique (map (fun r => Cal.date (Date r)) df) in
      let s :=
        {| total_titles_watched := total;
           unique_shows := Pd.nunique (map ShowName df);
           year := stats_year;
           estimated_hours := estimate_hours total;
           monthly_breakdown := monthly;
           peak_month := peak_month;
           peak_month_count :=
             option_map (fun k => dict_get monthly k 0) peak_month;
           day_of_week := dow_counts;
           favorite_day := favorite_day;
           favorite_day_count :=
             match dow_counts with
             | [] => None
             | kv :: l => Some (Pd.max_of (snd kv) (map snd l))
             end;
           time_categories := time_cats;
           peak_time := peak_time;
           binge_sessions := Z.of_nat (List.length binges);
           biggest_binge :=
             match map snd binges with
             | [] => 0
             | x :: l => Pd.max_of x l
             end;
           longest_streak := Streak.longest_streak unique_dates;
           active_days := Z.of_nat (List.length unique_dates);
           personality := None |} in
      Ok (Stats (set_personality s (determine_personality s))))))
  end.

End ProcessData.

(** ** What the statistics are meant to be *)

Module Spec.

(** The number a string of decimal digits denotes. *)
Definition dec_value (ds : str) : Z :=
  fold_left (fun acc c => 10 * acc + digit_val c) ds 0.

Definition digits (ds : str) : Prop :=
  ds <> [] /\ Forall (fun c => is_digit c = true) ds.

(** A number [int()] converts: of no more digits than the limit. *)
Definition short (ds : str) : Prop :=
  Z.of_nat (List.length ds) <= int_max_str_digits.

Definition spaces (ws : str) : Prop :=
  Forall (fun c => is_space c = true) ws.

(** The text before the first occurrence of a character. *)
Fixpoint before_first (sep : ascii) (s : str) : str :=
  match s with
  | [] => []
  | c :: s' => if Ascii.eqb c sep then [] else c :: before_first sep s'
  end.

(** What a pattern matches: at position [i], [r] consumes [w] while
    [rest] follows, and takes the groups from [c] to [c']. *)
Inductive matches : Re.regex -> nat -> str -> str -> Re.caps -> Re.caps -> Prop :=
| M_Eps i rest c : matches Re.Eps i [] rest c c
| M_One cl a i rest c :
    Re.cmatch cl a = true -> matches (Re.One cl) i [a] rest c c
| M_Seq r1 r2 i w1 w2 rest c c1 c2 :
    matches r1 i w1 (w2 ++ rest) c c1 ->
    matches r2 (i + List.length w1)%nat w2 rest c1 c2 ->
    matches (Re.Seq r1 r2) i (w1 ++ w2) rest c c2
| M_AltL r1 r2 i w rest c c' :
    matches r1 i w rest c c' -> matches (Re.Alt r1 r2) i w rest c c'
| M_AltR r1 r2 i w rest c c' :
    matches r2 i w rest c c' -> matches (Re.Alt r1 r2) i w rest c c'
| M_Rep g cl i w rest c :
    Forall (fun a => Re.cmatch cl a = true) w ->
    matches (Re.Rep g cl) i w rest c c
| M_Group n r i w rest c c' :
    matches r i w rest c c' ->
    matches (Re.Group n r) i w rest c ((n, w) :: c')
| M_Bol rest c : matches Re.Bol 0%nat [] rest c c
| M_Eol i rest c :
    rest = [] \/ rest = [Re.newline] -> matches Re.Eol i [] rest c c.

(** A title of the shape [show: Season N...]: a non-empty [show], a
    colon, optional white space, [Season], optional white space and a
    number. *)
Definition season_title (t show number : str) : Prop :=
  exists ws1 ws2 tail,
    t = show ++ s2l ":" ++ ws1 ++ s2l "Season" ++ ws2 ++ number ++ tail
    /\ show <> [] /\ spaces ws1 /\ spaces ws2 /\ digits number.

(** The literal heads of the fragments [re.sub] deletes from a title
    that is not an episode. *)
Definition fragment_heads : list str :=
  map s2l ["_hook"; "_primary"; "Clip "; "Teaser"]%string.

Definition no_fragment_at_start (t : str) : Prop :=
  Forall (fun l => starts_with l t = false) fragment_heads.

Definition no_fragment (t : str) : Prop :=
  Forall (fun l => contains l t = false) fragment_heads.

Definition no_marker (t : str) : Prop :=
  contains (s2l ": Season") t = false /\ contains (s2l ": Episode") t = false.


(** Every duration of the export fits a 64-bit integer. *)
Definition durations_fit (csv : list Csv.Row) : Prop :=
  Forall (fun r =>
            - 2 ^ 63 <= ProcessNetflixData.parse_duration (Csv.Duration r)
            < 2 ^ 63) csv.

(** Text without a colon and without a newline. *)
Definition plain (s : str) : Prop :=
  Forall (fun c => c <> ":"%char /\ c <> Re.newline) s.

(** Text without a newline. *)
Definition one_line (s : str) : Prop :=
  Forall (fun c => c <> Re.newline) s.

(** Text that does not begin with a digit. *)
Definition no_leading_digit (s : str) : Prop :=
  forall a s', s = a :: s' -> is_digit a = false.

(** First-match evaluation of an ordered list of rules. *)
Definition first_match {S L} (rules : list ((S -> bool) * L)) (default : L)
  (s : S) : L :=
  match find (fun r => fst r s) rules with
  | Some r => snd r
  | None => default
  end.

(** The rules of process_data.py, in the order of its [elif] chain. *)
Definition rules_process_data
  : list ((ProcessData.stats -> bool) * ProcessData.personality_t) :=
  [ (fun s => Qgtb (ProcessData.estimated_hours s) (500 # 1),
     ProcessData.streaming_champion);
    (fun s => ProcessData.binge_sessions s >? 50, ProcessData.binge_master);
    (fun s => contains (s2l "Night") (ProcessData.peak_time s),
     ProcessData.night_owl);
    (fun s => ProcessData.longest_streak s >? 30,
     ProcessData.devoted_streamer);
    (fun s => Qgtb (ProcessData.estimated_hours s) (200 # 1),
     ProcessData.enthusiast);
    (fun s => contains (s2l "Morning") (ProcessData.peak_time s),
     ProcessData.early_bird) ].

(** The rules of process_netflix_data.py, in the order of its [if]
    statements. *)
Definition rules_process_netflix_data
  : list ((ProcessNetflixData.stats -> bool) * (str * str)) :=
  [ (fun s => ProcessNetflixData.unique_shows s >? 100,
     ProcessNetflixData.plot_twist_addict);
    (fun s => (ProcessNetflixData.longest_streak s >? 20)
              && (ProcessNetflixData.binge_sessions s >? 40),
     ProcessNetflixData.marathon_runner);
    (fun s => Qgtb (ProcessNetflixData.night_ratio s) (1 # 2),
     ProcessNetflixData.after_hours_explorer);
    (fun s => ProcessNetflixData.binge_sessions s >? 50,
     ProcessNetflixData.serial_chiller);
    (fun s => (ProcessNetflixData.movies_watched s >? 150)
              && (ProcessNetflixData.episodes_watched s >? 400),
     ProcessNetflixData.couch_critic);
    (fun s => Qgtb (ProcessNetflixData.weekend_ratio s) (4 # 10),
     ProcessNetflixData.weekend_wanderer);
    (fun s => ProcessNetflixData.active_days s >? 200,
     ProcessNetflixData.steady_streamer) ].

(** No rule of the list holds. *)
Definition no_rule_holds {S L} (rules : list ((S -> bool) * L)) (s : S)
  : Prop :=
  forall r, In r rules -> fst r s = false.

(** [n] consecutive days from [d] on are all watch dates. *)
Definition run_in (dates : list Z) (d n : Z) : Prop :=
  forall i, 0 <= i < n -> In (d + i) dates.

(** [n] is the length of the longest run of consecutive watch dates. *)
Definition longest_run (dates : list Z) (n : Z) : Prop :=
  (exists d, run_in dates d n) /\ forall d m, run_in dates d m -> m <= n.

(** What the streak loop knows after the dates [seen], the last of
    which is [prev]: the run that ends at [prev] has [cur] days and
    cannot be extended to the left, and [mx] is the longest run in
    [seen]. *)
Definition streak_inv (seen : list Z) (prev mx cur : Z) : Prop :=
  (1 <= cur <= mx) /\
  Forall (fun x => x <= prev) seen /\
  run_in seen (prev - cur + 1) cur /\
  ~ In (prev - cur) seen /\
  longest_run seen mx.

(** [k] is the arg-max of the mapping [d], the earliest key winning a
    tie: its value is at least every value, and more than every value
    that comes before it. *)
Definition first_argmax (d : list (str * Z)) (k : str) : Prop :=
  exists i v,
    nth_error d i = Some (k, v) /\
    forall j k' v', nth_error d j = Some (k', v') ->
      v' <= v /\ ((j < i)%nat -> v' < v).

End Spec.

(** ** Sample exports *)

Module Samples.

Definition on (y m d h : Z) : Cal.Timestamp :=
  {| Cal.ordinal := Cal.ymd2ord y m d; Cal.hour := h |}.

Definition viewing (title : string) (t : Cal.Timestamp) (duration : string)
  : Csv.Row :=
  {| Csv.Title := Str (s2l title); Csv.Start_Time := Some t;
     Csv.Duration := Str (s2l duration);
     Csv.Supplemental_Video_Type := NaN |}.

(** Watching on 1, 2, 3 and 5 January 2025. *)
Definition four_days : list Csv.Row :=
  [ viewing "Inception" (on 2025 1 1 20) "02:28:00";
    viewing "Stranger Things: Season 4: Chapter One (Episode 1)"
            (on 2025 1 2 21) "01:16:00";
    viewing "Stranger Things: Season 4: Chapter Two (Episode 2)"
            (on 2025 1 3 21) "01:15:00";
    viewing "Inception" (on 2025 1 5 9) "00:40:00" ].

(** One film, three viewing records on one day. *)
Definition film_thrice : list Csv.Row :=
  [ viewing "Inception" (on 2025 1 1 14) "00:50:00";
    viewing "Inception" (on 2025 1 1 20) "01:00:00";
    viewing "Inception" (on 2025 1 1 22) "00:38:00" ].

(** Four episodes of one show on one day, and a film the day after. *)
Definition one_binge : list Csv.Row :=
  [ viewing "Stranger Things: Season 4: Chapter One (Episode 1)"
            (on 2025 3 8 18) "01:16:00";
    viewing "Stranger Things: Season 4: Chapter Two (Episode 2)"
            (on 2025 3 8 19) "01:15:00";
    viewing "Stranger Things: Season 4: Chapter Three (Episode 3)"
            (on 2025 3 8 21) "01:03:00";
    viewing "Stranger Things: Season 4: Chapter Four (Episode 4)"
            (on 2025 3 8 22) "01:17:00";
    viewing "Inception" (on 2025 3 9 20) "02:28:00" ].



(** Viewing of the year before only. *)
Definition last_year : list Csv.Row :=
  [ viewing "Inception" (on 2024 12 31 20) "02:28:00" ].

(** Statistics of process_data.py with more than 500 hours and more
    than 50 binge sessions. *)
Definition heavy_viewer : ProcessData.stats :=
  {| ProcessData.total_titles_watched := 800;
     ProcessData.unique_shows := 40;
     ProcessData.year := 2025;
     ProcessData.estimated_hours := ProcessData.estimate_hours 800;
     ProcessData.monthly_breakdown := [];
     ProcessData.peak_month := None;
     ProcessData.peak_month_count := None;
     ProcessData.day_of_week := [];
     ProcessData.favorite_day := None;
     ProcessData.favorite_day_count := None;
     ProcessData.time_categories := [];
     ProcessData.peak_time := s2l "Evening (6pm-10pm)";
     ProcessData.binge_sessions := 60;
     ProcessData.biggest_binge := 9;
     ProcessData.longest_streak := 12;
     ProcessData.active_days := 200;
     ProcessData.personality := None |}.

End Samples.

(** ** Entries and code paths the statistics records leave out *)

Module Groups.

(** [str(k)] on an integer: its decimal digits, after a minus sign
    when it is negative. *)
Definition str_of_int (k : Z) : str :=
  s2l (NilZero.string_of_int (Z.to_int k)).

(** [a < b] on [str]: by code point, a proper prefix coming first. *)
Fixpoint str_ltb (a b : str) : bool :=
  match a, b with
  | _, [] => false
  | [], _ :: _ => true
  | x :: a', y :: b' =>
      (nat_of_ascii x <? nat_of_ascii y)%nat
      || ((nat_of_ascii x =? nat_of_ascii y)%nat && str_ltb a' b')
  end.

(** [a < b] on [(date, show)] tuples: by date, then by show. *)
Definition key_ltb (a b : Pd.key) : bool :=
  (fst a <? fst b) || ((fst a =? fst b) && str_ltb (snd a) (snd b)).

Fixpoint insert_key (k : Pd.key) (l : list Pd.key) : list Pd.key :=
  match l with
  | [] => [k]
  | k' :: l' => if key_ltb k' k then k' :: insert_key k l' else k :: l
  end.

(** The distinct keys in increasing order. *)
Definition sorted_keys (keys : list Pd.key) : list Pd.key :=
  fold_right insert_key [] (nodup Pd.key_eq_dec keys).

(** [groupby([date, show]).size()] with its entries in the order
    pandas gives them, that of the keys. *)
Definition sizes (keys : list Pd.key) : list (Pd.key * Z) :=
  map (fun k => (k, Z.of_nat (count_occ Pd.key_eq_dec keys k)))
      (sorted_keys keys).

(** The order of the keys, and of the entries by their keys. *)
Definition key_lt (a b : Pd.key) : Prop := key_ltb a b = true.

Definition entry_lt (a b : Pd.key * Z) : Prop := key_lt (fst a) (fst b).

End Groups.

Module ProcessDataRest.

Import ProcessData.

(** [stats['hourly_breakdown']], from the rows of the selected year:
    [value_counts().sort_index()] has one entry per hour that occurs,
    in increasing order of the hours. *)
Definition hourly_breakdown (df : list row) : list (str * Z) :=
  map (fun k => (Groups.str_of_int k, Pd.count (fun r => Hour r =? k) df))
      (Pd.sorted_unique (map Hour df)).

(** [biggest_binge_idx], the key behind [biggest_binge_show] and
    [biggest_binge_date], from the rows of the selected year; the two
    entries are set only when there is a binge session. *)
Definition biggest_binge_idx (df : list row) : res (option Pd.key) :=
  let daily_shows :=
    Groups.sizes (map (fun r => (Cal.date (Date r), ShowName r)) df) in
  let binges := filter (fun g => snd g >=? binge_threshold) daily_shows in
  match binges with
  | [] => Ok None
  | _ => bind (max_by_value binges) (fun idx => Ok (Some idx))
  end.

(** [df['Year'].unique()]: the distinct years, in the order in which
    they first appear. *)
Fixpoint unique (col : list Z) : list Z :=
  match col with
  | [] => []
  | x :: col' => x :: filter (fun y => negb (y =? x)) (unique col')
  end.

(** [2025 if 2025 in available_years
     else max([y for y in available_years if y <= current_year])] *)
Definition target_year (available_years : list Z) (current_year : Z)
  : res Z :=
  if existsb (fun y => y =? 2025) available_years then Ok 2025
  else ProcessNetflixData.py_max
         (filter (fun y => y <=? current_year) available_years).

(** [main()] from the loaded file to the statistics handed to
    [save_stats]; [current_year] is [datetime.now().year]. *)
Definition main (csv : list Csv.Row) (current_year : Z) : res output :=
  bind (load_viewing_data csv) (fun df =>
  let available_years := unique (map Year df) in
  bind (target_year available_years current_year) (fun year =>
  calculate_stats df (Some year))).

End ProcessDataRest.

Module ProcessNetflixDataRest.

Import ProcessNetflixData.

(** [biggest_binge_show], from the rows of a [df_main] that has
    some (on an empty one the [groupby] before it raises): the show
    of the first largest group when that group reaches the
    threshold. *)
Definition biggest_binge_show (df : list main_row) : res str :=
  let daily_show_counts :=
    Groups.sizes (map (fun r => (Date r, Show r)) (filter Is_Episode df)) in
  match daily_show_counts with
  | [] => Ok []
  | x :: l =>
      bind (max_by_value daily_show_counts) (fun biggest_binge_idx =>
      let biggest_binge := Pd.max_of (snd x) (map snd l) in
      Ok (if biggest_binge >=? binge_threshold
          then snd biggest_binge_idx else []))
  end.

(** The simplification of the name of the most used device. *)
Definition simplify_device (top_device : str) : str :=
  if contains (s2l "TV") top_device || contains (s2l "Smart TV") top_device
  then s2l "Smart TV"
  else if contains (s2l "iPhone") top_device then s2l "iPhone"
  else if contains (s2l "Android") top_device then s2l "Android"
  else top_device.

End ProcessNetflixDataRest.

Module MoreSamples.

Import Samples.

(** Viewing in 2023 and 2024 only. *)
Definition two_years : list Csv.Row :=
  [ viewing "Inception" (on 2023 5 1 20) "02:28:00";
    viewing "Stranger Things: Season 4: Chapter One (Episode 1)"
            (on 2024 7 2 21) "01:16:00";
    viewing "Inception" (on 2024 7 3 9) "00:40:00" ].

(** A record of 2025 without a title. *)
Definition untitled : Csv.Row :=
  {| Csv.Title := NaN; Csv.Start_Time := Some (on 2025 1 1 20);
     Csv.Duration := Str (s2l "00:40:00");
     Csv.Supplemental_Video_Type := NaN |}.

(** A film, and a record without a title on the same day. *)
Definition film_and_untitled : list Csv.Row :=
  [ viewing "Inception" (on 2025 1 1 18) "02:28:00"; untitled ].

End MoreSamples.

(* ===================================================================== *)
(** * Part II: properties *)
(* ===================================================================== *)

(** ** The calendar *)

Section CalendarFacts.

(** The days of 2025 are the ordinals from 1 January to 31 December
    of that year. *)
Lemma year_2025_ordinals t :
  Cal.year t = 2025
  <-> Cal.ymd2ord 2025 1 1 <= Cal.ordinal t <= Cal.ymd2ord 2025 12 31.
Proof.
  change (Cal.ymd2ord 2025 1 1) with 739252.
  change (Cal.ymd2ord 2025 12 31) with 739616.
  unfold Cal.year, Cal.ord2ymd.
  destruct t as [n h]. cbn [Cal.ordinal].
  set (a := (n - 1) mod 146097).
  set (b := a mod 36524).
  set (c := b mod 1461).
  destruct ((c / 365 =? 4) || (a / 36524 =? 4)) eqn:E.
  - cbn [fst]. apply orb_true_iff in E. rewrite !Z.eqb_eq in E.
    subst a b c. split; intros; Z.div_mod_to_equations; lia.
  - apply orb_false_iff in E. rewrite !Z.eqb_neq in E.
    match goal with
    | |- context [if ?x then _ else _] => destruct x
    end; cbn [fst]; subst a b c;
      split; intros; Z.div_mod_to_equations; lia.
Qed.

(** 1 January 2025 is a Wednesday. *)
Lemma new_year_2025 :
  Cal.ord2ymd (Cal.ymd2ord 2025 1 1) = (2025, 1, 1) /\
  Cal.day_name {| Cal.ordinal := Cal.ymd2ord 2025 1 1; Cal.hour := 0 |}
  = s2l "Wednesday".
Proof. split; reflexivity. Qed.

End CalendarFacts.

(** ** Characters, [strip], [split] and [int] *)

Section PyFacts.

Lemma digit_char (c : ascii) :
  is_digit c = true ->
  is_space c = false /\ is_int_space c = false /\
  Ascii.eqb c "-" = false /\ Ascii.eqb c "+" = false /\
  Ascii.eqb c ":" = false /\ 0 <= digit_val c <= 9.
Proof.
  destruct c as [[] [] [] [] [] [] [] []]; vm_compute;
    intuition congruence.
Qed.

Lemma lstrip_by_suffix sp s : exists p, s = p ++ lstrip_by sp s.
Proof.
  induction s as [|c s IH]; simpl.
  - now exists [].
  - destruct (sp c).
    + destruct IH as [p Hp]. exists (c :: p). simpl. now f_equal.
    + now exists [].
Qed.

Lemma lstrip_by_In sp s c : In c (lstrip_by sp s) -> In c s.
Proof.
  intros H. destruct (lstrip_by_suffix sp s) as [p Hp].
  rewrite Hp. apply in_or_app. now right.
Qed.

Lemma strip_by_In sp s c : In c (strip_by sp s) -> In c s.
Proof.
  unfold strip_by, rstrip_by. intros H.
  apply in_rev in H. apply lstrip_by_In in H. apply in_rev in H.
  now apply lstrip_by_In in H.
Qed.

Lemma lstrip_by_head sp c s : sp c = false -> lstrip_by sp (c :: s) = c :: s.
Proof. intros H. simpl. now rewrite H. Qed.

Lemma lstrip_by_nil sp s :
  lstrip_by sp s = [] <-> Forall (fun c => sp c = true) s.
Proof.
  induction s as [|c s IH]; simpl.
  - split; auto.
  - destruct (sp c) eqn:E.
    + rewrite IH. split; intros H.
      * now constructor.
      * now inversion H.
    + split; intros H; [discriminate|].
      inversion H; congruence.
Qed.

Lemma lstrip_by_head_false sp s c s' :
  lstrip_by sp s = c :: s' -> sp c = false.
Proof.
  induction s as [|a s IH]; simpl; [discriminate|].
  destruct (sp a) eqn:E; auto.
  intros H. inversion H; subst. exact E.
Qed.

Lemma strip_by_nil sp s :
  strip_by sp s = [] <-> Forall (fun c => sp c = true) s.
Proof.
  unfold strip_by, rstrip_by. split.
  - intros H.
    assert (H1 : lstrip_by sp (rev (lstrip_by sp s)) = []).
    { rewrite <- (rev_involutive (lstrip_by sp _)). now rewrite H. }
    apply lstrip_by_nil in H1. apply Forall_rev in H1.
    rewrite rev_involutive in H1.
    destruct (lstrip_by sp s) as [|c s'] eqn:E.
    + now apply lstrip_by_nil.
    + apply lstrip_by_head_false in E. inversion H1; congruence.
  - intros H. apply lstrip_by_nil in H. now rewrite H.
Qed.

Lemma strip_by_head sp c s : sp c = false -> strip_by sp (c :: s) <> [].
Proof.
  intros H E. apply strip_by_nil in E. inversion E; congruence.
Qed.

Lemma strip_by_clean sp s :
  Forall (fun c => sp c = false) s -> strip_by sp s = s.
Proof.
  intros H. unfold strip_by, rstrip_by.
  assert (L : forall l, Forall (fun c => sp c = false) l ->
                        lstrip_by sp l = l).
  { intros [|a l] Hl; [reflexivity|]. inversion Hl; subst.
    now apply lstrip_by_head. }
  rewrite (L s H), (L (rev s)) by now apply Forall_rev.
  apply rev_involutive.
Qed.

Lemma split_not_nil sep s : split sep s <> [].
Proof.
  destruct s as [|c s]; simpl; [discriminate|].
  destruct (Ascii.eqb c sep); [discriminate|].
  destruct (split sep s); discriminate.
Qed.

Lemma split_first sep s :
  first_item (split sep s) = Ok (Spec.before_first sep s).
Proof.
  induction s as [|c s IH]; simpl; [reflexivity|].
  destruct (Ascii.eqb c sep); [reflexivity|].
  destruct (split sep s) as [|p ps]; simpl in *.
  - discriminate.
  - now inversion IH.
Qed.

Lemma split_clean sep s :
  Forall (fun c => Ascii.eqb c sep = false) s -> split sep s = [s].
Proof.
  induction 1 as [|c s Hc Hs IH]; simpl; [reflexivity|].
  now rewrite Hc, IH.
Qed.

Lemma split_app sep a b :
  Forall (fun c => Ascii.eqb c sep = false) a ->
  split sep (a ++ sep :: b) = a :: split sep b.
Proof.
  induction 1 as [|c s Hc Hs IH]; simpl.
  - now rewrite Ascii.eqb_refl.
  - now rewrite Hc, IH.
Qed.

Lemma split_In sep s p c : In p (split sep s) -> In c p -> In c s.
Proof.
  revert p. induction s as [|a s IH]; simpl; intros p Hp Hc.
  - destruct Hp as [<-|[]]. destruct Hc.
  - destruct (Ascii.eqb a sep).
    + destruct Hp as [<-|Hp]; [destruct Hc|]. right. eapply IH; eauto.
    + destruct (split sep s) as [|q qs] eqn:E.
      * destruct Hp as [<-|[]]. destruct Hc as [->|[]]. now left.
      * destruct Hp as [<-|Hp].
        -- destruct Hc as [->|Hc]; [now left|]. right.
           apply (IH q); [now left|exact Hc].
        -- right. apply (IH p); [now right|exact Hc].
Qed.

Lemma int_digits_all ds :
  Forall (fun c => is_digit c = true) ds ->
  forall acc seen, ds <> [] \/ seen = true ->
  int_digits acc seen ds
  = Ok (fold_left (fun a c => 10 * a + digit_val c) ds acc).
Proof.
  induction 1 as [|c ds Hc Hds IH]; intros acc seen Hne; simpl.
  - destruct Hne as [Hne| ->]; [congruence|reflexivity].
  - rewrite Hc. apply IH. now right.
Qed.

Lemma filter_digits ds :
  Forall (fun c => is_digit c = true) ds -> filter is_digit ds = ds.
Proof.
  induction 1 as [|c ds Hc Hds IH]; cbn [filter]; [reflexivity|].
  now rewrite Hc, IH.
Qed.

Lemma int_literal_digits ds :
  Spec.digits ds ->
  int_literal ds
  = if Z.of_nat (List.length ds) >? int_max_str_digits
    then Raise ValueError else Ok (Spec.dec_value ds).
Proof.
  intros [Hne Hd]. unfold int_literal.
  rewrite (int_digits_all ds Hd 0 false) by now left.
  cbn [bind]. now rewrite (filter_digits ds Hd).
Qed.

Lemma int_digits_cases ds :
  Spec.digits ds ->
  int ds
  = if Z.of_nat (List.length ds) >? int_max_str_digits
    then Raise ValueError else Ok (Spec.dec_value ds).
Proof.
  intros Hds. pose proof Hds as [Hne Hd]. unfold int.
  rewrite strip_by_clean.
  2:{ eapply Forall_impl; [|exact Hd]. intros c Hc.
      now apply digit_char in Hc. }
  destruct ds as [|c ds]; [congruence|].
  inversion Hd; subst.
  destruct (digit_char c) as (_ & _ & -> & -> & _); [assumption|].
  now apply int_literal_digits.
Qed.

Lemma int_of_digits ds :
  Spec.digits ds -> Spec.short ds -> int ds = Ok (Spec.dec_value ds).
Proof.
  intros Hds Hs. rewrite (int_digits_cases ds Hds).
  unfold Spec.short in Hs.
  destruct (Z.of_nat (List.length ds) >? int_max_str_digits) eqn:E;
    [lia|reflexivity].
Qed.

Lemma int_of_long_digits ds :
  Spec.digits ds -> ~ Spec.short ds -> int ds = Raise ValueError.
Proof.
  intros Hds Hs. rewrite (int_digits_cases ds Hds).
  unfold Spec.short in Hs.
  destruct (Z.of_nat (List.length ds) >? int_max_str_digits) eqn:E;
    [reflexivity|lia].
Qed.

Lemma int_digits_raises ds e :
  Spec.digits ds -> int ds = Raise e -> e = ValueError /\ ~ Spec.short ds.
Proof.
  intros Hds. rewrite (int_digits_cases ds Hds). unfold Spec.short.
  destruct (Z.of_nat (List.length ds) >? int_max_str_digits) eqn:E;
    [|discriminate].
  intros H. split; [congruence|lia].
Qed.

Lemma short_intro ds :
  (Z.of_nat (List.length ds) <=? int_max_str_digits) = true -> Spec.short ds.
Proof. unfold Spec.short. lia. Qed.

Lemma int_digits_nonneg s :
  forall acc seen z, 0 <= acc -> int_digits acc seen s = Ok z -> 0 <= z.
Proof.
  induction s as [|c s IH]; intros acc seen z Hacc; cbn [int_digits].
  - destruct seen; [|discriminate]. intros H; inversion H; subst; auto.
  - destruct (is_digit c) eqn:Hc.
    + intros H. apply digit_char in Hc.
      destruct Hc as (_ & _ & _ & _ & _ & Hv).
      refine (IH _ _ _ _ H). lia.
    + destruct (Ascii.eqb c "_" && seen); [|discriminate].
      intros H. exact (IH _ _ _ Hacc H).
Qed.

Lemma dec_value_nonneg ds :
  Forall (fun c => is_digit c = true) ds -> 0 <= Spec.dec_value ds.
Proof.
  intros H. unfold Spec.dec_value.
  assert (G : forall acc, 0 <= acc ->
    0 <= fold_left (fun a c => 10 * a + digit_val c) ds acc).
  { induction H as [|c ds Hc Hds IH]; intros acc Hacc; cbn [fold_left]; auto.
    apply digit_char in Hc. destruct Hc as (_ & _ & _ & _ & _ & Hv).
    refine (IH _ _). lia. }
  refine (G 0 _). lia.
Qed.

Lemma int_nonneg s z :
  ~ In "-"%char s -> int s = Ok z -> 0 <= z.
Proof.
  intros Hs. unfold int.
  destruct (strip_by is_int_space s) as [|c s'] eqn:E; [discriminate|].
  assert (Hc : In c s) by (apply (strip_by_In is_int_space); rewrite E; now left).
  destruct (Ascii.eqb c "-") eqn:Em.
  - apply Ascii.eqb_eq in Em. subst. contradiction.
  - assert (H0 : 0 <= 0) by lia.
    assert (L : forall l, int_literal l = Ok z -> 0 <= z).
    { intros l. unfold int_literal.
      destruct (int_digits 0 false l) as [z'|] eqn:El; [|discriminate].
      cbn [bind].
      destruct (_ >? _); [discriminate|].
      intros H. injection H as ->.
      exact (int_digits_nonneg _ _ _ _ H0 El). }
    destruct (Ascii.eqb c "+"); apply L.
Qed.

End PyFacts.

(** ** parse_duration *)

Section ParseDuration.

Import ProcessNetflixData.

Lemma digits_no_colon ds :
  Forall (fun c => is_digit c = true) ds ->
  Forall (fun c => Ascii.eqb c ":" = false) ds.
Proof.
  intros H. eapply Forall_impl; [|exact H].
  intros c Hc. now apply digit_char in Hc.
Qed.

Lemma parse_duration_hms h m s :
  Spec.digits h -> Spec.digits m -> Spec.digits s ->
  Spec.short h -> Spec.short m -> Spec.short s ->
  parse_duration (Str (h ++ ":"%char :: m ++ ":"%char :: s))
  = Spec.dec_value h * 3600 + Spec.dec_value m * 60 + Spec.dec_value s.
Proof.
  intros Hh Hm Hs Lh Lm Ls. unfold parse_duration.
  destruct (str_eqb _ []) eqn:E.
  { unfold str_eqb in E. destruct (list_eq_dec _ _ _) as [E'|]; [|discriminate].
    destruct h; [destruct Hh; congruence | discriminate]. }
  rewrite split_app by (apply digits_no_colon, Hh).
  rewrite split_app by (apply digits_no_colon, Hm).
  rewrite split_clean by (apply digits_no_colon, Hs).
  cbv beta iota zeta.
  now rewrite (int_of_digits h Hh Lh), (int_of_digits m Hm Lm),
    (int_of_digits s Hs Ls).
Qed.

Lemma parse_duration_ms m s :
  Spec.digits m -> Spec.digits s -> Spec.short m -> Spec.short s ->
  parse_duration (Str (m ++ ":"%char :: s))
  = Spec.dec_value m * 60 + Spec.dec_value s.
Proof.
  intros Hm Hs Lm Ls. unfold parse_duration.
  destruct (str_eqb _ []) eqn:E.
  { unfold str_eqb in E. destruct (list_eq_dec _ _ _) as [E'|]; [|discriminate].
    destruct m; [destruct Hm; congruence | discriminate]. }
  rewrite split_app by (apply digits_no_colon, Hm).
  rewrite split_clean by (apply digits_no_colon, Hs).
  cbv beta iota zeta.
  now rewrite (int_of_digits m Hm Lm), (int_of_digits s Hs Ls).
Qed.

Lemma parse_duration_fields s :
  List.length (split ":"%char s) <> 2%nat ->
  List.length (split ":"%char s) <> 3%nat ->
  parse_duration (Str s) = 0.
Proof.
  intros H2 H3. unfold parse_duration in *.
  destruct (str_eqb s []); [reflexivity|].
  destruct (split ":" s) as [|p0 [|p1 [|p2 [|p3 l]]]]; simpl in *;
    try reflexivity; congruence.
Qed.

Lemma parse_duration_rejected s :
  Exists (fun p => exists e, int p = Raise e) (split ":"%char s) ->
  parse_duration (Str s) = 0.
Proof.
  intros H. unfold parse_duration in *.
  destruct (str_eqb s []); [reflexivity|].
  destruct (split ":" s) as [|p0 [|p1 [|p2 [|p3 l]]]];
    try reflexivity; cbv beta iota zeta.
  - apply Exists_cons in H.
    destruct H as [[e He]|H].
    + now rewrite He.
    + apply Exists_cons in H. destruct H as [[e He]|H]; [|inversion H].
      rewrite He. now destruct (int p0).
  - apply Exists_cons in H.
    destruct H as [[e He]|H].
    + now rewrite He.
    + apply Exists_cons in H. destruct H as [[e He]|H].
      * rewrite He. now destruct (int p0).
      * apply Exists_cons in H. destruct H as [[e He]|H]; [|inversion H].
        rewrite He. destruct (int p0); [|reflexivity].
        now destruct (int p1).
Qed.

Lemma parse_duration_unsigned s :
  ~ In "-"%char s -> 0 <= parse_duration (Str s).
Proof.
  intros Hs. unfold parse_duration.
  destruct (str_eqb s []); [lia|].
  assert (P : forall p z, In p (split ":" s) -> int p = Ok z -> 0 <= z).
  { intros p z Hp. apply int_nonneg. intros Hm. apply Hs.
    eapply split_In; eauto. }
  destruct (split ":" s) as [|p0 [|p1 [|p2 [|p3 l]]]];
    cbv beta iota zeta; unfold try_except; simpl bind; try lia.
  - destruct (int p0) as [a|] eqn:E0; simpl; [|lia].
    destruct (int p1) as [b|] eqn:E1; simpl; [|lia].
    assert (0 <= a) by (eapply (P p0); simpl; eauto).
    assert (0 <= b) by (eapply (P p1); simpl; eauto). lia.
  - destruct (int p0) as [a|] eqn:E0; simpl; [|lia].
    destruct (int p1) as [b|] eqn:E1; simpl; [|lia].
    destruct (int p2) as [d|] eqn:E2; simpl; [|lia].
    assert (0 <= a) by (eapply (P p0); simpl; eauto).
    assert (0 <= b) by (eapply (P p1); simpl; eauto).
    assert (0 <= d) by (eapply (P p2); simpl; eauto). lia.
Qed.

Lemma df_valid_positive csv t r :
  In (t, r) (df_valid csv) -> 0 < parse_duration (Csv.Duration r).
Proof.
  unfold df_valid. intros H. apply filter_In in H.
  destruct H as [_ H]. unfold duration_seconds in H. simpl in H. lia.
Qed.

Lemma parse_duration_long_field h m s :
  Spec.digits h -> Spec.digits m -> Spec.digits s ->
  ~ Spec.short h \/ ~ Spec.short m \/ ~ Spec.short s ->
  parse_duration (Str (h ++ ":"%char :: m ++ ":"%char :: s)) = 0.
Proof.
  intros Hh Hm Hs L. apply parse_duration_rejected.
  rewrite split_app by (apply digits_no_colon, Hh).
  rewrite split_app by (apply digits_no_colon, Hm).
  rewrite split_clean by (apply digits_no_colon, Hs).
  destruct L as [L|[L|L]].
  - apply Exists_cons_hd. exists ValueError. now apply int_of_long_digits.
  - apply Exists_cons_tl, Exists_cons_hd. exists ValueError.
    now apply int_of_long_digits.
  - apply Exists_cons_tl, Exists_cons_tl, Exists_cons_hd. exists ValueError.
    now apply int_of_long_digits.
Qed.

(** C8 (as amended): [parse_duration] is total and never raises. A
    missing value and the empty string give 0; [H:M:S] with fields of
    digits only, each of at most 4300 digits, gives
    [H*3600 + M*60 + S], and [M:S] gives [M*60 + S]; with a field of
    more than 4300 digits [int()] raises and the result is 0; a string
    with another number of colon-separated fields, or with a field
    [int()] rejects, gives 0; the result is not negative when the
    string has no minus sign; and a row that survives the
    [Duration_Seconds > 0] filter has a positive duration. *)
Theorem parse_duration_spec :
  parse_duration NaN = 0 /\
  parse_duration (Str []) = 0 /\
  (forall h m s, Spec.digits h -> Spec.digits m -> Spec.digits s ->
     Spec.short h -> Spec.short m -> Spec.short s ->
     parse_duration (Str (h ++ ":"%char :: m ++ ":"%char :: s))
     = Spec.dec_value h * 3600 + Spec.dec_value m * 60 + Spec.dec_value s
     /\ 0 <= parse_duration (Str (h ++ ":"%char :: m ++ ":"%char :: s))) /\
  (forall m s, Spec.digits m -> Spec.digits s ->
     Spec.short m -> Spec.short s ->
     parse_duration (Str (m ++ ":"%char :: s))
     = Spec.dec_value m * 60 + Spec.dec_value s) /\
  (forall h m s, Spec.digits h -> Spec.digits m -> Spec.digits s ->
     ~ Spec.short h \/ ~ Spec.short m \/ ~ Spec.short s ->
     parse_duration (Str (h ++ ":"%char :: m ++ ":"%char :: s)) = 0) /\
  (forall s, List.length (split ":"%char s) <> 2%nat ->
             List.length (split ":"%char s) <> 3%nat ->
             parse_duration (Str s) = 0) /\
  (forall s, Exists (fun p => exists e, int p = Raise e) (split ":"%char s) ->
             parse_duration (Str s) = 0) /\
  (forall s, ~ In "-"%char s -> 0 <= parse_duration (Str s)) /\
  (forall csv t r, In (t, r) (df_valid csv) ->
                   0 < parse_duration (Csv.Duration r)).
Proof.
  split; [reflexivity|]. split; [reflexivity|].
  split.
  { intros h m s Hh Hm Hs Lh Lm Ls. split; [now apply parse_duration_hms|].
    rewrite parse_duration_hms by assumption.
    pose proof (dec_value_nonneg h (proj2 Hh)).
    pose proof (dec_value_nonneg m (proj2 Hm)).
    pose proof (dec_value_nonneg s (proj2 Hs)). lia. }
  split; [exact parse_duration_ms|].
  split; [exact parse_duration_long_field|].
  split; [exact parse_duration_fields|].
  split; [exact parse_duration_rejected|].
  split; [exact parse_duration_unsigned|exact df_valid_positive].
Qed.

Lemma digits_intro ds :
  ds <> [] -> forallb is_digit ds = true -> Spec.digits ds.
Proof.
  intros Hne H. split; [exact Hne|].
  apply Forall_forall. now apply forallb_forall.
Qed.

(** [parse_duration_spec] at ["01:02:03"]: 3723 seconds; and at an
    hour field of 4301 digits before [":00:00"]: 0. *)
Lemma parse_duration_spec_witness :
  Spec.digits (s2l "01") /\ Spec.digits (s2l "02") /\ Spec.digits (s2l "03") /\
  Spec.short (s2l "01") /\ Spec.short (s2l "02") /\ Spec.short (s2l "03") /\
  parse_duration (Str (s2l "01:02:03")) = 3723 /\
  Spec.digits (repeat "1"%char 4301) /\ ~ Spec.short (repeat "1"%char 4301) /\
  parse_duration
    (Str (repeat "1"%char 4301 ++ ":"%char :: s2l "00" ++ ":"%char :: s2l "00"))
  = 0.
Proof.
  assert (H1 : Spec.digits (s2l "01")) by (apply digits_intro; [discriminate|reflexivity]).
  assert (H2 : Spec.digits (s2l "02")) by (apply digits_intro; [discriminate|reflexivity]).
  assert (H3 : Spec.digits (s2l "03")) by (apply digits_intro; [discriminate|reflexivity]).
  assert (L1 : Spec.short (s2l "01")) by (apply short_intro; reflexivity).
  assert (L2 : Spec.short (s2l "02")) by (apply short_intro; reflexivity).
  assert (L3 : Spec.short (s2l "03")) by (apply short_intro; reflexivity).
  split; [exact H1|]. split; [exact H2|]. split; [exact H3|].
  split; [exact L1|]. split; [exact L2|]. split; [exact L3|].
  destruct parse_duration_spec as (_ & _ & H & _ & HL & _).
  split; [exact (proj1 (H (s2l "01") (s2l "02") (s2l "03") H1 H2 H3 L1 L2 L3))|].
  assert (H0 : Spec.digits (s2l "00"))
    by (apply digits_intro; [discriminate|reflexivity]).
  assert (Hd : Spec.digits (repeat "1"%char 4301))
    by (apply digits_intro; [discriminate|vm_compute; reflexivity]).
  assert (Hl : ~ Spec.short (repeat "1"%char 4301)).
  { unfold Spec.short. rewrite repeat_length. vm_compute.
    intros Hle. apply Hle. reflexivity. }
  split; [exact Hd|]. split; [exact Hl|].
  exact (HL _ _ _ Hd H0 H0 (or_introl Hl)).
Defined.

(** C8 as stated fails: a field with a minus sign is accepted by
    [int()], so ["-1:00:00"] gives -3600 and the result is not always
    non-negative; and a string of two fields, which is not of the form
    HH:MM:SS, is read as minutes and seconds, not given 0. *)
Lemma parse_duration_negative :
  parse_duration (Str (s2l "-1:00:00")) = -3600 /\
  ~ (forall c, 0 <= parse_duration c) /\
  parse_duration (Str (s2l "12:34")) = 754.
Proof.
  split; [reflexivity|]. split; [|reflexivity].
  intros H. specialize (H (Str (s2l "-1:00:00"))).
  vm_compute in H. now apply H.
Qed.

End ParseDuration.

(** ** The matcher only finds what the pattern describes *)

Section ReFacts.

Import Re.

Lemma rep_greedy_sound {R} cl (k : @cont R) c res :
  forall s i, rep_greedy cl i s c k = Some res ->
  exists w rest, s = w ++ rest /\
    Forall (fun a => cmatch cl a = true) w /\
    k (i + List.length w)%nat rest c = Some res.
Proof.
  induction s as [|a s IH]; intros i H; simpl in H.
  - exists [], []. simpl. now rewrite Nat.add_0_r.
  - destruct (cmatch cl a) eqn:Ea.
    + unfold or_else in H.
      destruct (rep_greedy cl (S i) s c k) as [r|] eqn:Er.
      * inversion H; subst r. destruct (IH _ Er) as (w & rest & -> & Hw & Hk).
        exists (a :: w), rest. simpl. repeat split; auto.
        now rewrite Nat.add_succ_r.
      * exists [], (a :: s). simpl. now rewrite Nat.add_0_r.
    + exists [], (a :: s). simpl. now rewrite Nat.add_0_r.
Qed.

Lemma rep_lazy_sound {R} cl (k : @cont R) c res :
  forall s i, rep_lazy cl i s c k = Some res ->
  exists w rest, s = w ++ rest /\
    Forall (fun a => cmatch cl a = true) w /\
    k (i + List.length w)%nat rest c = Some res.
Proof.
  induction s as [|a s IH]; intros i H; simpl in H; unfold or_else in H.
  - destruct (k i [] c) eqn:Ek; [|discriminate].
    exists [], []. simpl. rewrite Nat.add_0_r. now rewrite Ek.
  - destruct (k i (a :: s) c) eqn:Ek.
    + exists [], (a :: s). simpl. rewrite Nat.add_0_r. now rewrite Ek.
    + destruct (cmatch cl a) eqn:Ea; [|discriminate].
      destruct (IH _ H) as (w & rest & -> & Hw & Hk).
      exists (a :: w), rest. simpl. repeat split; auto.
      now rewrite Nat.add_succ_r.
Qed.

(** Soundness of the matcher: a success consumed a [w] the pattern
    describes, and the continuation succeeded on what follows. *)
Lemma run_sound r :
  forall {R} i s c (k : @cont R) res,
  run r i s c k = Some res ->
  exists w rest c', s = w ++ rest /\ Spec.matches r i w rest c c' /\
    k (i + List.length w)%nat rest c' = Some res.
Proof.
  induction r as [|cl|r1 IH1 r2 IH2|r1 IH1 r2 IH2|g cl|n r IH| |];
    intros R i s c k res H; simpl in H.
  - exists [], s, c. simpl. rewrite Nat.add_0_r.
    repeat split; auto. constructor.
  - destruct s as [|a s]; [discriminate|].
    destruct (cmatch cl a) eqn:Ea; [|discriminate].
    exists [a], s, c. simpl. rewrite Nat.add_1_r.
    repeat split; auto. now constructor.
  - apply IH1 in H. destruct H as (w1 & rest1 & c1 & -> & M1 & H).
    apply IH2 in H. destruct H as (w2 & rest & c2 & -> & M2 & H).
    exists (w1 ++ w2), rest, c2. rewrite <- app_assoc, length_app, Nat.add_assoc.
    repeat split; auto. econstructor; eauto.
  - unfold or_else in H. destruct (run r1 i s c k) as [x|] eqn:E1.
    + inversion H; subst x. apply IH1 in E1.
      destruct E1 as (w & rest & c' & -> & M & Hk).
      exists w, rest, c'. repeat split; auto. now apply Spec.M_AltL.
    + apply IH2 in H. destruct H as (w & rest & c' & -> & M & Hk).
      exists w, rest, c'. repeat split; auto. now apply Spec.M_AltR.
  - destruct g.
    + apply rep_greedy_sound in H. destruct H as (w & rest & -> & Hw & Hk).
      exists w, rest, c. repeat split; auto. now constructor.
    + apply rep_lazy_sound in H. destruct H as (w & rest & -> & Hw & Hk).
      exists w, rest, c. repeat split; auto. now constructor.
  - apply IH in H. destruct H as (w & rest & c' & -> & M & Hk).
    replace (i + List.length w - i)%nat with (List.length w) in Hk by lia.
    rewrite firstn_app, Nat.sub_diag, firstn_all in Hk. simpl in Hk.
    rewrite app_nil_r in Hk.
    exists w, rest, ((n, w) :: c'). repeat split; auto. now constructor.
  - destruct (i =? 0)%nat eqn:E; [|discriminate].
    apply Nat.eqb_eq in E. subst i.
    exists [], s, c. simpl. repeat split; auto. constructor.
  - exists [], s, c. simpl. rewrite Nat.add_0_r.
    destruct s as [|a [|b s]]; try discriminate.
    + repeat split; auto. constructor. now left.
    + destruct (Ascii.eqb a newline) eqn:E; [|discriminate].
      apply Ascii.eqb_eq in E. subst a.
      repeat split; auto. constructor. now right.
Qed.

Lemma matches_lit s :
  forall i w rest c c', Spec.matches (lit s) i w rest c c' -> w = s /\ c' = c.
Proof.
  induction s as [|a s IH]; intros i w rest c c' H; simpl in H.
  - inversion H; subst. auto.
  - inversion H; subst. clear H.
    match goal with
    | H1 : Spec.matches (One _) _ _ _ _ _,
      H2 : Spec.matches (lit _) _ _ _ _ _ |- _ =>
        inversion H1; subst; apply IH in H2; destruct H2; subst
    end.
    simpl in *.
    match goal with H : Ascii.eqb _ _ = true |- _ => apply Ascii.eqb_eq in H; subst end.
    auto.
Qed.

(** A literal that is not a prefix of the subject cannot start a
    match. *)
Lemma run_lit_fail {R} l :
  forall i s c (k : @cont R), starts_with l s = false ->
  run (lit l) i s c k = None.
Proof.
  induction l as [|a l IH]; intros i s c k H; simpl in *; [discriminate|].
  destruct s as [|b s]; [reflexivity|].
  destruct (Ascii.eqb a b); simpl in *; [|reflexivity].
  now apply IH.
Qed.

Lemma run_end r i s res :
  run r i s [] (fun i' s' _ => Some (i', s')) = Some res ->
  exists w, s = w ++ snd res /\ fst res = (i + List.length w)%nat.
Proof.
  intros H. apply run_sound in H.
  destruct H as (w & rest & c' & -> & _ & Hk).
  inversion Hk; subst. exists w. split; reflexivity.
Qed.

(** The scan of [re.sub] ends within its fuel: more fuel than the
    subject has characters changes nothing. *)
Lemma sub_loop_fuel r fuel :
  forall fuel' i s,
  (List.length s < fuel)%nat -> (List.length s < fuel')%nat ->
  sub_loop fuel r i s = sub_loop fuel' r i s.
Proof.
  induction fuel as [|fuel IH]; intros fuel' i s H H'; [lia|].
  destruct fuel' as [|fuel']; [lia|]. cbn [sub_loop].
  assert (Hkeep :
    match s with [] => [] | a :: s' => a :: sub_loop fuel r (S i) s' end
    = match s with [] => [] | a :: s' => a :: sub_loop fuel' r (S i) s' end).
  { destruct s as [|a s']; [reflexivity|]. f_equal.
    apply IH; simpl in *; lia. }
  destruct (run r i s [] (fun i' s' _ => Some (i', s'))) as [[i' s']|] eqn:E;
    [|exact Hkeep].
  destruct (i <? i')%nat eqn:Ei; [|exact Hkeep].
  apply run_end in E. cbn [fst snd] in E. destruct E as (w & -> & Hi).
  apply Nat.ltb_lt in Ei. rewrite length_app in H, H'.
  apply IH; lia.
Qed.

(** *** Where the matcher succeeds *)

Lemma run_seq {R} r1 r2 i s c (k : @cont R) :
  run (r1 >> r2) i s c k = run r1 i s c (fun i' s' c' => run r2 i' s' c' k).
Proof. reflexivity. Qed.

Lemma run_one {R} cl a i s c (k : @cont R) :
  cmatch cl a = true -> run (One cl) i (a :: s) c k = k (S i) s c.
Proof. intros H. simpl. now rewrite H. Qed.

Lemma run_one_fail {R} cl a i s c (k : @cont R) :
  cmatch cl a = false -> run (One cl) i (a :: s) c k = None.
Proof. intros H. simpl. now rewrite H. Qed.

Lemma run_rep_greedy {R} cl i s c (k : @cont R) :
  run (Rep true cl) i s c k = rep_greedy cl i s c k.
Proof. reflexivity. Qed.

Lemma run_rep_lazy {R} cl i s c (k : @cont R) :
  run (Rep false cl) i s c k = rep_lazy cl i s c k.
Proof. reflexivity. Qed.

Lemma run_opt {R} r i s c (k : @cont R) :
  run (opt r) i s c k = or_else (run r i s c k) (fun _ => k i s c).
Proof. reflexivity. Qed.

Lemma run_bol {R} s c (k : @cont R) : run Bol 0%nat s c k = k 0%nat s c.
Proof. reflexivity. Qed.

Lemma run_lit {R} l :
  forall i rest c (k : @cont R),
  run (lit l) i (l ++ rest) c k = k (i + List.length l)%nat rest c.
Proof.
  induction l as [|a l IH]; intros i rest c k; simpl.
  - now rewrite Nat.add_0_r.
  - rewrite Ascii.eqb_refl, IH. f_equal. lia.
Qed.

(** A greedy repetition takes all of [w] when what follows does not
    start with a character of the class and the rest of the pattern
    matches there. *)
Lemma rep_greedy_all {R} cl w :
  Forall (fun a => cmatch cl a = true) w ->
  forall i rest c (k : @cont R) r,
  (forall a rest', rest = a :: rest' -> cmatch cl a = false) ->
  k (i + List.length w)%nat rest c = Some r ->
  rep_greedy cl i (w ++ rest) c k = Some r.
Proof.
  induction 1 as [|a w Ha Hw IH]; intros i rest c k r Hnext Hk.
  - simpl in *. rewrite Nat.add_0_r in Hk.
    destruct rest as [|b rest']; [exact Hk|].
    simpl. now rewrite (Hnext b rest' eq_refl).
  - simpl. rewrite Ha. unfold or_else.
    rewrite (IH (S i) rest c k r Hnext); [reflexivity|].
    simpl in Hk. now rewrite Nat.add_succ_r in Hk.
Qed.

(** A lazy repetition takes all of [w] when the rest of the pattern
    matches at no earlier point. *)
Lemma rep_lazy_skip {R} cl w :
  Forall (fun a => cmatch cl a = true) w ->
  forall i rest c (k : @cont R),
  (forall w1 w2, w = w1 ++ w2 -> w2 <> [] ->
     k (i + List.length w1)%nat (w2 ++ rest) c = None) ->
  rep_lazy cl i (w ++ rest) c k
  = rep_lazy cl (i + List.length w)%nat rest c k.
Proof.
  induction 1 as [|a w Ha Hw IH]; intros i rest c k Hfail.
  - simpl. now rewrite Nat.add_0_r.
  - cbn [app rep_lazy]. unfold or_else.
    assert (H0 : k i (a :: w ++ rest) c = None).
    { specialize (Hfail [] (a :: w) eq_refl). simpl in Hfail.
      rewrite Nat.add_0_r in Hfail. apply Hfail. discriminate. }
    rewrite H0, Ha, IH.
    + f_equal. simpl. lia.
    + intros w1 w2 E Hne.
      replace (S i + List.length w1)%nat
        with (i + List.length (a :: w1))%nat by (simpl; lia).
      apply Hfail; [|exact Hne]. simpl. now rewrite E.
Qed.

Lemma rep_lazy_stop {R} cl i s c (k : @cont R) r :
  k i s c = Some r -> rep_lazy cl i s c k = Some r.
Proof. intros H. destruct s; simpl; now rewrite H. Qed.

Lemma firstn_prefix {A} (a : A) (w rest : list A) :
  firstn (S (List.length w)) (a :: w ++ rest) = a :: w.
Proof.
  cbn [firstn]. f_equal.
  rewrite firstn_app, Nat.sub_diag, firstn_all. simpl. apply app_nil_r.
Qed.

(** [(cl+)] captures all of [a :: w]. *)
Lemma run_group_plus_greedy {R} n cl a w rest i c (k : @cont R) r :
  cmatch cl a = true -> Forall (fun a => cmatch cl a = true) w ->
  (forall b rest', rest = b :: rest' -> cmatch cl b = false) ->
  k (i + S (List.length w))%nat rest ((n, a :: w) :: c) = Some r ->
  run (Group n (plus true cl)) i (a :: w ++ rest) c k = Some r.
Proof.
  intros Ha Hw Hnext Hk. unfold plus. cbn [run]. rewrite Ha.
  apply rep_greedy_all; [exact Hw|exact Hnext|].
  replace (S i + List.length w - i)%nat with (S (List.length w)) by lia.
  rewrite firstn_prefix. now rewrite Nat.add_succ_r in Hk.
Qed.

(** [(cl+?)] captures all of [a :: w] when the rest of the pattern
    matches at no earlier point. *)
Lemma run_group_plus_lazy {R} n cl a w rest i c (k : @cont R) r :
  cmatch cl a = true -> Forall (fun a => cmatch cl a = true) w ->
  (forall w1 w2, w = w1 ++ w2 -> w2 <> [] ->
     k (i + S (List.length w1))%nat (w2 ++ rest) ((n, a :: w1) :: c)
     = None) ->
  k (i + S (List.length w))%nat rest ((n, a :: w) :: c) = Some r ->
  run (Group n (plus false cl)) i (a :: w ++ rest) c k = Some r.
Proof.
  intros Ha Hw Hfail Hk. unfold plus. cbn [run]. rewrite Ha.
  rewrite rep_lazy_skip; [|exact Hw|].
  - apply rep_lazy_stop.
    replace (S i + List.length w - i)%nat with (S (List.length w)) by lia.
    rewrite firstn_prefix. now rewrite Nat.add_succ_r in Hk.
  - intros w1 w2 E Hne.
    replace (S i + List.length w1 - i)%nat with (S (List.length w1)) by lia.
    rewrite E, <- app_assoc, firstn_prefix.
    specialize (Hfail w1 w2 E Hne).
    now rewrite Nat.add_succ_r in Hfail.
Qed.

End ReFacts.

(** ** Title normalization *)

Section Titles.

Import Re ProcessNetflixData.

Ltac inv_matches :=
  repeat match goal with
  | H : Spec.matches (lit _) _ _ _ _ _ |- _ =>
      apply matches_lit in H; destruct H; subst
  | H : Spec.matches (Seq _ _) _ _ _ _ _ |- _ => inversion H; subst; clear H
  | H : Spec.matches (Group _ _) _ _ _ _ _ |- _ => inversion H; subst; clear H
  | H : Spec.matches (One _) _ _ _ _ _ |- _ => inversion H; subst; clear H
  | H : Spec.matches (Rep _ _) _ _ _ _ _ |- _ => inversion H; subst; clear H
  | H : Spec.matches Bol _ _ _ _ _ |- _ => inversion H; subst; clear H
  | H : Spec.matches Eol _ _ _ _ _ |- _ => inversion H; subst; clear H
  | H : Spec.matches Eps _ _ _ _ _ |- _ => inversion H; subst; clear H
  | H : cmatch (CChar _) _ = true |- _ =>
      cbv [cmatch] in H; apply Ascii.eqb_eq in H; subst
  end.

Ltac side_conditions :=
  simpl;
  try match goal with
  | H : Forall _ ?w |- Spec.spaces ?w => exact H
  | H : Forall _ ?w |- Forall _ ?w => exact H
  | |- _ :: _ <> [] => discriminate
  | H : Forall _ ?w, H1 : cmatch CDigit ?a = true |- Forall _ (?a :: ?w) =>
      constructor; [exact H1 | exact H]
  end.

Lemma season_ep_match t m :
  re_match season_ep_pattern t = Some m ->
  exists a g1 g2,
    Spec.season_title t (a :: g1) g2 /\
    group m 1 = Some (a :: g1) /\ group m 2 = Some g2 /\
    (group m 3 = None \/
     exists g3, Spec.digits g3 /\ group m 3 = Some g3 /\
                (List.length g3 <= List.length t)%nat).
Proof.
  unfold re_match. intros H. apply run_sound in H.
  destruct H as (w & rest & c' & -> & M & Hk).
  inversion Hk; subst c'; clear Hk.
  unfold season_ep_pattern, episode_group, opt, plus in M.
  inv_matches.
  match goal with
  | H : Spec.matches (Alt _ _) _ _ _ _ _ |- _ => inversion H; subst; clear H
  end; inv_matches.
  - refine (ex_intro _ _ (ex_intro _ _ (ex_intro _ _
             (conj _ (conj eq_refl (conj eq_refl _)))))).
    + unfold Spec.season_title. eexists _, _, _.
      split;
        [etransitivity;
           [repeat rewrite <- app_assoc; simpl; reflexivity
           |simpl; reflexivity]
        |repeat split; side_conditions].
    + right. refine (ex_intro _ _ (conj _ (conj eq_refl _))).
      * split; side_conditions.
      * repeat (rewrite length_app || cbn [List.length]). lia.
  - refine (ex_intro _ _ (ex_intro _ _ (ex_intro _ _
             (conj _ (conj eq_refl (conj eq_refl _)))))).
    + unfold Spec.season_title. eexists _, _, _.
      split;
        [etransitivity;
           [repeat rewrite <- app_assoc; simpl; reflexivity
           |simpl; reflexivity]
        |repeat split; side_conditions].
    + now left.
Qed.

Lemma digits_cons ds : Spec.digits ds -> exists a ds', ds = a :: ds'.
Proof. intros [Hne _]. destruct ds as [|a ds']; [congruence|eauto]. Qed.

Lemma season_title_length t g1 g2 :
  Spec.season_title t g1 g2 -> (List.length g2 <= List.length t)%nat.
Proof.
  intros (ws1 & ws2 & tail & -> & _).
  repeat (rewrite length_app || cbn [List.length]). lia.
Qed.

(** The ways [extract_show_info] ends on a string: on a title of the
    season shape [int()] refuses a number of more than 4300 digits,
    and otherwise the title is an episode; the two fall-backs do not
    raise. *)
Lemma extract_show_info_cases t :
  (exists a g1 g2,
     Spec.season_title t (a :: g1) g2 /\
     ((extract_show_info (Str t) = Raise ValueError /\
       int_max_str_digits < Z.of_nat (List.length t))
      \/ (Spec.short g2 /\ exists ep,
          extract_show_info (Str t)
          = Ok {| show := strip (a :: g1);
                  season := Some (Spec.dec_value g2);
                  episode := ep; is_episode := true |})))
  \/ (Spec.no_marker t /\
      extract_show_info (Str t)
      = Ok {| show := strip (sub_empty suffix_pattern t); season := None;
              episode := None; is_episode := false |})
  \/ (~ Spec.no_marker t /\
      extract_show_info (Str t)
      = Ok {| show := strip (Spec.before_first ":" t); season := None;
              episode := None; is_episode := false |}).
Proof.
  unfold extract_show_info.
  destruct (re_match season_ep_pattern t) as [m|] eqn:E.
  - left. apply season_ep_match in E.
    destruct E as (a & g1 & g2 & Hst & G1 & G2 & G3).
    exists a, g1, g2. split; [exact Hst|]. rewrite G1, G2.
    assert (Hd : Spec.digits g2)
      by (destruct Hst as (? & ? & ? & ? & ? & ? & ? & ?); assumption).
    pose proof (season_title_length _ _ _ Hst) as Hlen.
    cbn [bind]. rewrite (int_digits_cases _ Hd).
    destruct (Z.of_nat (List.length g2) >? int_max_str_digits) eqn:L2;
      [left; split; [reflexivity|lia]|].
    cbn [bind].
    destruct G3 as [G3|(g3 & Hd3 & G3 & Hlen3)]; rewrite G3.
    + right. split; [unfold Spec.short; lia|]. now exists None.
    + destruct (digits_cons _ Hd3) as (b & g3' & ->).
      rewrite (int_digits_cases _ Hd3).
      destruct (Z.of_nat (List.length (b :: g3')) >? int_max_str_digits)
        eqn:L3; [left; split; [reflexivity|lia]|].
      right. split; [unfold Spec.short; lia|]. eexists. reflexivity.
  - right. unfold Spec.no_marker.
    destruct (contains (s2l ": Season") t);
      destruct (contains (s2l ": Episode") t); cbn [negb andb];
      try (right; split; [intros [? ?]; discriminate|];
           rewrite split_first; reflexivity).
    left. split; [split; reflexivity|reflexivity].
Qed.

(** What [extract_show_info] returns, when it returns. *)
Lemma extract_show_info_returns t info :
  extract_show_info (Str t) = Ok info ->
  (exists a g1 g2 ep,
     Spec.season_title t (a :: g1) g2 /\ Spec.short g2 /\
     info = {| show := strip (a :: g1); season := Some (Spec.dec_value g2);
               episode := ep; is_episode := true |})
  \/ (Spec.no_marker t /\
      info = {| show := strip (sub_empty suffix_pattern t); season := None;
                episode := None; is_episode := false |})
  \/ (~ Spec.no_marker t /\
      info = {| show := strip (Spec.before_first ":" t); season := None;
                episode := None; is_episode := false |}).
Proof.
  intros E.
  destruct (extract_show_info_cases t)
    as [(a & g1 & g2 & Hst & [[E' _]|(Hs & ep & E')])|[[Hm E']|[Hm E']]];
    rewrite E' in E; try discriminate; injection E as <-.
  - left. now exists a, g1, g2, ep.
  - right. left. now split.
  - right. right. now split.
Qed.

(** [extract_show_info] raises nothing but the [ValueError] of
    [int()], and only on a title of the season shape with more than
    4300 characters. *)
Lemma extract_show_info_raises t e :
  extract_show_info (Str t) = Raise e ->
  e = ValueError /\ int_max_str_digits < Z.of_nat (List.length t) /\
  exists g1 g2, Spec.season_title t g1 g2.
Proof.
  intros E.
  destruct (extract_show_info_cases t)
    as [(a & g1 & g2 & Hst & [[E' L]|(Hs & ep & E')])|[[Hm E']|[Hm E']]];
    rewrite E' in E; try discriminate.
  injection E as <-. split; [reflexivity|]. split; [exact L|].
  now exists (a :: g1), g2.
Qed.

Lemma extract_show_info_total t :
  Z.of_nat (List.length t) <= int_max_str_digits ->
  exists info, extract_show_info (Str t) = Ok info.
Proof.
  intros L.
  destruct (extract_show_info (Str t)) as [info|e] eqn:E; [eauto|].
  apply extract_show_info_raises in E. lia.
Qed.

Lemma suffix_pattern_fail {R} i s c (k : @cont R) :
  Spec.no_fragment_at_start s -> run suffix_pattern i s c k = None.
Proof.
  intros H. unfold Spec.no_fragment_at_start, Spec.fragment_heads in H.
  simpl map in H.
  inversion H as [|? ? H1 T1]; subst. inversion T1 as [|? ? H2 T2]; subst.
  inversion T2 as [|? ? H3 T3]; subst. inversion T3 as [|? ? H4 _]; subst.
  unfold suffix_pattern. cbn [run or_else].
  now rewrite !run_lit_fail by assumption.
Qed.

Lemma no_fragment_tail a s :
  Spec.no_fragment (a :: s) ->
  Spec.no_fragment_at_start (a :: s) /\ Spec.no_fragment s.
Proof.
  unfold Spec.no_fragment, Spec.no_fragment_at_start. intros H.
  split; (eapply Forall_impl; [|exact H]); intros l Hl; simpl in Hl;
    apply orb_false_iff in Hl; tauto.
Qed.

Lemma no_fragment_nil : Spec.no_fragment_at_start [].
Proof. repeat constructor. Qed.

(** Where no fragment occurs, [re.sub] changes nothing. *)
Lemma sub_loop_clean fuel :
  forall i s, Spec.no_fragment s -> sub_loop fuel suffix_pattern i s = s.
Proof.
  induction fuel as [|fuel IH]; intros i s H; [reflexivity|].
  cbn [sub_loop]. destruct s as [|a s].
  - now rewrite (suffix_pattern_fail _ _ _ _ no_fragment_nil).
  - apply no_fragment_tail in H. destruct H as [H0 H].
    rewrite (suffix_pattern_fail _ _ _ _ H0). now rewrite IH.
Qed.

Lemma sub_empty_head a s :
  Spec.no_fragment_at_start (a :: s) ->
  exists s', sub_empty suffix_pattern (a :: s) = a :: s'.
Proof.
  intros H. unfold sub_empty. cbn [sub_loop].
  rewrite (suffix_pattern_fail _ _ _ _ H). eauto.
Qed.

Lemma before_first_head sep a s :
  Ascii.eqb a sep = false ->
  Spec.before_first sep (a :: s) = a :: Spec.before_first sep s.
Proof. intros H. simpl. now rewrite H. Qed.

(** *** Titles of the episode shape *)

Lemma episode_group_run {R} i ws m rest c (k : @cont R) r :
  Spec.spaces ws -> Spec.digits m ->
  (forall j, k j rest ((3%nat, m) :: c) = Some r) ->
  run episode_group i (s2l "(Episode" ++ ws ++ m ++ ")"%char :: rest) c k
  = Some r.
Proof.
  intros Hws [Hne Hm] Hk. unfold episode_group.
  rewrite run_seq, run_lit, run_seq, run_rep_greedy.
  destruct m as [|d m']; [congruence|]. inversion Hm; subst.
  apply rep_greedy_all; [exact Hws| |].
  - intros a rest' E. inversion E; subst. cbn [cmatch].
    now apply digit_char.
  - rewrite run_seq.
    change ((d :: m') ++ ")"%char :: rest) with (d :: m' ++ ")"%char :: rest).
    apply run_group_plus_greedy; try assumption.
    + intros b rest' E. inversion E; subst. reflexivity.
    + rewrite run_one by apply Ascii.eqb_refl. apply Hk.
Qed.

Lemma not_paren_in_group ws ds rest :
  Spec.spaces ws -> Forall (fun c => is_digit c = true) ds ->
  rest = [] \/ rest = [newline] ->
  ~ In "("%char (s2l "Episode" ++ ws ++ ds ++ ")"%char :: rest).
Proof.
  intros Hws Hds Hrest H.
  apply in_app_or in H. destruct H as [H|H].
  { simpl in H. intuition discriminate. }
  apply in_app_or in H. destruct H as [H|H].
  { unfold Spec.spaces in Hws. rewrite Forall_forall in Hws.
    apply Hws in H. discriminate. }
  apply in_app_or in H. destruct H as [H|H].
  { rewrite Forall_forall in Hds. apply Hds in H. discriminate. }
  destruct H as [H|H]; [discriminate|].
  destruct Hrest as [-> | ->]; simpl in H; intuition discriminate.
Qed.

(** Before its last character the episode group cannot end the
    title: the rest of the pattern fails at every earlier point. *)
Lemma episode_group_only_at_end i w ws m c :
  w <> [] -> Spec.spaces ws -> Spec.digits m ->
  run (opt episode_group >> Eol) i
      (w ++ s2l "(Episode" ++ ws ++ m ++ [")"%char]) c
      (fun _ _ c' => Some c') = None.
Proof.
  intros Hw Hws Hm.
  destruct (run _ _ _ _ _) as [res|] eqn:E; [exfalso|reflexivity].
  apply run_sound in E. destruct E as (u & rest & c' & Hs & M & _).
  destruct w as [|x w]; [congruence|].
  unfold opt, episode_group, plus in M.
  inversion M; subst; clear M.
  match goal with
  | H : Spec.matches Eol _ _ _ _ _ |- _ => inversion H; subst; clear H
  end.
  match goal with
  | H : Spec.matches (Alt _ _) _ _ _ _ _ |- _ => inversion H; subst; clear H
  end.
  - repeat match goal with
    | H : Spec.matches (lit _) _ _ _ _ _ |- _ =>
        apply matches_lit in H; destruct H; subst
    | H : Spec.matches (Seq _ _) _ _ _ _ _ |- _ => inversion H; subst; clear H
    | H : Spec.matches (Group _ _) _ _ _ _ _ |- _ => inversion H; subst; clear H
    | H : Spec.matches (One _) _ _ _ _ _ |- _ => inversion H; subst; clear H
    | H : Spec.matches (Rep _ _) _ _ _ _ _ |- _ => inversion H; subst; clear H
    | H : Spec.matches Eps _ _ _ _ _ |- _ => inversion H; subst; clear H
    | H : cmatch (CChar _) _ = true |- _ =>
        cbv [cmatch] in H; apply Ascii.eqb_eq in H; subst
    end.
    repeat rewrite <- app_assoc in Hs. simpl in Hs.
    injection Hs as Hx Ht.
    match goal with
    | Hsp : Forall (fun a => cmatch CSpace a = true) ?ws',
      Hd : cmatch CDigit ?d = true,
      Hds : Forall (fun a => cmatch CDigit a = true) ?ds |- _ =>
        apply (not_paren_in_group ws' (d :: ds) rest);
          [exact Hsp|constructor; [exact Hd|exact Hds]|assumption|]
    end.
    change (In "("%char
               ("E" :: "p" :: "i" :: "s" :: "o" :: "d" :: "e"
                :: w1 ++ a :: w13 ++ ")" :: rest)%char).
    rewrite <- Ht. apply in_or_app. right. now left.
  - match goal with
    | H : Spec.matches Eps _ _ _ _ _ |- _ => inversion H; subst; clear H
    end.
    simpl in Hs.
    destruct H as [-> | ->]; [discriminate Hs|].
    injection Hs as _ Ht. apply app_eq_nil in Ht.
    destruct Ht as [_ Ht]. discriminate.
Qed.

(** [.*?] and the optional episode group, the group being there. *)
Lemma tail_with_episode i name ws m c :
  Spec.one_line name -> Spec.spaces ws -> Spec.digits m ->
  run (Rep false CAny >> opt episode_group >> Eol) i
      (name ++ s2l "(Episode" ++ ws ++ m ++ [")"%char]) c
      (fun _ _ c' => Some c')
  = Some ((3%nat, m) :: c).
Proof.
  intros Hname Hws Hm. rewrite run_seq, run_rep_lazy.
  rewrite rep_lazy_skip.
  - apply rep_lazy_stop. rewrite run_seq, run_opt.
    rewrite (episode_group_run _ ws m [] c _ ((3%nat, m) :: c));
      [reflexivity|exact Hws|exact Hm|reflexivity].
  - eapply Forall_impl; [|exact Hname]. intros a Ha. cbn [cmatch].
    apply negb_true_iff. now apply Ascii.eqb_neq.
  - intros w1 w2 E Hne. now apply episode_group_only_at_end.
Qed.

Lemma episode_group_needs_paren {R} i s c (k : @cont R) :
  (forall s', s <> "("%char :: s') -> run episode_group i s c k = None.
Proof.
  intros H. unfold episode_group. rewrite run_seq.
  apply run_lit_fail. destruct s as [|a s']; [reflexivity|].
  unfold s2l. cbn [list_ascii_of_string starts_with].
  destruct (Ascii.eqb "(" a) eqn:E; [|reflexivity].
  apply Ascii.eqb_eq in E. subst. now specialize (H s').
Qed.

(** [.*?] and the optional episode group, without a parenthesis in
    what is left of the title. *)
Lemma tail_without_episode i name c :
  Spec.one_line name -> ~ In "("%char name ->
  run (Rep false CAny >> opt episode_group >> Eol) i name c
      (fun _ _ c' => Some c')
  = Some c.
Proof.
  intros Hname Hparen. rewrite run_seq, run_rep_lazy.
  rewrite <- (app_nil_r name) at 1. rewrite rep_lazy_skip.
  - apply rep_lazy_stop. rewrite run_seq, run_opt.
    rewrite episode_group_needs_paren by discriminate. reflexivity.
  - eapply Forall_impl; [|exact Hname]. intros a Ha. cbn [cmatch].
    apply negb_true_iff. now apply Ascii.eqb_neq.
  - intros w1 w2 E Hne. rewrite app_nil_r, run_seq, run_opt.
    rewrite episode_group_needs_paren.
    + cbn [or_else run]. destruct w2 as [|x [|y w2]]; [congruence| |reflexivity].
      assert (Hx : x <> newline).
      { unfold Spec.one_line in Hname. rewrite Forall_forall in Hname.
        apply Hname. rewrite E. apply in_or_app. right. now left. }
      apply Ascii.eqb_neq in Hx. now rewrite Hx.
    + intros s' ->. apply Hparen. rewrite E. apply in_or_app. right. now left.
Qed.

Lemma plain_any s :
  Spec.plain s -> Forall (fun a => cmatch CAny a = true) s.
Proof.
  intros H. eapply Forall_impl; [|exact H]. intros a [_ Ha]. cbn [cmatch].
  apply negb_true_iff. now apply Ascii.eqb_neq.
Qed.

(** The whole pattern on [show: Season n] followed by [tl], given what
    the end of the pattern captures on [tl]. *)
Lemma season_ep_run a show ws1 ws2 n tl captured :
  Spec.plain (a :: show) -> Spec.spaces ws1 -> Spec.spaces ws2 ->
  Spec.digits n -> Spec.no_leading_digit tl ->
  (forall j c,
     run (Rep false CAny >> opt episode_group >> Eol) j tl c
         (fun _ _ c' => Some c')
     = Some (captured ++ c)) ->
  re_match season_ep_pattern
    ((a :: show) ++ ":"%char :: ws1 ++ s2l "Season" ++ ws2 ++ n ++ tl)
  = Some (captured ++ [(2%nat, n); (1%nat, a :: show)]).
Proof.
  intros Hshow Hws1 Hws2 [Hne Hn] Htl Htail.
  pose proof (plain_any _ Hshow) as Hany.
  inversion Hany as [|? ? Ha Hany']; subst.
  unfold re_match, season_ep_pattern.
  rewrite run_seq, run_bol, run_seq. cbn [app].
  apply run_group_plus_lazy; [exact Ha|exact Hany'| |].
  - intros w1 w2 E Hne2. rewrite run_seq.
    destruct w2 as [|b w2]; [congruence|]. cbn [app].
    apply run_one_fail. cbn [cmatch].
    destruct (Ascii.eqb ":" b) eqn:Eb; [exfalso|reflexivity].
    apply Ascii.eqb_eq in Eb. subst b.
    unfold Spec.plain in Hshow. rewrite Forall_forall in Hshow.
    destruct (Hshow ":"%char) as [Hc _]; [|congruence].
    right. rewrite E. apply in_or_app. right. now left.
  - rewrite run_seq, run_one by apply Ascii.eqb_refl.
    rewrite run_seq, run_rep_greedy.
    apply rep_greedy_all; [exact Hws1| |].
    { intros b rest' E. simpl in E. inversion E; subst. reflexivity. }
    rewrite run_seq, run_lit, run_seq, run_rep_greedy.
    destruct n as [|d n']; [congruence|]. inversion Hn; subst.
    apply rep_greedy_all; [exact Hws2| |].
    { intros b rest' E. inversion E; subst. cbn [cmatch].
      now apply digit_char. }
    rewrite run_seq. cbn [app].
    apply run_group_plus_greedy; [assumption|assumption|exact Htl|].
    apply Htail.
Qed.

(** A title [show: Season n] followed by [name (Episode m)]. *)
Lemma episode_title_info a show ws1 ws2 n name ws3 m :
  Spec.plain (a :: show) -> Spec.spaces ws1 -> Spec.spaces ws2 ->
  Spec.digits n -> Spec.one_line name -> Spec.no_leading_digit name ->
  Spec.spaces ws3 -> Spec.digits m -> Spec.short n -> Spec.short m ->
  extract_show_info
    (Str ((a :: show) ++ ":"%char :: ws1 ++ s2l "Season" ++ ws2 ++ n
          ++ name ++ s2l "(Episode" ++ ws3 ++ m ++ [")"%char]))
  = Ok {| show := strip (a :: show); season := Some (Spec.dec_value n);
          episode := Some (Spec.dec_value m); is_episode := true |}.
Proof.
  intros Hshow Hws1 Hws2 Hn Hname Hlead Hws3 Hm Ln Lm.
  unfold extract_show_info.
  rewrite (season_ep_run a show ws1 ws2 n _ [(3%nat, m)]); try assumption.
  - cbn [app group Nat.eqb]. rewrite (int_of_digits n Hn Ln). cbn [bind].
    destruct (digits_cons m Hm) as (d & m' & ->).
    now rewrite (int_of_digits _ Hm Lm).
  - intros b rest' E. destruct name as [|x name].
    + simpl in E. inversion E; subst. reflexivity.
    + inversion E; subst. exact (Hlead b name eq_refl).
  - intros j c. now apply tail_with_episode.
Qed.

(** A title [show: Season n] followed by text without a
    parenthesis. *)
Lemma season_title_info a show ws1 ws2 n name :
  Spec.plain (a :: show) -> Spec.spaces ws1 -> Spec.spaces ws2 ->
  Spec.digits n -> Spec.one_line name -> Spec.no_leading_digit name ->
  ~ In "("%char name -> Spec.short n ->
  extract_show_info
    (Str ((a :: show) ++ ":"%char :: ws1 ++ s2l "Season" ++ ws2 ++ n
          ++ name))
  = Ok {| show := strip (a :: show); season := Some (Spec.dec_value n);
          episode := None; is_episode := true |}.
Proof.
  intros Hshow Hws1 Hws2 Hn Hname Hlead Hparen Ln.
  unfold extract_show_info.
  rewrite (season_ep_run a show ws1 ws2 n _ []); try assumption.
  - cbn [app group Nat.eqb]. now rewrite (int_of_digits n Hn Ln).
  - intros j c. now apply tail_without_episode.
Qed.

(** The same title with a season number of more than 4300 digits:
    [int(match.group(2))] raises. *)
Lemma season_title_long a show ws1 ws2 n name :
  Spec.plain (a :: show) -> Spec.spaces ws1 -> Spec.spaces ws2 ->
  Spec.digits n -> Spec.one_line name -> Spec.no_leading_digit name ->
  ~ In "("%char name -> ~ Spec.short n ->
  extract_show_info
    (Str ((a :: show) ++ ":"%char :: ws1 ++ s2l "Season" ++ ws2 ++ n
          ++ name))
  = Raise ValueError.
Proof.
  intros Hshow Hws1 Hws2 Hn Hname Hlead Hparen Ln.
  unfold extract_show_info.
  rewrite (season_ep_run a show ws1 ws2 n _ []); try assumption.
  - cbn [app group Nat.eqb]. now rewrite (int_of_long_digits n Hn Ln).
  - intros j c. now apply tail_without_episode.
Qed.

(** C4 (as amended): the two example titles normalize as the claim
    says, in both files as far as each records it, and so does every
    title [show: Season n] followed by [name (Episode m)], or by text
    without a parenthesis, for a show without colon and numbers of at
    most 4300 digits; with a season number of more digits [int()]
    raises [ValueError]. On every string of at most 4300 characters
    [extract_show_info] returns a result; on a longer one it returns
    or raises [ValueError], the latter only on a title of the shape
    [show: Season N...]. [is_episode] is true only for a title of
    that shape, whose show is the trimmed [show] and whose season is
    [N]; every other title gets [is_episode = false] and no
    season or episode, and its show is the trimmed title with the
    hook, primary, Clip and Teaser fragments deleted when it contains
    neither [": Season"] nor [": Episode"] (the whole trimmed title
    when it has no such fragment), and the trimmed text before the
    first colon otherwise. In process_data the show is always the
    trimmed text before the first colon, and [IsEpisode] tells
    whether the title contains a colon. *)
Theorem title_normalization :
  extract_show_info
    (Str (s2l "Stranger Things: Season 4: Chapter One (Episode 1)"))
  = Ok {| show := s2l "Stranger Things"; season := Some 4;
          episode := Some 1; is_episode := true |} /\
  extract_show_info (Str (s2l "Inception"))
  = Ok {| show := s2l "Inception"; season := None; episode := None;
          is_episode := false |} /\
  (ProcessData.extract_show_name
     (Str (s2l "Stranger Things: Season 4: Chapter One (Episode 1)"))
   = Ok (s2l "Stranger Things") /\
   ProcessData.str_contains_colon
     (Str (s2l "Stranger Things: Season 4: Chapter One (Episode 1)"))
   = Some true /\
   ProcessData.extract_show_name (Str (s2l "Inception"))
   = Ok (s2l "Inception") /\
   ProcessData.str_contains_colon (Str (s2l "Inception")) = Some false) /\
  (forall a show ws1 ws2 n name ws3 m,
     Spec.plain (a :: show) -> Spec.spaces ws1 -> Spec.spaces ws2 ->
     Spec.digits n -> Spec.one_line name -> Spec.no_leading_digit name ->
     Spec.spaces ws3 -> Spec.digits m -> Spec.short n -> Spec.short m ->
     extract_show_info
       (Str ((a :: show) ++ ":"%char :: ws1 ++ s2l "Season" ++ ws2 ++ n
             ++ name ++ s2l "(Episode" ++ ws3 ++ m ++ [")"%char]))
     = Ok {| show := strip (a :: show); season := Some (Spec.dec_value n);
             episode := Some (Spec.dec_value m); is_episode := true |}) /\
  (forall a show ws1 ws2 n name,
     Spec.plain (a :: show) -> Spec.spaces ws1 -> Spec.spaces ws2 ->
     Spec.digits n -> Spec.one_line name -> Spec.no_leading_digit name ->
     ~ In "("%char name -> Spec.short n ->
     extract_show_info
       (Str ((a :: show) ++ ":"%char :: ws1 ++ s2l "Season" ++ ws2 ++ n
             ++ name))
     = Ok {| show := strip (a :: show); season := Some (Spec.dec_value n);
             episode := None; is_episode := true |}) /\
  (forall a show ws1 ws2 n name,
     Spec.plain (a :: show) -> Spec.spaces ws1 -> Spec.spaces ws2 ->
     Spec.digits n -> Spec.one_line name -> Spec.no_leading_digit name ->
     ~ In "("%char name -> ~ Spec.short n ->
     extract_show_info
       (Str ((a :: show) ++ ":"%char :: ws1 ++ s2l "Season" ++ ws2 ++ n
             ++ name))
     = Raise ValueError) /\
  (forall t, Z.of_nat (List.length t) <= int_max_str_digits ->
             exists info, extract_show_info (Str t) = Ok info) /\
  (forall t e,
     extract_show_info (Str t) = Raise e ->
     e = ValueError /\ int_max_str_digits < Z.of_nat (List.length t) /\
     exists g1 g2, Spec.season_title t g1 g2) /\
  (forall t info,
     extract_show_info (Str t) = Ok info -> is_episode info = true ->
     exists g1 g2, Spec.season_title t g1 g2 /\ show info = strip g1 /\
                   season info = Some (Spec.dec_value g2)) /\
  (forall t info,
     extract_show_info (Str t) = Ok info -> is_episode info = false ->
     season info = None /\ episode info = None /\
     (Spec.no_marker t -> show info = strip (sub_empty suffix_pattern t)) /\
     (Spec.no_marker t -> Spec.no_fragment t -> show info = strip t) /\
     (~ Spec.no_marker t -> show info = strip (Spec.before_first ":" t))) /\
  (forall t,
     ProcessData.extract_show_name (Str t)
     = Ok (strip (Spec.before_first ":" t)) /\
     ProcessData.str_contains_colon (Str t) = Some (contains [":"%char] t)).
Proof.
  split; [reflexivity|]. split; [reflexivity|].
  split; [repeat split; reflexivity|].
  split; [exact episode_title_info|].
  split; [exact season_title_info|].
  split; [exact season_title_long|].
  split; [exact extract_show_info_total|].
  split; [exact extract_show_info_raises|].
  split.
  { intros t info E He.
    destruct (extract_show_info_returns t info E)
      as [(a & g1 & g2 & ep & Hst & _ & ->)|[[_ ->]|[_ ->]]];
      simpl in *; try discriminate.
    exists (a :: g1), g2. auto. }
  split.
  { intros t info E He.
    destruct (extract_show_info_returns t info E)
      as [(a & g1 & g2 & ep & Hst & _ & ->)|[[Hm ->]|[Hm ->]]];
      simpl in *; try discriminate.
    - repeat split; auto.
      + intros _ Hf. unfold sub_empty. now rewrite sub_loop_clean.
      + intros Hn. contradiction.
    - repeat split; auto; intros; contradiction. }
  intros t. simpl. rewrite split_first. split; reflexivity.
Qed.

(** [title_normalization] at ["Inception"], a title of nine
    characters with no marker and no fragment, and at the episode
    title of the claim, taken apart as [Stranger Things], [4],
    [: Chapter One ] and [1]. *)
Lemma title_normalization_witness :
  (Spec.no_marker (s2l "Inception") /\ Spec.no_fragment (s2l "Inception") /\
   (exists info, extract_show_info (Str (s2l "Inception")) = Ok info) /\
   forall info, extract_show_info (Str (s2l "Inception")) = Ok info ->
                is_episode info = false ->
                show info = s2l "Inception") /\
  (Spec.plain (s2l "Stranger Things") /\ Spec.digits (s2l "4") /\
   Spec.one_line (s2l ": Chapter One ") /\
   Spec.no_leading_digit (s2l ": Chapter One ") /\ Spec.digits (s2l "1") /\
   Spec.short (s2l "4") /\ Spec.short (s2l "1") /\
   extract_show_info
     (Str (s2l "Stranger Things: Season 4: Chapter One (Episode 1)"))
   = Ok {| show := s2l "Stranger Things"; season := Some 4;
           episode := Some 1; is_episode := true |}) /\
  exists info g1 g2,
    extract_show_info
      (Str (s2l "Stranger Things: Season 4: Chapter One (Episode 1)"))
    = Ok info /\ is_episode info = true /\
    Spec.season_title
      (s2l "Stranger Things: Season 4: Chapter One (Episode 1)") g1 g2 /\
    show info = strip g1.
Proof.
  destruct title_normalization
    as (_ & _ & _ & H3 & _ & _ & Ht & _ & H5 & H6 & _).
  split; [|split].
  - assert (Hm : Spec.no_marker (s2l "Inception")) by (split; reflexivity).
    assert (Hf : Spec.no_fragment (s2l "Inception"))
      by (repeat constructor).
    split; [exact Hm|]. split; [exact Hf|].
    split; [apply Ht; vm_compute; discriminate|].
    intros info E He.
    destruct (H6 _ _ E He) as (_ & _ & _ & H & _).
    exact (H Hm Hf).
  - assert (Hshow : Spec.plain (s2l "Stranger Things"))
      by (repeat (constructor; [split; discriminate|]); constructor).
    assert (Hsp : Spec.spaces (s2l " ")) by (repeat constructor).
    assert (Hn : Spec.digits (s2l "4"))
      by (apply digits_intro; [discriminate|reflexivity]).
    assert (Hname : Spec.one_line (s2l ": Chapter One "))
      by (repeat (constructor; [discriminate|]); constructor).
    assert (Hlead : Spec.no_leading_digit (s2l ": Chapter One "))
      by (intros a s' E; inversion E; reflexivity).
    assert (Hm : Spec.digits (s2l "1"))
      by (apply digits_intro; [discriminate|reflexivity]).
    assert (Ln : Spec.short (s2l "4")) by (apply short_intro; reflexivity).
    assert (Lm : Spec.short (s2l "1")) by (apply short_intro; reflexivity).
    split; [exact Hshow|]. split; [exact Hn|]. split; [exact Hname|].
    split; [exact Hlead|]. split; [exact Hm|].
    split; [exact Ln|]. split; [exact Lm|].
    exact (H3 "S"%char (s2l "tranger Things") (s2l " ") (s2l " ") (s2l "4")
              (s2l ": Chapter One ") (s2l " ") (s2l "1")
              Hshow Hsp Hsp Hn Hname Hlead Hsp Hm Ln Lm).
  - eexists.
    assert (E : extract_show_info
      (Str (s2l "Stranger Things: Season 4: Chapter One (Episode 1)"))
      = Ok {| show := s2l "Stranger Things"; season := Some 4;
              episode := Some 1; is_episode := true |}) by reflexivity.
    destruct (H5 _ _ E eq_refl) as (g1 & g2 & Hst & Hs & _).
    exists g1, g2.
    split; [exact E|]. split; [reflexivity|]. split; [exact Hst|exact Hs].
Defined.

(** C4 as stated fails: ["Show: Season"] is not of the episode shape,
    yet its show is the text before the colon, not the whole trimmed
    title, and process_data marks it as an episode; and on
    ["X: Season "] followed by 4301 digits [extract_show_info] raises
    [ValueError]. *)
Lemma title_fallback_is_not_whole_title :
  re_match season_ep_pattern (s2l "Show: Season") = None /\
  extract_show_info (Str (s2l "Show: Season"))
  = Ok {| show := s2l "Show"; season := None; episode := None;
          is_episode := false |} /\
  strip (s2l "Show: Season") <> s2l "Show" /\
  ProcessData.extract_show_name (Str (s2l "Show: Season")) = Ok (s2l "Show") /\
  ProcessData.str_contains_colon (Str (s2l "Show: Season")) = Some true /\
  extract_show_info (Str (s2l "X: Season " ++ repeat "1"%char 4301))
  = Raise ValueError.
Proof.
  split; [reflexivity|]. split; [reflexivity|].
  split; [vm_compute; discriminate|].
  split; [reflexivity|]. split; [reflexivity|].
  vm_compute. reflexivity.
Qed.

Lemma space_char (c : ascii) :
  is_space c = true ->
  Ascii.eqb c ":" = false /\ Ascii.eqb "_" c = false /\
  Ascii.eqb "C" c = false /\ Ascii.eqb "T" c = false.
Proof.
  destruct c as [[] [] [] [] [] [] [] []]; vm_compute;
    intuition congruence.
Qed.

Lemma lstrip_split s :
  exists sp, s = sp ++ lstrip_by is_space s /\ Spec.spaces sp.
Proof.
  induction s as [|c s IH]; simpl.
  - exists []. split; [reflexivity|constructor].
  - destruct (is_space c) eqn:E.
    + destruct IH as (sp & Hs & Hsp). exists (c :: sp). split.
      * simpl. now f_equal.
      * now constructor.
    + exists []. split; [reflexivity|constructor].
Qed.

Lemma strip_has_char s a :
  In a s -> is_space a = false -> strip s <> [].
Proof.
  intros Hin Ha E. apply strip_by_nil in E.
  rewrite Forall_forall in E. apply E in Hin. congruence.
Qed.

(** The first character that is not white space, if it is not the
    separator, lies before the first separator. *)
Lemma first_char_before sep sp a t' g rest :
  Spec.spaces sp -> (forall c, is_space c = true -> c <> sep) -> a <> sep ->
  sp ++ a :: t' = g ++ sep :: rest -> In a g.
Proof.
  intros Hsp Hsep Ha. revert g.
  induction Hsp as [|c sp Hc Hsp IH]; intros g E; simpl in E.
  - destruct g as [|x g]; simpl in E; inversion E; subst; [congruence|].
    now left.
  - destruct g as [|x g]; simpl in E; inversion E; subst.
    + exfalso. now apply (Hsep sep Hc).
    + right. now apply IH.
Qed.

Lemma first_char_before_first sep sp a t' :
  Spec.spaces sp -> (forall c, is_space c = true -> c <> sep) -> a <> sep ->
  In a (Spec.before_first sep (sp ++ a :: t')).
Proof.
  intros Hsp Hsep Ha.
  induction Hsp as [|c sp Hc Hsp IH]; simpl.
  - destruct (Ascii.eqb a sep) eqn:E; [apply Ascii.eqb_eq in E; congruence|].
    now left.
  - destruct (Ascii.eqb c sep) eqn:E.
    + apply Ascii.eqb_eq in E. subst. exfalso. now apply (Hsep sep Hc).
    + now right.
Qed.

Lemma space_starts_no_fragment c s :
  is_space c = true -> Spec.no_fragment_at_start (c :: s).
Proof.
  intros Hc. apply space_char in Hc. destruct Hc as (_ & H1 & H2 & H3).
  unfold Spec.no_fragment_at_start, Spec.fragment_heads, s2l.
  cbn [map list_ascii_of_string].
  repeat (constructor;
          [cbn [starts_with]; now rewrite ?H1, ?H2, ?H3|]).
  constructor.
Qed.

(** [re.sub] keeps the first character that is not white space when
    no fragment begins there. *)
Lemma first_char_survives sp a t' :
  Spec.spaces sp -> Spec.no_fragment_at_start (a :: t') ->
  forall fuel i, (List.length sp < fuel)%nat ->
  In a (sub_loop fuel suffix_pattern i (sp ++ a :: t')).
Proof.
  intros Hsp Hf.
  induction Hsp as [|c sp Hc Hsp IH]; intros fuel i Hfuel;
    (destruct fuel as [|fuel]; [simpl in Hfuel; lia|]); cbn [sub_loop app].
  - rewrite (suffix_pattern_fail _ _ _ _ Hf). now left.
  - rewrite (suffix_pattern_fail _ _ _ _ (space_starts_no_fragment c _ Hc)).
    right. apply IH. simpl in Hfuel. lia.
Qed.

Lemma returned_show_nonempty t a t' info :
  lstrip_by is_space t = a :: t' -> a <> ":"%char ->
  Spec.no_fragment_at_start (a :: t') ->
  extract_show_info (Str t) = Ok info -> show info <> [].
Proof.
  intros Hl Hc Hf E.
  assert (Ha : is_space a = false) by (eapply lstrip_by_head_false; eauto).
  destruct (lstrip_split t) as (sp & Ht & Hsp). rewrite Hl in Ht.
  assert (Hsep : forall c, is_space c = true -> c <> ":"%char).
  { intros c Hs ->. discriminate. }
  destruct (extract_show_info_returns t info E)
    as [(a0 & g1 & g2 & ep & Hst & _ & ->)|[[_ ->]|[_ ->]]];
    cbn [show]; apply (strip_has_char _ a); try exact Ha.
  - destruct Hst as (ws1 & ws2 & tail & Ht' & _).
    rewrite Ht in Ht'.
    exact (first_char_before ":" sp a t' (a0 :: g1)
             (ws1 ++ s2l "Season" ++ ws2 ++ g2 ++ tail) Hsp Hsep Hc Ht').
  - rewrite Ht. unfold sub_empty. apply first_char_survives; auto.
    rewrite length_app. simpl. lia.
  - rewrite Ht. now apply first_char_before_first.
Qed.

(** C7 (as amended): in process_data a missing title gives
    ["Unknown"], and the show name of a title string is empty exactly
    when the title has only white space before its first colon. In
    process_netflix_data the show that [extract_show_info] returns for
    a title string is not empty when the title's first character that
    is not white space exists, is not a colon, and none of the deleted
    fragments begins there; and for such a title of at most 4300
    characters a show is returned. *)
Theorem show_name_nonempty :
  ProcessData.extract_show_name NaN = Ok (s2l "Unknown") /\
  (forall t, exists n,
     ProcessData.extract_show_name (Str t) = Ok n /\
     (n = [] <-> Spec.spaces (Spec.before_first ":" t))) /\
  (forall t a t' info,
     lstrip_by is_space t = a :: t' -> a <> ":"%char ->
     Spec.no_fragment_at_start (a :: t') ->
     extract_show_info (Str t) = Ok info -> show info <> []) /\
  (forall t a t',
     lstrip_by is_space t = a :: t' -> a <> ":"%char ->
     Spec.no_fragment_at_start (a :: t') ->
     Z.of_nat (List.length t) <= int_max_str_digits ->
     exists info,
       extract_show_info (Str t) = Ok info /\ show info <> []).
Proof.
  split; [reflexivity|]. split.
  { intros t. eexists. split.
    - simpl. rewrite split_first. reflexivity.
    - apply strip_by_nil. }
  split; [exact returned_show_nonempty|].
  intros t a t' Hl Hc Hf L.
  destruct (extract_show_info_total t L) as [info E].
  exists info. split; [exact E|].
  exact (returned_show_nonempty t a t' info Hl Hc Hf E).
Qed.

(** [show_name_nonempty] at ["  Mission: Impossible"], a title of 21
    characters. *)
Lemma show_name_nonempty_witness :
  lstrip_by is_space (s2l "  Mission: Impossible")
  = s2l "Mission: Impossible" /\
  "M"%char <> ":"%char /\
  Spec.no_fragment_at_start (s2l "Mission: Impossible") /\
  Z.of_nat (List.length (s2l "  Mission: Impossible"))
  <= int_max_str_digits /\
  exists info,
    extract_show_info (Str (s2l "  Mission: Impossible")) = Ok info /\
    show info <> [].
Proof.
  assert (H1 : lstrip_by is_space (s2l "  Mission: Impossible")
               = "M"%char :: s2l "ission: Impossible") by reflexivity.
  assert (H2 : "M"%char <> ":"%char) by discriminate.
  assert (H3 : Spec.no_fragment_at_start
                 ("M"%char :: s2l "ission: Impossible"))
    by (repeat constructor).
  assert (H4 : Z.of_nat (List.length (s2l "  Mission: Impossible"))
               <= int_max_str_digits) by (vm_compute; discriminate).
  split; [exact H1|]. split; [exact H2|]. split; [exact H3|].
  split; [exact H4|].
  destruct show_name_nonempty as (_ & _ & _ & H).
  exact (H _ _ _ H1 H2 H3 H4).
Defined.

(** C7 as stated fails: a title that begins with a colon has an empty
    show name in both files. *)
Lemma show_name_can_be_empty :
  ProcessData.extract_show_name (Str (s2l ": Season 4")) = Ok [] /\
  extract_show_info (Str (s2l ": Season 4"))
  = Ok {| show := []; season := None; episode := None;
          is_episode := false |}.
Proof. split; reflexivity. Qed.

End Titles.

(** ** Personality *)

Section Personality.

Lemma first_match_default {S L} (rules : list ((S -> bool) * L)) d s :
  Spec.no_rule_holds rules s -> Spec.first_match rules d s = d.
Proof.
  unfold Spec.first_match, Spec.no_rule_holds. intros H.
  destruct (find (fun r => fst r s) rules) as [r|] eqn:E; [|reflexivity].
  apply find_some in E. destruct E as [Hin Hr].
  rewrite (H r Hin) in Hr. discriminate.
Qed.

Lemma first_match_rule {S L} (rules : list ((S -> bool) * L)) d s :
  Spec.first_match rules d s = d \/
  exists r, In r rules /\ fst r s = true /\ Spec.first_match rules d s = snd r.
Proof.
  unfold Spec.first_match.
  destruct (find (fun r => fst r s) rules) as [r|] eqn:E; [|now left].
  apply find_some in E. right. exists r. tauto.
Qed.

Lemma process_data_first_match s :
  ProcessData.determine_personality s
  = Spec.first_match Spec.rules_process_data ProcessData.casual_viewer s.
Proof.
  unfold ProcessData.determine_personality, Spec.first_match,
    Spec.rules_process_data.
  cbn [find fst snd].
  destruct (Qgtb (ProcessData.estimated_hours s) (500 # 1)); [reflexivity|].
  destruct (ProcessData.binge_sessions s >? 50); [reflexivity|].
  destruct (contains (s2l "Night") (ProcessData.peak_time s)); [reflexivity|].
  destruct (ProcessData.longest_streak s >? 30); [reflexivity|].
  destruct (Qgtb (ProcessData.estimated_hours s) (200 # 1)); [reflexivity|].
  destruct (contains (s2l "Morning") (ProcessData.peak_time s)); reflexivity.
Qed.

Lemma process_netflix_data_first_match s :
  ProcessNetflixData.determine_personality s
  = Ok (Spec.first_match Spec.rules_process_netflix_data
          ProcessNetflixData.casual_viewer s).
Proof.
  unfold ProcessNetflixData.determine_personality, Spec.first_match,
    Spec.rules_process_netflix_data, ProcessNetflixData.append_if.
  cbn [find fst snd].
  destruct (ProcessNetflixData.unique_shows s >? 100);
  destruct ((ProcessNetflixData.longest_streak s >? 20)
            && (ProcessNetflixData.binge_sessions s >? 40));
  destruct (Qgtb (ProcessNetflixData.night_ratio s) (1 # 2));
  destruct (ProcessNetflixData.binge_sessions s >? 50);
  destruct ((ProcessNetflixData.movies_watched s >? 150)
            && (ProcessNetflixData.episodes_watched s >? 400));
  destruct (Qgtb (ProcessNetflixData.weekend_ratio s) (4 # 10));
  destruct (ProcessNetflixData.active_days s >? 200);
  reflexivity.
Qed.

Lemma process_data_labels r :
  In r Spec.rules_process_data ->
  ProcessData.type (snd r) <> ProcessData.type ProcessData.casual_viewer.
Proof.
  unfold Spec.rules_process_data. simpl In.
  intros [<-|[<-|[<-|[<-|[<-|[<-|[]]]]]]]; vm_compute; discriminate.
Qed.

Lemma process_netflix_data_labels r :
  In r Spec.rules_process_netflix_data ->
  fst (snd r) <> fst ProcessNetflixData.casual_viewer.
Proof.
  unfold Spec.rules_process_netflix_data. simpl In.
  intros [<-|[<-|[<-|[<-|[<-|[<-|[<-|[]]]]]]]]; vm_compute; discriminate.
Qed.

(** C5: the personality is the label of the first rule, in the fixed
    order of the source, whose predicate holds, and the default
    ["The Casual Viewer"] is returned exactly when no predicate holds,
    in both files; with hours > 500 and binges > 50 process_data
    answers with the rule listed first, the Streaming Champion. *)
Theorem personality_is_first_match :
  (forall s,
     ProcessData.determine_personality s
     = Spec.first_match Spec.rules_process_data ProcessData.casual_viewer s) /\
  (forall s,
     ProcessNetflixData.determine_personality s
     = Ok (Spec.first_match Spec.rules_process_netflix_data
             ProcessNetflixData.casual_viewer s)) /\
  (forall s,
     ProcessData.type (ProcessData.determine_personality s)
     = s2l "The Casual Viewer"
     <-> Spec.no_rule_holds Spec.rules_process_data s) /\
  (forall s,
     (exists d, ProcessNetflixData.determine_personality s
                = Ok (s2l "The Casual Viewer", d))
     <-> Spec.no_rule_holds Spec.rules_process_netflix_data s) /\
  (forall s,
     Qgtb (ProcessData.estimated_hours s) (500 # 1) = true ->
     (ProcessData.binge_sessions s >? 50) = true ->
     ProcessData.type (ProcessData.determine_personality s)
     = s2l "The Streaming Champion").
Proof.
  split; [exact process_data_first_match|].
  split; [exact process_netflix_data_first_match|].
  split.
  { intros s. rewrite process_data_first_match. split.
    - intros H r Hr. destruct (fst r s) eqn:E; [|reflexivity]. exfalso.
      unfold Spec.first_match in H.
      destruct (find (fun r => fst r s) Spec.rules_process_data)
        as [r'|] eqn:F.
      + apply find_some in F. destruct F as [Hin _].
        exact (process_data_labels r' Hin H).
      + apply (find_none _ _ F) in Hr. congruence.
    - intros H. now rewrite first_match_default. }
  split.
  { intros s. rewrite process_netflix_data_first_match. split.
    - intros [d H] r Hr. destruct (fst r s) eqn:E; [|reflexivity]. exfalso.
      unfold Spec.first_match in H.
      destruct (find (fun r => fst r s) Spec.rules_process_netflix_data)
        as [r'|] eqn:F.
      + apply find_some in F. destruct F as [Hin _].
        apply (process_netflix_data_labels r' Hin).
        inversion H as [H']. now rewrite H'.
      + apply (find_none _ _ F) in Hr. congruence.
    - intros H. rewrite first_match_default by assumption.
      eexists. reflexivity. }
  intros s H1 H2. unfold ProcessData.determine_personality.
  now rewrite H1.
Qed.

End Personality.

(** ** Streaks *)

Section StreakFacts.

Import Spec.

Lemma fold_step_walk rest :
  forall pre prev st,
  fold_left (Streak.step (pre ++ prev :: rest))
    (seq (S (List.length pre)) (List.length rest)) st
  = Streak.walk prev st rest.
Proof.
  induction rest as [|d rest IH]; intros pre prev st; [reflexivity|].
  cbn [List.length seq fold_left Streak.walk].
  assert (E : Streak.step (pre ++ prev :: d :: rest) st (S (List.length pre))
              = if d - prev =? 1
                then (Z.max (fst st) (snd st + 1), snd st + 1)
                else (fst st, 1)).
  { unfold Streak.step. destruct st as [mx cur].
    replace (S (List.length pre) - 1)%nat with (List.length pre) by lia.
    rewrite (app_nth2 pre) by lia.
    replace (S (List.length pre) - List.length pre)%nat with 1%nat by lia.
    rewrite (app_nth2 pre) by lia. rewrite Nat.sub_diag. reflexivity. }
  rewrite E.
  specialize (IH (pre ++ [prev]) d).
  rewrite <- app_assoc, length_app, Nat.add_1_r in IH. apply IH.
Qed.

Lemma longest_streak_walk d ds :
  Streak.longest_streak (d :: ds) = fst (Streak.walk d (1, 1) ds).
Proof.
  unfold Streak.longest_streak. cbn [List.length].
  rewrite Nat.sub_succ, Nat.sub_0_r.
  now rewrite (fold_step_walk ds [] d).
Qed.

Lemma run_in_incl l l' d n :
  (forall x, In x l -> In x l') -> run_in l d n -> run_in l' d n.
Proof. intros H R i Hi. apply H, R, Hi. Qed.

Lemma longest_run_ext l l' n :
  (forall x, In x l <-> In x l') -> longest_run l n -> longest_run l' n.
Proof.
  intros H [[d Hd] Hmax]. split.
  - exists d. eapply run_in_incl; [|exact Hd]. intros x. apply H.
  - intros d' m Hr. apply (Hmax d').
    eapply run_in_incl; [|exact Hr]. intros x. apply H.
Qed.

(** One more date [x], later than all seen: the invariant is kept by
    the state the loop moves to. *)
Lemma streak_inv_step seen prev mx cur x :
  streak_inv seen prev mx cur -> prev < x ->
  let st := if x - prev =? 1 then (Z.max mx (cur + 1), cur + 1) else (mx, 1) in
  streak_inv (seen ++ [x]) x (fst st) (snd st).
Proof.
  intros (Hc & Hle & Hrun & Hleft & [[d0 Hd0] Hmax]) Hx st.
  assert (Hin : forall y, In y (seen ++ [x]) <-> In y seen \/ y = x).
  { intros y. rewrite in_app_iff. simpl. intuition congruence. }
  assert (Hseen : forall y, In y seen -> y <= prev).
  { apply Forall_forall. exact Hle. }
  assert (Hcur : (1 <= snd st <= fst st) /\
                 run_in (seen ++ [x]) (x - snd st + 1) (snd st) /\
                 ~ In (x - snd st) (seen ++ [x]) /\
                 mx <= fst st /\
                 (fst st = mx \/ fst st = snd st)).
  { subst st. destruct (x - prev =? 1) eqn:E; cbn [fst snd].
    - apply Z.eqb_eq in E. repeat split; try lia.
      + intros i Hi. apply Hin.
        destruct (Z.eq_dec i cur) as [->|Hne].
        * right. lia.
        * left. replace (x - (cur + 1) + 1 + i) with (prev - cur + 1 + i) by lia.
          apply Hrun. lia.
      + intros H. apply Hin in H. destruct H as [H|H]; [|lia].
        apply Hleft. replace (prev - cur) with (x - (cur + 1)) by lia. exact H.
    - apply Z.eqb_neq in E. repeat split; try lia.
      + intros i Hi. apply Hin. right. lia.
      + intros H. apply Hin in H. destruct H as [H|H]; [|lia].
        apply Hseen in H. lia. }
  destruct Hcur as (H1 & H2 & H3 & H4 & H5).
  split; [exact H1|]. split.
  { apply Forall_forall. intros y Hy. apply Hin in Hy.
    destruct Hy as [Hy| ->]; [apply Hseen in Hy|]; lia. }
  split; [exact H2|]. split; [exact H3|]. split.
  - destruct H5 as [->| ->].
    + exists d0. eapply run_in_incl; [|exact Hd0].
      intros y Hy. apply Hin. now left.
    + eexists. exact H2.
  - intros d m Hr.
    destruct (Z_le_gt_dec m 0) as [Hm|Hm]; [lia|].
    destruct (Z_lt_ge_dec x (d + m)) as [Hlt|Hge].
    + destruct (Z_le_gt_dec d x) as [Hdx|Hdx].
      * (* [x] lies in the run, which therefore ends at [x] *)
        assert (Hlast : In (d + (m - 1)) (seen ++ [x])) by (apply Hr; lia).
        apply Hin in Hlast.
        assert (Hend : d + (m - 1) = x).
        { destruct Hlast as [Hl|Hl]; [apply Hseen in Hl; lia|exact Hl]. }
        destruct (Z_le_gt_dec m (snd st)) as [Hs|Hs]; [lia|].
        exfalso. apply H3.
        replace (x - snd st) with (d + (m - 1 - snd st)) by lia.
        apply Hr. lia.
      * (* the run lies after [x]: impossible *)
        assert (Hfirst : In (d + 0) (seen ++ [x])) by (apply Hr; lia).
        apply Hin in Hfirst.
        destruct Hfirst as [Hl|Hl]; [apply Hseen in Hl|]; lia.
    + (* the run lies before [x] *)
      assert (m <= mx); [|lia].
      apply (Hmax d). intros i Hi.
      assert (Hi' : In (d + i) (seen ++ [x])) by (apply Hr; exact Hi).
      apply Hin in Hi'. destruct Hi' as [Hl|Hl]; [exact Hl|lia].
Qed.

Lemma walk_longest_run rest :
  forall seen prev mx cur,
  streak_inv seen prev mx cur ->
  StronglySorted Z.lt (prev :: rest) ->
  longest_run (seen ++ rest) (fst (Streak.walk prev (mx, cur) rest)).
Proof.
  induction rest as [|x rest IH]; intros seen prev mx cur Hinv Hs.
  - rewrite app_nil_r. simpl. apply Hinv.
  - inversion Hs as [|? ? Hs' Hall]; subst.
    inversion Hall as [|? ? Hx _]; subst.
    pose proof (streak_inv_step seen prev mx cur x Hinv Hx) as Hstep.
    cbn [Streak.walk fst snd]. cbv zeta in Hstep.
    replace (seen ++ x :: rest) with ((seen ++ [x]) ++ rest)
      by now rewrite <- app_assoc.
    destruct (x - prev =? 1); apply IH; assumption.
Qed.

Lemma streak_inv_first d : streak_inv [d] d 1 1.
Proof.
  assert (R : run_in [d] d 1).
  { intros i Hi. left. lia. }
  split; [lia|]. split; [repeat constructor; lia|].
  split; [replace (d - 1 + 1) with d by lia; exact R|].
  split; [simpl; lia|].
  split; [now exists d|].
  intros d' m Hr.
  destruct (Z_le_gt_dec m 1) as [Hm|Hm]; [exact Hm|exfalso].
  assert (H0 : In (d' + 0) [d]) by (apply Hr; lia).
  assert (H1 : In (d' + 1) [d]) by (apply Hr; lia).
  simpl in H0, H1. lia.
Qed.

(** On a non-empty, strictly increasing list of dates the loop
    returns the length of the longest run of consecutive dates. *)
Lemma longest_streak_longest_run d ds :
  StronglySorted Z.lt (d :: ds) ->
  longest_run (d :: ds) (Streak.longest_streak (d :: ds)).
Proof.
  intros Hs. rewrite longest_streak_walk.
  apply (walk_longest_run ds [d] d 1 1 (streak_inv_first d) Hs).
Qed.

Lemma insert_In x l y : In y (Pd.insert x l) <-> y = x \/ In y l.
Proof.
  induction l as [|a l IH]; simpl.
  - intuition congruence.
  - destruct (x <=? a); simpl; rewrite ?IH; intuition congruence.
Qed.

Lemma insert_sorted x l :
  StronglySorted Z.lt l -> ~ In x l -> StronglySorted Z.lt (Pd.insert x l).
Proof.
  induction 1 as [|a l Hs IH Ha]; intros Hx; simpl.
  - repeat constructor.
  - destruct (x <=? a) eqn:E.
    + apply Z.leb_le in E.
      assert (x < a) by (simpl in Hx; lia).
      constructor; [now constructor|].
      constructor; [assumption|].
      eapply Forall_impl; [|exact Ha]. intros; lia.
    + apply Z.leb_gt in E. constructor.
      * apply IH. simpl in Hx. tauto.
      * apply Forall_forall. intros y Hy. apply insert_In in Hy.
        destruct Hy as [->|Hy]; [exact E|].
        rewrite Forall_forall in Ha. now apply Ha.
Qed.

Lemma sorted_unique_In col x : In x (Pd.sorted_unique col) <-> In x col.
Proof.
  unfold Pd.sorted_unique. rewrite <- (nodup_In Z.eq_dec col x).
  induction (nodup Z.eq_dec col) as [|a l IH]; simpl; [tauto|].
  rewrite insert_In, IH. intuition congruence.
Qed.

Lemma sorted_unique_sorted col : StronglySorted Z.lt (Pd.sorted_unique col).
Proof.
  unfold Pd.sorted_unique.
  pose proof (NoDup_nodup Z.eq_dec col) as Hnd.
  induction Hnd as [|a l Ha Hnd IH]; simpl; [constructor|].
  apply insert_sorted; [exact IH|].
  intros H. apply Ha.
  clear - H. induction l as [|b l IH]; simpl in *; [exact H|].
  apply insert_In in H. intuition.
Qed.

(** The streak of the sorted distinct dates of a non-empty column is
    the longest run of consecutive dates in the column. *)
Lemma longest_streak_of_column col :
  col <> [] ->
  longest_run col (Streak.longest_streak (Pd.sorted_unique col)).
Proof.
  intros Hne.
  apply (longest_run_ext (Pd.sorted_unique col)); [apply sorted_unique_In|].
  pose proof (sorted_unique_sorted col) as Hs.
  destruct (Pd.sorted_unique col) as [|d ds] eqn:E.
  - exfalso. destruct col as [|c col]; [congruence|].
    assert (H : In c (Pd.sorted_unique (c :: col)))
      by (apply sorted_unique_In; now left).
    rewrite E in H. destruct H.
  - now apply longest_streak_longest_run.
Qed.

End StreakFacts.

(** ** What the two pipelines put in the statistics *)

Section Pipelines.

Import Spec.

Lemma Ok_inj {A} (a b : A) : Ok a = Ok b -> a = b.
Proof. intros H. now inversion H. Qed.

Lemma Stats_inj a b : ProcessData.Stats a = ProcessData.Stats b -> a = b.
Proof. intros H. now inversion H. Qed.

Lemma calculate_stats_fields df y s :
  ProcessData.calculate_stats df y = Ok (ProcessData.Stats s) ->
  let sel := ProcessData.select_year df y in
  let keys := map (fun r => (Cal.date (ProcessData.Date r),
                             ProcessData.ShowName r)) sel in
  let binges :=
    filter (fun g => snd g >=? ProcessData.binge_threshold)
           (Pd.group_sizes keys) in
  sel <> [] /\
  ProcessData.monthly_breakdown s
  = map (fun m => (m, Pd.count
                        (fun r => str_eqb (ProcessData.MonthName r) m) sel))
        Cal.month_order /\
  ProcessData.day_of_week s
  = map (fun d => (d, Pd.count
                        (fun r => str_eqb (ProcessData.DayOfWeek r) d) sel))
        Cal.dow_order /\
  map fst (ProcessData.time_categories s)
  = ProcessNetflixData.time_category_names /\
  (exists k, max_by_value (ProcessData.monthly_breakdown s) = Ok k /\
             ProcessData.peak_month s = Some k) /\
  (exists k, max_by_value (ProcessData.day_of_week s) = Ok k /\
             ProcessData.favorite_day s = Some k) /\
  max_by_value (ProcessData.time_categories s)
  = Ok (ProcessData.peak_time s) /\
  ProcessData.binge_sessions s = Z.of_nat (List.length binges) /\
  ProcessData.biggest_binge s
  = match map snd binges with [] => 0 | x :: l => Pd.max_of x l end /\
  ProcessData.longest_streak s
  = Streak.longest_streak
      (Pd.sorted_unique (map (fun r => Cal.date (ProcessData.Date r)) sel)) /\
  ProcessData.active_days s
  = Z.of_nat (List.length
      (Pd.sorted_unique (map (fun r => Cal.date (ProcessData.Date r)) sel))).
Proof.
  unfold ProcessData.calculate_stats. intros H.
  destruct (ProcessData.select_year df y) as [|r0 df'] eqn:E;
    [discriminate|].
  cbn [Cal.month_order Cal.dow_order map bind max_by_value] in H.
  apply Ok_inj, Stats_inj in H. rewrite <- H. clear H.
  cbv zeta. cbn [ProcessData.set_personality ProcessData.monthly_breakdown
    ProcessData.day_of_week ProcessData.time_categories
    ProcessData.peak_month ProcessData.favorite_day ProcessData.peak_time
    ProcessData.binge_sessions ProcessData.biggest_binge
    ProcessData.longest_streak ProcessData.active_days].
  split; [discriminate|].
  split; [reflexivity|]. split; [reflexivity|]. split; [reflexivity|].
  split; [eexists; split; reflexivity|].
  split; [eexists; split; reflexivity|].
  repeat split; reflexivity.
Qed.

(** Line 264 counts the groups of a frame that has rows. *)
Lemma daily_show_counts_rows df counts :
  ProcessNetflixData.daily_show_counts df = Ok counts ->
  df <> [] /\
  counts
  = Pd.group_sizes
      (map (fun r => (ProcessNetflixData.Date r, ProcessNetflixData.Show r))
           (filter ProcessNetflixData.Is_Episode df)).
Proof.
  destruct df as [|r df]; [discriminate|].
  cbn [ProcessNetflixData.daily_show_counts]. intros H.
  apply Ok_inj in H. subst counts. split; [discriminate|reflexivity].
Qed.

Lemma compute_stats_empty :
  ProcessNetflixData.compute_stats [] = Raise KeyError.
Proof. reflexivity. Qed.

Lemma compute_stats_fields df s :
  ProcessNetflixData.compute_stats df = Ok s ->
  let sizes :=
    Pd.group_sizes
      (map (fun r => (ProcessNetflixData.Date r, ProcessNetflixData.Show r))
           (filter ProcessNetflixData.Is_Episode df)) in
  let dates := Pd.sorted_unique (map ProcessNetflixData.Date df) in
  df <> [] /\
  ProcessNetflixData.monthly_breakdown s
  = map (fun m => (m, Pd.count
           (fun r => str_eqb (ProcessNetflixData.Month r) m) df))
        Cal.month_order /\
  ProcessNetflixData.day_of_week s
  = map (fun d => (d, Pd.count
           (fun r => str_eqb (ProcessNetflixData.DayOfWeek r) d) df))
        Cal.dow_order /\
  ProcessNetflixData.time_categories s
  = map (fun c => (c, Pd.count
           (fun r => str_eqb (ProcessNetflixData.TimeCategory r) c) df))
        ProcessNetflixData.time_category_names /\
  max_by_value (ProcessNetflixData.monthly_breakdown s)
  = Ok (ProcessNetflixData.peak_month s) /\
  max_by_value (ProcessNetflixData.day_of_week s)
  = Ok (ProcessNetflixData.favorite_day s) /\
  max_by_value (ProcessNetflixData.time_categories s)
  = Ok (ProcessNetflixData.peak_time s) /\
  ProcessNetflixData.binge_sessions s
  = Pd.count (fun g => snd g >=? ProcessNetflixData.binge_threshold) sizes /\
  ProcessNetflixData.biggest_binge s
  = match map snd sizes with [] => 0 | x :: l => Pd.max_of x l end /\
  ProcessNetflixData.longest_streak s = Streak.longest_streak dates /\
  ProcessNetflixData.active_days s = Z.of_nat (List.length dates).
Proof.
  unfold ProcessNetflixData.compute_stats. intros H.
  destruct (ProcessNetflixData.daily_show_counts df) as [counts|] eqn:Ec;
    [|discriminate].
  apply daily_show_counts_rows in Ec. destruct Ec as [Hne ->].
  cbn [Cal.month_order Cal.dow_order ProcessNetflixData.time_category_names
       map bind max_by_value] in H.
  destruct (Pd.sorted_unique (map ProcessNetflixData.Date df))
    as [|d0 ds] eqn:E; [discriminate|].
  cbn [ProcessNetflixData.py_min ProcessNetflixData.py_max bind] in H.
  rewrite process_netflix_data_first_match in H. cbn [bind] in H.
  apply Ok_inj in H. rewrite <- H. clear H.
  cbv zeta. cbn [ProcessNetflixData.set_personality
    ProcessNetflixData.monthly_breakdown ProcessNetflixData.day_of_week
    ProcessNetflixData.time_categories ProcessNetflixData.peak_month
    ProcessNetflixData.favorite_day ProcessNetflixData.peak_time
    ProcessNetflixData.binge_sessions ProcessNetflixData.biggest_binge
    ProcessNetflixData.longest_streak ProcessNetflixData.active_days].
  split; [exact Hne|].
  repeat split; reflexivity.
Qed.

Lemma mapM_derive rows :
  forall df, mapM ProcessNetflixData.derive rows = Ok df ->
  map ProcessNetflixData.Date df = map (fun r => Cal.date (fst r)) rows /\
  map ProcessNetflixData.Month df
  = map (fun r => Cal.month_name (fst r)) rows /\
  (rows = [] -> df = []).
Proof.
  induction rows as [|r rows IH]; intros df H; simpl in H.
  - apply Ok_inj in H. subst df. repeat split; reflexivity.
  - unfold ProcessNetflixData.derive in H at 1.
    destruct (ProcessNetflixData.extract_show_info (Csv.Title (snd r)))
      as [info|]; [|discriminate].
    cbn [bind] in H.
    destruct (mapM ProcessNetflixData.derive rows) as [df'|];
      [|discriminate].
    cbn [bind] in H. apply Ok_inj in H. subst df.
    destruct (IH df' eq_refl) as (H1 & H2 & _).
    cbn [map ProcessNetflixData.Date ProcessNetflixData.Month].
    rewrite H1, H2. repeat split; try reflexivity. discriminate.
Qed.

Lemma process_netflix_data_inv csv s :
  ProcessNetflixData.process_netflix_data csv = Ok s ->
  exists df,
    ProcessNetflixData.df_main csv = Ok df /\
    ProcessNetflixData.compute_stats df = Ok s.
Proof.
  unfold ProcessNetflixData.process_netflix_data. intros H.
  destruct (ProcessNetflixData.df_main csv) as [df|]; [|discriminate].
  exists df. split; [reflexivity|exact H].
Qed.

Lemma str_eqb_eq a b : str_eqb a b = true <-> a = b.
Proof.
  unfold str_eqb. destruct (list_eq_dec ascii_dec a b); split;
    congruence.
Qed.

Lemma count_none {A} (f : A -> bool) df :
  (forall r, In r df -> f r = false) -> Pd.count f df = 0.
Proof.
  intros H. unfold Pd.count.
  replace (filter f df) with (@nil A); [reflexivity|].
  symmetry. induction df as [|r df IH]; [reflexivity|]. simpl.
  rewrite (H r) by now left. apply IH. intros r' Hr'. apply H. now right.
Qed.

Lemma keyed_counts_keys {A} (key : A -> str) order df :
  map fst (map (fun m => (m, Pd.count (fun r => str_eqb (key r) m) df)) order)
  = order.
Proof. rewrite map_map. simpl. apply map_id. Qed.

(** A key no row carries is mapped to zero. *)
Lemma keyed_counts_zero {A} (key : A -> str) order df k v :
  In (k, v)
     (map (fun m => (m, Pd.count (fun r => str_eqb (key r) m) df)) order) ->
  (forall r, In r df -> key r <> k) -> v = 0.
Proof.
  intros H Habs. apply in_map_iff in H. destruct H as (m & E & _).
  inversion E; subst. apply count_none. intros r Hr.
  destruct (str_eqb (key r) k) eqn:Ek; [|reflexivity].
  apply str_eqb_eq in Ek. now apply Habs in Hr.
Qed.

Lemma time_bucket_morning h :
  (h >=? 6) && (h <? 12) = true ->
  ProcessNetflixData.get_time_category h = s2l "Morning (6am-12pm)".
Proof.
  intros H. unfold ProcessNetflixData.get_time_category.
  replace ((6 <=? h) && (h <? 12)) with true; [reflexivity|].
  rewrite <- H. f_equal. lia.
Qed.

Lemma time_bucket_afternoon h :
  (h >=? 12) && (h <? 18) = true ->
  ProcessNetflixData.get_time_category h = s2l "Afternoon (12pm-6pm)".
Proof.
  intros H. unfold ProcessNetflixData.get_time_category.
  replace ((6 <=? h) && (h <? 12)) with false by lia.
  replace ((12 <=? h) && (h <? 18)) with true; [reflexivity|].
  rewrite <- H. f_equal. lia.
Qed.

Lemma time_bucket_evening h :
  (h >=? 18) && (h <? 22) = true ->
  ProcessNetflixData.get_time_category h = s2l "Evening (6pm-10pm)".
Proof.
  intros H. unfold ProcessNetflixData.get_time_category.
  replace ((6 <=? h) && (h <? 12)) with false by lia.
  replace ((12 <=? h) && (h <? 18)) with false by lia.
  replace ((18 <=? h) && (h <? 22)) with true; [reflexivity|].
  rewrite <- H. f_equal. lia.
Qed.

Lemma time_bucket_night h :
  (h >=? 22) || (h <? 6) = true ->
  ProcessNetflixData.get_time_category h = s2l "Night Owl (10pm-6am)".
Proof.
  intros H. unfold ProcessNetflixData.get_time_category.
  replace ((6 <=? h) && (h <? 12)) with false by lia.
  replace ((12 <=? h) && (h <? 18)) with false by lia.
  replace ((18 <=? h) && (h <? 22)) with false by lia.
  reflexivity.
Qed.

Lemma max_by_loop_first {K} (d : list (K * Z)) :
  forall pre best ib,
  nth_error pre ib = Some best ->
  (forall j kv, nth_error pre j = Some kv ->
     snd kv <= snd best /\ ((j < ib)%nat -> snd kv < snd best)) ->
  exists i,
    nth_error (pre ++ d) i = Some (max_by_loop best d) /\
    forall j kv, nth_error (pre ++ d) j = Some kv ->
      snd kv <= snd (max_by_loop best d) /\
      ((j < i)%nat -> snd kv < snd (max_by_loop best d)).
Proof.
  induction d as [|kv0 d IH]; intros pre best ib Hb Hall; simpl.
  - rewrite app_nil_r. exists ib. split; assumption.
  - replace (pre ++ kv0 :: d) with ((pre ++ [kv0]) ++ d)
      by now rewrite <- app_assoc.
    assert (Hlen : (ib < List.length pre)%nat)
      by (apply nth_error_Some; congruence).
    assert (Hnew : nth_error (pre ++ [kv0]) (List.length pre) = Some kv0).
    { rewrite nth_error_app2 by lia. now rewrite Nat.sub_diag. }
    assert (Hold : forall j kv, nth_error (pre ++ [kv0]) j = Some kv ->
              (j < List.length pre)%nat /\ nth_error pre j = Some kv
              \/ j = List.length pre /\ kv = kv0).
    { intros j kv Hj.
      destruct (Nat.lt_ge_cases j (List.length pre)) as [Hlt|Hge].
      - left. rewrite nth_error_app1 in Hj by assumption. auto.
      - right. rewrite nth_error_app2 in Hj by assumption.
        destruct (j - List.length pre)%nat as [|n] eqn:En.
        + simpl in Hj. inversion Hj. split; [lia|reflexivity].
        + simpl in Hj. destruct n; discriminate. }
    destruct (snd kv0 >? snd best) eqn:E.
    + apply (IH (pre ++ [kv0]) kv0 (List.length pre) Hnew).
      intros j kv Hj. destruct (Hold j kv Hj) as [[Hlt Hj']|[-> ->]].
      * destruct (Hall j kv Hj') as [Hle _]. lia.
      * split; lia.
    + apply (IH (pre ++ [kv0]) best ib).
      * rewrite nth_error_app1 by assumption. exact Hb.
      * intros j kv Hj. destruct (Hold j kv Hj) as [[Hlt Hj']|[-> ->]].
        -- now apply Hall.
        -- split; lia.
Qed.

(** [max(d, key=d.get)] and [idxmax] pick the earliest largest
    entry. *)
Lemma max_by_value_first_argmax d k :
  max_by_value d = Ok k -> first_argmax d k.
Proof.
  destruct d as [|kv d]; [discriminate|]. simpl. intros H.
  apply Ok_inj in H. subst k.
  destruct (max_by_loop_first d [kv] kv 0%nat eq_refl) as (i & Hi & Hmax).
  { intros j kv' Hj. destruct j as [|[|j]]; simpl in Hj; try discriminate.
    inversion Hj; subst. split; lia. }
  exists i, (snd (max_by_loop kv d)). split.
  - simpl app in Hi. rewrite Hi. now destruct (max_by_loop kv d).
  - intros j k' v' Hj. apply (Hmax j (k', v')). exact Hj.
Qed.

Lemma mapM_ok {A B} (f : A -> res B) l :
  (forall x, In x l -> exists y, f x = Ok y) ->
  exists ys, mapM f l = Ok ys /\ List.length ys = List.length l.
Proof.
  induction l as [|x l IH]; intros H; simpl.
  - exists []. split; reflexivity.
  - destruct (H x (or_introl eq_refl)) as [y Hy].
    destruct IH as (ys & Hys & Hlen).
    { intros x' Hx'. apply H. now right. }
    rewrite Hy, Hys. exists (y :: ys). simpl. now rewrite Hlen.
Qed.

Lemma calculate_stats_ok df y :
  ProcessData.select_year df y <> [] ->
  exists s, ProcessData.calculate_stats df y = Ok (ProcessData.Stats s).
Proof.
  intros Hne. unfold ProcessData.calculate_stats.
  destruct (ProcessData.select_year df y) as [|r0 df']; [congruence|].
  cbn [Cal.month_order Cal.dow_order map bind max_by_value].
  eexists. reflexivity.
Qed.

End Pipelines.

(** ** The claims about the statistics *)

Section Statistics.

Import Spec.

Lemma dates_of_main csv df :
  ProcessNetflixData.df_main csv = Ok df ->
  map ProcessNetflixData.Date df
  = map (fun r => Cal.date (fst r)) (ProcessNetflixData.df_main_rows csv).
Proof. intros H. now apply mapM_derive in H. Qed.

Lemma three_then_a_gap d :
  Streak.longest_streak [d; d + 1; d + 2; d + 4] = 3.
Proof.
  rewrite longest_streak_walk. cbn [Streak.walk fst snd].
  replace (d + 1 - d =? 1) with true by lia.
  replace (d + 2 - (d + 1) =? 1) with true by lia.
  replace (d + 4 - (d + 2) =? 1) with false by lia.
  reflexivity.
Qed.

(** C2: on every non-empty strictly increasing list of dates the
    streak loop returns the length of the longest run of consecutive
    calendar dates; for three consecutive days followed by a day
    after a gap, such as 1, 2, 3 and 5 January, it returns 3; and the
    [longest_streak] either file reports is the length of the longest
    run of consecutive dates among the dates of the records it
    counts. *)
Theorem longest_streak_is_longest_run :
  (forall d ds,
     StronglySorted Z.lt (d :: ds) ->
     longest_run (d :: ds) (Streak.longest_streak (d :: ds))) /\
  Streak.longest_streak
    [Cal.ymd2ord 2025 1 1; Cal.ymd2ord 2025 1 2; Cal.ymd2ord 2025 1 3;
     Cal.ymd2ord 2025 1 5] = 3 /\
  (forall d, Streak.longest_streak [d; d + 1; d + 2; d + 4] = 3) /\
  (forall df y s,
     ProcessData.calculate_stats df y = Ok (ProcessData.Stats s) ->
     longest_run
       (map (fun r => Cal.date (ProcessData.Date r))
            (ProcessData.select_year df y))
       (ProcessData.longest_streak s)) /\
  (forall csv s,
     ProcessNetflixData.process_netflix_data csv = Ok s ->
     longest_run
       (map (fun r => Cal.date (fst r)) (ProcessNetflixData.df_main_rows csv))
       (ProcessNetflixData.longest_streak s)).
Proof.
  split; [exact longest_streak_longest_run|].
  split; [reflexivity|]. split; [exact three_then_a_gap|]. split.
  - intros df y s H. apply calculate_stats_fields in H. cbv zeta in H.
    destruct H as (Hne & _ & _ & _ & _ & _ & _ & _ & _ & -> & _).
    apply longest_streak_of_column.
    destruct (ProcessData.select_year df y); [congruence|discriminate].
  - intros csv s H. apply process_netflix_data_inv in H.
    destruct H as (df & Hdf & H). apply compute_stats_fields in H.
    cbv zeta in H.
    destruct H as (Hne & _ & _ & _ & _ & _ & _ & _ & _ & -> & _).
    rewrite <- (dates_of_main csv df Hdf).
    apply longest_streak_of_column.
    destruct df; [congruence|discriminate].
Qed.

(** [longest_streak_is_longest_run] at the dates 1, 2, 3 and 5 January
    2025 and at an export with viewing on those four days. *)
Lemma longest_streak_is_longest_run_witness :
  StronglySorted Z.lt [739252; 739253; 739254; 739256] /\
  longest_run [739252; 739253; 739254; 739256] 3 /\
  exists s,
    ProcessNetflixData.process_netflix_data Samples.four_days = Ok s /\
    ProcessNetflixData.longest_streak s = 3 /\
    longest_run
      (map (fun r => Cal.date (fst r))
           (ProcessNetflixData.df_main_rows Samples.four_days))
      (ProcessNetflixData.longest_streak s).
Proof.
  assert (Hs : StronglySorted Z.lt [739252; 739253; 739254; 739256])
    by (repeat constructor; lia).
  destruct longest_streak_is_longest_run as (H1 & _ & _ & _ & H4).
  split; [exact Hs|]. split; [exact (H1 _ _ Hs)|].
  destruct (ProcessNetflixData.process_netflix_data Samples.four_days)
    as [s|e] eqn:E; [|vm_compute in E; discriminate].
  exists s. split; [reflexivity|]. split.
  - vm_compute in E. apply Ok_inj in E. now subst s.
  - exact (H4 _ _ E).
Defined.

(** C3: [calculate_stats] produces statistics as soon as one record
    is selected; and whenever either file produces statistics, the
    keys of [monthly_breakdown], [day_of_week] and [time_categories]
    are exactly the twelve month names, the seven weekday names and
    the four time buckets, in that order, and a key that no counted
    record carries has the value zero. *)
Theorem breakdowns_have_canonical_keys :
  (List.length Cal.month_order = 12%nat /\
   List.length Cal.dow_order = 7%nat /\
   List.length ProcessNetflixData.time_category_names = 4%nat) /\
  (forall df y,
     ProcessData.select_year df y <> [] ->
     exists s, ProcessData.calculate_stats df y = Ok (ProcessData.Stats s)) /\
  (forall df y s,
     ProcessData.calculate_stats df y = Ok (ProcessData.Stats s) ->
     let sel := ProcessData.select_year df y in
     map fst (ProcessData.monthly_breakdown s) = Cal.month_order /\
     map fst (ProcessData.day_of_week s) = Cal.dow_order /\
     map fst (ProcessData.time_categories s)
     = ProcessNetflixData.time_category_names /\
     (forall k v, In (k, v) (ProcessData.monthly_breakdown s) ->
        (forall r, In r sel -> ProcessData.MonthName r <> k) -> v = 0) /\
     (forall k v, In (k, v) (ProcessData.day_of_week s) ->
        (forall r, In r sel -> ProcessData.DayOfWeek r <> k) -> v = 0) /\
     (forall k v, In (k, v) (ProcessData.time_categories s) ->
        (forall r, In r sel ->
           ProcessNetflixData.get_time_category (ProcessData.Hour r) <> k) ->
        v = 0)) /\
  (forall csv s,
     ProcessNetflixData.process_netflix_data csv = Ok s ->
     exists df,
       ProcessNetflixData.df_main csv = Ok df /\
       map fst (ProcessNetflixData.monthly_breakdown s) = Cal.month_order /\
       map fst (ProcessNetflixData.day_of_week s) = Cal.dow_order /\
       map fst (ProcessNetflixData.time_categories s)
       = ProcessNetflixData.time_category_names /\
       (forall k v, In (k, v) (ProcessNetflixData.monthly_breakdown s) ->
          (forall r, In r df -> ProcessNetflixData.Month r <> k) -> v = 0) /\
       (forall k v, In (k, v) (ProcessNetflixData.day_of_week s) ->
          (forall r, In r df -> ProcessNetflixData.DayOfWeek r <> k) ->
          v = 0) /\
       (forall k v, In (k, v) (ProcessNetflixData.time_categories s) ->
          (forall r, In r df -> ProcessNetflixData.TimeCategory r <> k) ->
          v = 0)).
Proof.
  split; [repeat split; reflexivity|].
  split; [exact calculate_stats_ok|]. split.
  - intros df y s H sel.
    pose proof H as Hraw.
    apply calculate_stats_fields in H. cbv zeta in H. fold sel in H.
    destruct H as (_ & Hm & Hd & Ht & _).
    split; [rewrite Hm; apply keyed_counts_keys|].
    split; [rewrite Hd; apply keyed_counts_keys|].
    split; [exact Ht|].
    split; [intros k v; rewrite Hm; apply keyed_counts_zero|].
    split; [intros k v; rewrite Hd; apply keyed_counts_zero|].
    intros k v Hin Habs.
    unfold ProcessData.calculate_stats in Hraw. fold sel in Hraw.
    destruct sel as [|r0 df'] eqn:E; [discriminate|].
    cbn [Cal.month_order Cal.dow_order map bind max_by_value] in Hraw.
    apply Ok_inj, Stats_inj in Hraw. rewrite <- Hraw in Hin. clear Hraw.
    cbn [ProcessData.set_personality ProcessData.time_categories] in Hin.
    destruct Hin as [Hin|[Hin|[Hin|[Hin|[]]]]]; inversion Hin; subst;
      apply count_none; intros r Hr;
      match goal with
      | |- ?c = false => destruct c eqn:Ec; [exfalso|reflexivity]
      end; apply (Habs r Hr).
    + now apply time_bucket_morning.
    + now apply time_bucket_afternoon.
    + now apply time_bucket_evening.
    + now apply time_bucket_night.
  - intros csv s H. apply process_netflix_data_inv in H.
    destruct H as (df & Hdf & H). exists df. split; [exact Hdf|].
    apply compute_stats_fields in H. cbv zeta in H.
    destruct H as (_ & Hm & Hd & Ht & _).
    split; [rewrite Hm; apply keyed_counts_keys|].
    split; [rewrite Hd; apply keyed_counts_keys|].
    split; [rewrite Ht; apply keyed_counts_keys|].
    split; [intros k v; rewrite Hm; apply keyed_counts_zero|].
    split; [intros k v; rewrite Hd; apply keyed_counts_zero|].
    intros k v; rewrite Ht; apply keyed_counts_zero.
Qed.

(** [breakdowns_have_canonical_keys] at an export with viewing in
    January only: February is mapped to zero. *)
Lemma breakdowns_have_canonical_keys_witness :
  exists s,
    ProcessNetflixData.process_netflix_data Samples.four_days = Ok s /\
    map fst (ProcessNetflixData.monthly_breakdown s) = Cal.month_order /\
    In (s2l "February", 0) (ProcessNetflixData.monthly_breakdown s).
Proof.
  destruct breakdowns_have_canonical_keys as (_ & _ & _ & H).
  destruct (ProcessNetflixData.process_netflix_data Samples.four_days)
    as [s|e] eqn:E; [|vm_compute in E; discriminate].
  exists s. split; [reflexivity|].
  destruct (H _ _ E) as (df & _ & Hm & _).
  split; [exact Hm|].
  vm_compute in E. apply Ok_inj in E. subst s. vm_compute. tauto.
Defined.

(** C9: whenever either file produces statistics, [peak_month],
    [favorite_day] and [peak_time] are keys of largest value in their
    breakdown mapping, and among keys of equal value the one that
    comes first in the canonical order of the mapping's keys is
    chosen. *)
Theorem peaks_are_first_argmax :
  (forall df y s,
     ProcessData.calculate_stats df y = Ok (ProcessData.Stats s) ->
     map fst (ProcessData.monthly_breakdown s) = Cal.month_order /\
     map fst (ProcessData.day_of_week s) = Cal.dow_order /\
     map fst (ProcessData.time_categories s)
     = ProcessNetflixData.time_category_names /\
     (exists k, ProcessData.peak_month s = Some k /\
                first_argmax (ProcessData.monthly_breakdown s) k) /\
     (exists k, ProcessData.favorite_day s = Some k /\
                first_argmax (ProcessData.day_of_week s) k) /\
     first_argmax (ProcessData.time_categories s) (ProcessData.peak_time s)) /\
  (forall csv s,
     ProcessNetflixData.process_netflix_data csv = Ok s ->
     map fst (ProcessNetflixData.monthly_breakdown s) = Cal.month_order /\
     map fst (ProcessNetflixData.day_of_week s) = Cal.dow_order /\
     map fst (ProcessNetflixData.time_categories s)
     = ProcessNetflixData.time_category_names /\
     first_argmax (ProcessNetflixData.monthly_breakdown s)
                  (ProcessNetflixData.peak_month s) /\
     first_argmax (ProcessNetflixData.day_of_week s)
                  (ProcessNetflixData.favorite_day s) /\
     first_argmax (ProcessNetflixData.time_categories s)
                  (ProcessNetflixData.peak_time s)).
Proof.
  split.
  - intros df y s H. apply calculate_stats_fields in H. cbv zeta in H.
    destruct H as (_ & Hm & Hd & Ht & (km & Hkm & Hpm) & (kd & Hkd & Hfd)
                   & Hpt & _).
    split; [rewrite Hm; apply keyed_counts_keys|].
    split; [rewrite Hd; apply keyed_counts_keys|].
    split; [exact Ht|].
    split; [exists km; split;
            [exact Hpm|now apply max_by_value_first_argmax]|].
    split; [exists kd; split;
            [exact Hfd|now apply max_by_value_first_argmax]|].
    now apply max_by_value_first_argmax.
  - intros csv s H. apply process_netflix_data_inv in H.
    destruct H as (df & Hdf & H).
    apply compute_stats_fields in H. cbv zeta in H.
    destruct H as (_ & Hm & Hd & Ht & Hpm & Hfd & Hpt & _).
    split; [rewrite Hm; apply keyed_counts_keys|].
    split; [rewrite Hd; apply keyed_counts_keys|].
    split; [rewrite Ht; apply keyed_counts_keys|].
    repeat split; now apply max_by_value_first_argmax.
Qed.

(** [peaks_are_first_argmax] at an export with one viewing on each of
    Wednesday, Thursday, Friday and Sunday, run through both files:
    the tie goes to Wednesday. *)
Lemma peaks_are_first_argmax_witness :
  (exists s,
     ProcessNetflixData.process_netflix_data Samples.four_days = Ok s /\
     ProcessNetflixData.favorite_day s = s2l "Wednesday" /\
     first_argmax (ProcessNetflixData.day_of_week s)
                  (ProcessNetflixData.favorite_day s)) /\
  (exists df s,
     ProcessData.load_viewing_data Samples.four_days = Ok df /\
     ProcessData.calculate_stats df (Some 2025) = Ok (ProcessData.Stats s) /\
     ProcessData.favorite_day s = Some (s2l "Wednesday") /\
     ProcessData.peak_time s = s2l "Evening (6pm-10pm)" /\
     first_argmax (ProcessData.day_of_week s) (s2l "Wednesday") /\
     first_argmax (ProcessData.time_categories s) (ProcessData.peak_time s)).
Proof.
  destruct peaks_are_first_argmax as (H0 & H).
  split.
  - destruct (ProcessNetflixData.process_netflix_data Samples.four_days)
      as [s|e] eqn:E; [|vm_compute in E; discriminate].
    exists s. split; [reflexivity|].
    destruct (H _ _ E) as (_ & _ & _ & _ & Hfd & _).
    split; [|exact Hfd].
    vm_compute in E. apply Ok_inj in E. now subst s.
  - destruct (ProcessData.load_viewing_data Samples.four_days)
      as [df|e] eqn:Edf; [|vm_compute in Edf; discriminate].
    destruct (ProcessData.calculate_stats df (Some 2025)) as [[msg|s]|e] eqn:E;
      [exfalso|exists df, s|exfalso].
    + vm_compute in Edf. apply Ok_inj in Edf. subst df.
      vm_compute in E. discriminate.
    + split; [reflexivity|]. split; [exact E|].
      destruct (H0 _ _ _ E) as (_ & _ & _ & _ & (k & Hk & Hfd) & Hpt).
      assert (Es : ProcessData.favorite_day s = Some (s2l "Wednesday") /\
                   ProcessData.peak_time s = s2l "Evening (6pm-10pm)").
      { vm_compute in Edf. apply Ok_inj in Edf. subst df.
        vm_compute in E. apply Ok_inj, Stats_inj in E. subst s.
        split; reflexivity. }
      destruct Es as [Ef Ep].
      split; [exact Ef|]. split; [exact Ep|].
      split; [|exact Hpt].
      rewrite Ef in Hk. injection Hk as <-. exact Hfd.
    + vm_compute in Edf. apply Ok_inj in Edf. subst df.
      vm_compute in E. discriminate.
Defined.

(** C10 (as amended): when no record survives the filters, on an
    export whose durations fit 64-bit integers,
    [process_netflix_data] raises and returns nothing; the exception
    is the [KeyError] of the [groupby] on the episode rows, which
    comes before [min] of the empty list of dates; [calculate_stats]
    returns the error dictionary for an empty selection. *)
Theorem empty_selection :
  (forall csv,
     durations_fit csv ->
     ProcessNetflixData.df_main_rows csv = [] ->
     ProcessNetflixData.process_netflix_data csv = Raise KeyError) /\
  (forall df y,
     ProcessData.select_year df y = [] ->
     ProcessData.calculate_stats df y
     = Ok (ProcessData.Error (s2l "No data found for the specified year"))).
Proof.
  split.
  - intros csv _ H.
    unfold ProcessNetflixData.process_netflix_data, ProcessNetflixData.df_main.
    rewrite H. reflexivity.
  - intros df y H. unfold ProcessData.calculate_stats. now rewrite H.
Qed.

(** [empty_selection] at an export with viewing in 2024 only. *)
Lemma empty_selection_witness :
  durations_fit Samples.last_year /\
  ProcessNetflixData.df_main_rows Samples.last_year = [] /\
  ProcessNetflixData.process_netflix_data Samples.last_year
  = Raise KeyError /\
  exists df,
    ProcessData.load_viewing_data Samples.last_year = Ok df /\
    ProcessData.select_year df (Some 2025) = [] /\
    ProcessData.calculate_stats df (Some 2025)
    = Ok (ProcessData.Error (s2l "No data found for the specified year")).
Proof.
  destruct empty_selection as (H1 & H2).
  assert (E0 : durations_fit Samples.last_year).
  { repeat constructor; vm_compute; discriminate. }
  assert (E1 : ProcessNetflixData.df_main_rows Samples.last_year = [])
    by reflexivity.
  split; [exact E0|]. split; [exact E1|]. split; [exact (H1 _ E0 E1)|].
  destruct (ProcessData.load_viewing_data Samples.last_year) as [df|e] eqn:E;
    [|vm_compute in E; discriminate].
  exists df. split; [reflexivity|].
  assert (E2 : ProcessData.select_year df (Some 2025) = []).
  { vm_compute in E. apply Ok_inj in E. now subst df. }
  split; [exact E2|exact (H2 _ _ E2)].
Defined.

(** C10 as stated fails in its account of the exception: [min] of an
    empty list would raise [ValueError], but on an export with viewing
    in 2024 only the run ends before, with the [KeyError] of the
    [groupby]. *)
Lemma empty_selection_not_from_min :
  ProcessNetflixData.py_min [] = Raise ValueError /\
  ProcessNetflixData.py_max [] = Raise ValueError /\
  ProcessNetflixData.df_main Samples.last_year = Ok [] /\
  ProcessNetflixData.daily_show_counts [] = Raise KeyError /\
  ProcessNetflixData.process_netflix_data Samples.last_year = Raise KeyError /\
  ProcessNetflixData.process_netflix_data Samples.last_year
  <> Raise ValueError.
Proof.
  repeat (split; [reflexivity|]). vm_compute. discriminate.
Qed.

End Statistics.

(** ** Which records count *)

Section Filters.

Import Spec.




Lemma df_main_rows_kept t r csv :
  In (t, r) (ProcessNetflixData.df_main_rows csv) ->
  60 <= ProcessNetflixData.parse_duration (Csv.Duration r) /\
  (Csv.Supplemental_Video_Type r = NaN
   \/ Csv.Supplemental_Video_Type r = Str []) /\
  Csv.Start_Time r = Some t /\ Cal.year t = 2025.
Proof.
  unfold ProcessNetflixData.df_main_rows, ProcessNetflixData.df_meaningful,
    ProcessNetflixData.df_valid.
  rewrite !filter_In.
  unfold ProcessNetflixData.duration_seconds,
    ProcessNetflixData.not_supplemental. simpl.
  intros (((Hy & _) & H60) & Hsup).
  split; [lia|]. split.
  - destruct (Csv.Supplemental_Video_Type r) as [|s]; [now left|].
    apply str_eqb_eq in Hsup. subst. now right.
  - clear - Hy. induction csv as [|r' csv IH]; simpl in Hy; [destruct Hy|].
    destruct (Csv.Start_Time r') as [t'|] eqn:Et; [|now apply IH].
    destruct (Cal.year t' =? 2025) eqn:Ey; [|now apply IH].
    destruct Hy as [Hy|Hy]; [|now apply IH].
    inversion Hy; subst. split; [exact Et|]. now apply Z.eqb_eq.
Qed.






End Filters.

(** ** Binge sessions *)

Section Binges.

Import Spec.

Lemma filter_only {A} (p : A -> bool) l k :
  NoDup l -> In k l -> p k = true ->
  (forall k', In k' l -> k' <> k -> p k' = false) ->
  filter p l = [k].
Proof.
  induction 1 as [|a l Ha Hnd IH]; intros Hin Hk Hothers; [destruct Hin|].
  simpl. destruct Hin as [->|Hin].
  - rewrite Hk. f_equal.
    clear IH. induction l as [|b l IHl]; [reflexivity|]. simpl.
    rewrite (Hothers b).
    + apply IHl.
      * intros H. apply Ha. now right.
      * now inversion Hnd.
      * intros k' Hk' Hne. apply Hothers; [|exact Hne].
        destruct Hk' as [->|Hk']; [now left|now right; right].
    + now right; left.
    + intros ->. apply Ha. now left.
  - rewrite (Hothers a).
    + apply IH; [exact Hin|exact Hk|].
      intros k' Hk' Hne. apply Hothers; [now right|exact Hne].
    + now left.
    + intros ->. contradiction.
Qed.

Lemma max_of_spec l :
  forall x, In (Pd.max_of x l) (x :: l) /\
            forall y, In y (x :: l) -> y <= Pd.max_of x l.
Proof.
  unfold Pd.max_of.
  induction l as [|a l IH]; intros x; simpl.
  - split; [now left|]. intros y [->|[]]. lia.
  - destruct (IH (Z.max x a)) as [Hin Hmax]. split.
    + destruct Hin as [Hin|Hin]; [|now right; right].
      rewrite <- Hin. destruct (Z.max_spec x a) as [[_ ->]|[_ ->]]; auto.
    + intros y [->|[->|Hy]].
      * specialize (Hmax (Z.max y a) (or_introl eq_refl)). lia.
      * specialize (Hmax (Z.max x y) (or_introl eq_refl)). lia.
      * apply Hmax. now right.
Qed.

Lemma filter_map_comm {A B} (g : A -> B) (p : B -> bool) l :
  filter p (map g l) = map g (filter (fun a => p (g a)) l).
Proof.
  induction l as [|a l IH]; [reflexivity|]. simpl.
  destruct (p (g a)); simpl; now rewrite IH.
Qed.

(** One key occurs [n] times, [n] reaching the threshold, and every
    other key once at most: one binge session, of size [n]. *)
Lemma one_group_over_threshold keys k n thr :
  Z.of_nat (count_occ Pd.key_eq_dec keys k) = n -> 1 < thr -> thr <= n ->
  (forall k', k' <> k -> (count_occ Pd.key_eq_dec keys k' <= 1)%nat) ->
  filter (fun g => snd g >=? thr) (Pd.group_sizes keys) = [(k, n)] /\
  match map snd (Pd.group_sizes keys) with
  | [] => 0
  | x :: l => Pd.max_of x l
  end = n.
Proof.
  intros Hn Hthr Hge Hothers.
  assert (Hin : In k (nodup Pd.key_eq_dec keys)).
  { apply nodup_In. apply (count_occ_In Pd.key_eq_dec). lia. }
  split.
  - unfold Pd.group_sizes. rewrite filter_map_comm. cbn [snd].
    rewrite (filter_only _ _ k).
    + simpl. now rewrite Hn.
    + apply NoDup_nodup.
    + exact Hin.
    + lia.
    + intros k' _ Hne. specialize (Hothers k' Hne). lia.
  - unfold Pd.group_sizes. rewrite map_map. cbn [snd].
    assert (Hv : In n (map (fun k0 => Z.of_nat (count_occ Pd.key_eq_dec keys k0))
                           (nodup Pd.key_eq_dec keys))).
    { apply in_map_iff. exists k. split; [exact Hn|exact Hin]. }
    destruct (map (fun k0 => Z.of_nat (count_occ Pd.key_eq_dec keys k0))
                  (nodup Pd.key_eq_dec keys)) as [|x l] eqn:E;
      [destruct Hv|].
    destruct (max_of_spec l x) as [Hmem Hmax].
    apply Z.le_antisymm; [|now apply Hmax].
    rewrite <- E in Hmem. apply in_map_iff in Hmem.
    destruct Hmem as (k' & Hk' & _). rewrite <- Hk'.
    destruct (Pd.key_eq_dec k' k) as [->|Hne]; [lia|].
    specialize (Hothers k' Hne). lia.
Qed.

(** In process_netflix_data.py the groups are made of episode records
    only, a group of four or more is a binge session, and the
    one-group scenario gives one session of the size of the group. *)
Lemma process_netflix_data_binges csv s :
  ProcessNetflixData.process_netflix_data csv = Ok s ->
  exists df,
    ProcessNetflixData.df_main csv = Ok df /\
    let keys :=
      map (fun r => (ProcessNetflixData.Date r, ProcessNetflixData.Show r))
          (filter ProcessNetflixData.Is_Episode df) in
    ProcessNetflixData.binge_sessions s
    = Z.of_nat (List.length
        (filter (fun k => Z.of_nat (count_occ Pd.key_eq_dec keys k) >=? 4)
                (nodup Pd.key_eq_dec keys))) /\
    forall k n,
      Z.of_nat (count_occ Pd.key_eq_dec keys k) = n -> 4 <= n ->
      (forall k', k' <> k -> (count_occ Pd.key_eq_dec keys k' <= 1)%nat) ->
      ProcessNetflixData.binge_sessions s = 1 /\
      ProcessNetflixData.biggest_binge s = n.
Proof.
  intros H. apply process_netflix_data_inv in H.
  destruct H as (df & Hdf & H). exists df. split; [exact Hdf|].
  apply compute_stats_fields in H. cbv zeta in H.
  destruct H as (_ & _ & _ & _ & _ & _ & _ & Hb & Hbig & _).
  cbv zeta. split.
  - rewrite Hb. unfold Pd.count, Pd.group_sizes.
    now rewrite filter_map_comm, length_map.
  - intros k n Hn Hge Hothers.
    destruct (one_group_over_threshold _ k n 4 Hn ltac:(lia) Hge Hothers)
      as [Hf Hm].
    split.
    + rewrite Hb. unfold Pd.count, ProcessNetflixData.binge_threshold.
      now rewrite Hf.
    + rewrite Hbig. exact Hm.
Qed.

(** In process_data.py the groups are made of all the records of the
    year, and a group of three or more is a binge session. *)
Lemma process_data_binges df y s :
  ProcessData.calculate_stats df y = Ok (ProcessData.Stats s) ->
  let keys :=
    map (fun r => (Cal.date (ProcessData.Date r), ProcessData.ShowName r))
        (ProcessData.select_year df y) in
  ProcessData.binge_sessions s
  = Z.of_nat (List.length
      (filter (fun k => Z.of_nat (count_occ Pd.key_eq_dec keys k) >=? 3)
              (nodup Pd.key_eq_dec keys))) /\
  forall k n,
    Z.of_nat (count_occ Pd.key_eq_dec keys k) = n -> 3 <= n ->
    (forall k', k' <> k -> (count_occ Pd.key_eq_dec keys k' <= 1)%nat) ->
    ProcessData.binge_sessions s = 1 /\ ProcessData.biggest_binge s = n.
Proof.
  intros H. apply calculate_stats_fields in H. cbv zeta in H.
  destruct H as (_ & _ & _ & _ & _ & _ & _ & Hb & Hbig & _).
  cbv zeta. split.
  - rewrite Hb. unfold Pd.group_sizes, ProcessData.binge_threshold.
    now rewrite filter_map_comm, length_map.
  - intros k n Hn Hge Hothers.
    destruct (one_group_over_threshold _ k n 3 Hn ltac:(lia) Hge Hothers)
      as [Hf _].
    unfold ProcessData.binge_threshold in Hb, Hbig.
    rewrite Hf in Hb, Hbig. split; [exact Hb|exact Hbig].
Qed.

(** C1, where the code departs from it: process_netflix_data.py
    groups episode records only, counts the groups of four or more,
    and reports one session of the group's size in the one-group
    scenario; process_data.py counts the groups of three or more and
    does the same in that scenario, but it groups every record of the
    year, so one film with three viewing records on one day, none of
    them an episode, is counted as a binge session of three, where
    process_netflix_data.py counts none. *)
Theorem binge_detection :
  (forall csv s,
     ProcessNetflixData.process_netflix_data csv = Ok s ->
     exists df,
       ProcessNetflixData.df_main csv = Ok df /\
       let keys :=
         map (fun r => (ProcessNetflixData.Date r, ProcessNetflixData.Show r))
             (filter ProcessNetflixData.Is_Episode df) in
       ProcessNetflixData.binge_sessions s
       = Z.of_nat (List.length
           (filter (fun k => Z.of_nat (count_occ Pd.key_eq_dec keys k) >=? 4)
                   (nodup Pd.key_eq_dec keys))) /\
       forall k n,
         Z.of_nat (count_occ Pd.key_eq_dec keys k) = n -> 4 <= n ->
         (forall k', k' <> k -> (count_occ Pd.key_eq_dec keys k' <= 1)%nat) ->
         ProcessNetflixData.binge_sessions s = 1 /\
         ProcessNetflixData.biggest_binge s = n) /\
  (forall df y s,
     ProcessData.calculate_stats df y = Ok (ProcessData.Stats s) ->
     let keys :=
       map (fun r => (Cal.date (ProcessData.Date r), ProcessData.ShowName r))
           (ProcessData.select_year df y) in
     ProcessData.binge_sessions s
     = Z.of_nat (List.length
         (filter (fun k => Z.of_nat (count_occ Pd.key_eq_dec keys k) >=? 3)
                 (nodup Pd.key_eq_dec keys))) /\
     forall k n,
       Z.of_nat (count_occ Pd.key_eq_dec keys k) = n -> 3 <= n ->
       (forall k', k' <> k -> (count_occ Pd.key_eq_dec keys k' <= 1)%nat) ->
       ProcessData.binge_sessions s = 1 /\ ProcessData.biggest_binge s = n) /\
  (exists df s,
     ProcessData.load_viewing_data Samples.film_thrice = Ok df /\
     Forall (fun r => ProcessData.IsEpisode r = Some false) df /\
     ProcessData.calculate_stats df (Some 2025) = Ok (ProcessData.Stats s) /\
     ProcessData.binge_sessions s = 1 /\ ProcessData.biggest_binge s = 3) /\
  (exists s,
     ProcessNetflixData.process_netflix_data Samples.film_thrice = Ok s /\
     ProcessNetflixData.binge_sessions s = 0 /\
     ProcessNetflixData.biggest_binge s = 0).
Proof.
  split; [exact process_netflix_data_binges|].
  split; [exact process_data_binges|]. split.
  - eexists. eexists. split; [vm_compute; reflexivity|].
    split; [repeat constructor|].
    split; [vm_compute; reflexivity|]. split; reflexivity.
  - eexists. split; [vm_compute; reflexivity|]. split; reflexivity.
Qed.

(** [binge_detection] at an export with four episodes of one show on
    8 March 2025 and a film the day after. *)
Lemma binge_detection_witness :
  exists s,
    ProcessNetflixData.process_netflix_data Samples.one_binge = Ok s /\
    ProcessNetflixData.binge_sessions s = 1 /\
    ProcessNetflixData.biggest_binge s = 4.
Proof.
  destruct binge_detection as (H & _).
  destruct (ProcessNetflixData.process_netflix_data Samples.one_binge)
    as [s|e] eqn:E; [|vm_compute in E; discriminate].
  exists s. split; [reflexivity|].
  destruct (H _ _ E) as (df & Hdf & _ & Hone).
  vm_compute in Hdf. apply Ok_inj in Hdf. subst df.
  apply (Hone (Cal.ymd2ord 2025 3 8, s2l "Stranger Things") 4).
  - reflexivity.
  - lia.
  - intros k' Hne. cbv zeta.
    match goal with
    | |- (count_occ _ ?l _ <= 1)%nat =>
        assert (Hl : l = repeat (Cal.ymd2ord 2025 3 8, s2l "Stranger Things") 4)
          by reflexivity;
        rewrite Hl
    end.
    rewrite count_occ_repeat_neq; [lia|congruence].
Defined.

End Binges.

(** [personality_is_first_match] at statistics with 600 hours and 60
    binge sessions. *)
Lemma personality_is_first_match_witness :
  Qgtb (ProcessData.estimated_hours Samples.heavy_viewer) (500 # 1) = true /\
  (ProcessData.binge_sessions Samples.heavy_viewer >? 50) = true /\
  ProcessData.type (ProcessData.determine_personality Samples.heavy_viewer)
  = s2l "The Streaming Champion".
Proof.
  assert (H1 : Qgtb (ProcessData.estimated_hours Samples.heavy_viewer)
                 (500 # 1) = true) by reflexivity.
  assert (H2 : (ProcessData.binge_sessions Samples.heavy_viewer >? 50) = true)
    by reflexivity.
  destruct personality_is_first_match as (_ & _ & _ & _ & H).
  split; [exact H1|]. split; [exact H2|].
  exact (H Samples.heavy_viewer H1 H2).
Defined.

(** ** Totals and bounds of the statistics *)

Section Totals.

Lemma fold_add_shift l a : fold_left Z.add l a = a + fold_left Z.add l 0.
Proof.
  revert a. induction l as [|x l IH]; intros a; cbn [fold_left]; [lia|].
  rewrite IH, (IH (0 + x)). lia.
Qed.

Lemma sum_cons x l :
  fold_left Z.add (x :: l) 0 = x + fold_left Z.add l 0.
Proof. cbn [fold_left]. now rewrite fold_add_shift. Qed.

Lemma sum_map_add {A} (f g : A -> Z) l :
  fold_left Z.add (map (fun m => f m + g m) l) 0
  = fold_left Z.add (map f l) 0 + fold_left Z.add (map g l) 0.
Proof.
  induction l as [|a l IH]; [reflexivity|].
  cbn [map]. rewrite !sum_cons, IH. lia.
Qed.

Lemma sum_map_zero {A} (f : A -> Z) l :
  (forall a, In a l -> f a = 0) -> fold_left Z.add (map f l) 0 = 0.
Proof.
  induction l as [|a l IH]; intros H; [reflexivity|].
  cbn [map]. rewrite sum_cons, IH, (H a); [lia|now left|].
  intros b Hb. apply H. now right.
Qed.

Lemma count_cons {A} (f : A -> bool) r df :
  Pd.count f (r :: df) = Cal.b2z (f r) + Pd.count f df.
Proof.
  unfold Pd.count, Cal.b2z. cbn [filter].
  destruct (f r); cbn [List.length]; lia.
Qed.

Lemma count_range {A} (f : A -> bool) df :
  0 <= Pd.count f df <= Z.of_nat (List.length df).
Proof.
  unfold Pd.count. pose proof (filter_length_le f df). lia.
Qed.

(** A key of a duplicate-free list is counted once by the indicator of
    equality. *)
Lemma sum_indicator (k : str) order :
  NoDup order -> In k order ->
  fold_left Z.add (map (fun m => Cal.b2z (str_eqb k m)) order) 0 = 1.
Proof.
  induction 1 as [|m order Hm Hnd IH]; intros Hin; [destruct Hin|].
  cbn [map]. rewrite sum_cons.
  destruct Hin as [->|Hin].
  - rewrite sum_map_zero.
    + replace (str_eqb k k) with true; [reflexivity|].
      symmetry. now apply str_eqb_eq.
    + intros a Ha. destruct (str_eqb k a) eqn:E; [|reflexivity].
      apply str_eqb_eq in E. subst. contradiction.
  - rewrite (IH Hin). destruct (str_eqb k m) eqn:E; [|reflexivity].
    apply str_eqb_eq in E. subst. contradiction.
Qed.

(** Counting the rows by a key whose values all lie in a
    duplicate-free list of keys: the counts add up to the number of
    rows. *)
Lemma keyed_counts_sum {A} (key : A -> str) order df :
  NoDup order -> (forall r, In r df -> In (key r) order) ->
  ProcessNetflixData.sum_values
    (map (fun m => (m, Pd.count (fun r => str_eqb (key r) m) df)) order)
  = Z.of_nat (List.length df).
Proof.
  intros Hnd. unfold ProcessNetflixData.sum_values.
  rewrite map_map. cbn [snd].
  induction df as [|r df IH]; intros Hin.
  - apply sum_map_zero. reflexivity.
  - rewrite (map_ext _ (fun m => Cal.b2z (str_eqb (key r) m)
                                 + Pd.count (fun r0 => str_eqb (key r0) m) df))
      by (intros m; exact (count_cons (fun r0 => str_eqb (key r0) m) r df)).
    rewrite sum_map_add, IH, sum_indicator.
    + cbn [List.length]. lia.
    + exact Hnd.
    + apply Hin. now left.
    + intros r' Hr'. apply Hin. now right.
Qed.

Lemma month_range t : 1 <= Cal.month t <= 12.
Proof.
  unfold Cal.month, Cal.ord2ymd. cbv zeta.
  destruct (_ || _); [cbn [fst snd]; lia|].
  set (n := _ mod 365).
  assert (Hn : 0 <= n < 365) by (apply Z.mod_pos_bound; lia).
  rewrite Z.shiftr_div_pow2 by lia. change (2 ^ 5) with 32.
  assert (Hm : 1 <= (n + 50) / 32 <= 12).
  { clear - Hn. Z.div_mod_to_equations. lia. }
  destruct (_ >? n) eqn:E; cbn [fst snd]; [|exact Hm].
  assert (H1 : (n + 50) / 32 <> 1).
  { intros H1. rewrite H1 in E.
    change (1 >? 2) with false in E. cbn [andb Cal.b2z] in E.
    change (Cal.tbl Cal.days_before_month_tbl 1) with 0 in E. lia. }
  lia.
Qed.

Lemma month_name_canonical t : In (Cal.month_name t) Cal.month_order.
Proof.
  unfold Cal.month_name. apply nth_In.
  pose proof (month_range t).
  change (List.length Cal.month_order) with 12%nat. lia.
Qed.

Lemma day_name_canonical t : In (Cal.day_name t) Cal.dow_order.
Proof.
  unfold Cal.day_name, Cal.weekday. apply nth_In.
  change (List.length Cal.dow_order) with 7%nat.
  pose proof (Z.mod_pos_bound (Cal.ordinal t + 6) 7). lia.
Qed.

Lemma time_category_canonical h :
  In (ProcessNetflixData.get_time_category h)
     ProcessNetflixData.time_category_names.
Proof.
  unfold ProcessNetflixData.get_time_category.
  destruct ((6 <=? h) && (h <? 12)); [now left|].
  destruct ((12 <=? h) && (h <? 18)); [now right; left|].
  destruct ((18 <=? h) && (h <? 22)); [now right; right; left|].
  now right; right; right; left.
Qed.

Lemma NoDup_str (l : list str) :
  nodup (list_eq_dec ascii_dec) l = l -> NoDup l.
Proof. intros H. rewrite <- H. apply NoDup_nodup. Qed.

Lemma NoDup_month_order : NoDup Cal.month_order.
Proof. apply NoDup_str. vm_compute. reflexivity. Qed.

Lemma NoDup_dow_order : NoDup Cal.dow_order.
Proof. apply NoDup_str. vm_compute. reflexivity. Qed.

Lemma NoDup_time_category_names :
  NoDup ProcessNetflixData.time_category_names.
Proof. apply NoDup_str. vm_compute. reflexivity. Qed.

Lemma mapM_In {A B} (f : A -> res B) l :
  forall ys y, mapM f l = Ok ys -> In y ys -> exists x, In x l /\ f x = Ok y.
Proof.
  induction l as [|x l IH]; intros ys y H Hy; cbn [mapM] in H.
  - apply Ok_inj in H. subst ys. destruct Hy.
  - destruct (f x) as [y0|] eqn:Ex; [|discriminate]. cbn [bind] in H.
    destruct (mapM f l) as [ys'|]; [|discriminate]. cbn [bind] in H.
    apply Ok_inj in H. subst ys. destruct Hy as [->|Hy].
    + exists x. split; [now left|exact Ex].
    + destruct (IH ys' y eq_refl Hy) as (x' & Hx' & E).
      exists x'. split; [now right|exact E].
Qed.

Lemma mapM_length {A B} (f : A -> res B) l :
  forall ys, mapM f l = Ok ys -> List.length ys = List.length l.
Proof.
  induction l as [|x l IH]; intros ys H; cbn [mapM] in H.
  - apply Ok_inj in H. now subst ys.
  - destruct (f x) as [y0|]; [|discriminate]. cbn [bind] in H.
    destruct (mapM f l) as [ys'|]; [|discriminate]. cbn [bind] in H.
    apply Ok_inj in H. subst ys. cbn [List.length]. now rewrite (IH ys').
Qed.

Lemma mapM_map {A B C} (f : A -> res B) (g : A -> C) (h : B -> C) l :
  (forall x y, f x = Ok y -> h y = g x) ->
  forall ys, mapM f l = Ok ys -> map h ys = map g l.
Proof.
  intros Hfg. induction l as [|x l IH]; intros ys H; cbn [mapM] in H.
  - apply Ok_inj in H. now subst ys.
  - destruct (f x) as [y0|] eqn:Ex; [|discriminate]. cbn [bind] in H.
    destruct (mapM f l) as [ys'|]; [|discriminate]. cbn [bind] in H.
    apply Ok_inj in H. subst ys. cbn [map].
    now rewrite (Hfg x y0 Ex), (IH ys').
Qed.

(** The derived columns of a row of [df_main]. *)
Lemma main_row_fields r m :
  ProcessNetflixData.derive r = Ok m ->
  ProcessNetflixData.Start m = fst r /\
  ProcessNetflixData.Month m = Cal.month_name (fst r) /\
  ProcessNetflixData.DayOfWeek m = Cal.day_name (fst r) /\
  ProcessNetflixData.Date m = Cal.date (fst r) /\
  ProcessNetflixData.Hour m = Cal.hour (fst r) /\
  ProcessNetflixData.TimeCategory m
  = ProcessNetflixData.get_time_category (Cal.hour (fst r)) /\
  ProcessNetflixData.Duration_Seconds m
  = ProcessNetflixData.duration_seconds r /\
  exists info,
    ProcessNetflixData.extract_show_info (Csv.Title (snd r)) = Ok info /\
    ProcessNetflixData.Show m = ProcessNetflixData.show info /\
    ProcessNetflixData.Is_Episode m = ProcessNetflixData.is_episode info.
Proof.
  unfold ProcessNetflixData.derive. intros H.
  destruct (ProcessNetflixData.extract_show_info (Csv.Title (snd r)))
    as [info|]; [|discriminate].
  cbn [bind] in H. apply Ok_inj in H. subst m.
  cbn [ProcessNetflixData.Start ProcessNetflixData.Month
       ProcessNetflixData.DayOfWeek ProcessNetflixData.Date
       ProcessNetflixData.Hour ProcessNetflixData.TimeCategory
       ProcessNetflixData.Duration_Seconds ProcessNetflixData.Show
       ProcessNetflixData.Is_Episode].
  split; [reflexivity|]. split; [reflexivity|]. split; [reflexivity|].
  split; [reflexivity|]. split; [reflexivity|]. split; [reflexivity|].
  split; [reflexivity|]. exists info. split; [reflexivity|].
  split; reflexivity.
Qed.

(** The derived columns of a row [load_viewing_data] returns. *)
Lemma row_fields r m :
  ProcessData.derive r = Ok m ->
  ProcessData.Title m = Csv.Title (snd r) /\
  ProcessData.Date m = fst r /\
  ProcessData.Year m = Cal.year (fst r) /\
  ProcessData.Month m = Cal.month (fst r) /\
  ProcessData.MonthName m = Cal.month_name (fst r) /\
  ProcessData.DayOfWeek m = Cal.day_name (fst r) /\
  ProcessData.Hour m = Cal.hour (fst r) /\
  ProcessData.extract_show_name (Csv.Title (snd r))
  = Ok (ProcessData.ShowName m) /\
  ProcessData.IsEpisode m = ProcessData.str_contains_colon (Csv.Title (snd r)).
Proof.
  unfold ProcessData.derive. intros H.
  destruct (ProcessData.extract_show_name (Csv.Title (snd r)))
    as [name|]; [|discriminate].
  cbn [bind] in H. apply Ok_inj in H. subst m.
  cbn [ProcessData.Title ProcessData.Date ProcessData.Year ProcessData.Month
       ProcessData.MonthName ProcessData.DayOfWeek ProcessData.Hour
       ProcessData.ShowName ProcessData.IsEpisode].
  split; [reflexivity|]. split; [reflexivity|]. split; [reflexivity|].
  split; [reflexivity|]. split; [reflexivity|]. split; [reflexivity|].
  split; [reflexivity|]. split; reflexivity.
Qed.

Lemma compute_stats_counts df s :
  ProcessNetflixData.compute_stats df = Ok s ->
  let dates := Pd.sorted_unique (map ProcessNetflixData.Date df) in
  ProcessNetflixData.year s = 2025 /\
  ProcessNetflixData.total_titles_watched s = Z.of_nat (List.length df) /\
  ProcessNetflixData.unique_shows s
  = Pd.nunique (map ProcessNetflixData.Show df) /\
  ProcessNetflixData.movies_watched s
  = Pd.count (fun r => negb (ProcessNetflixData.Is_Episode r)) df /\
  ProcessNetflixData.episodes_watched s
  = Pd.count ProcessNetflixData.Is_Episode df /\
  ProcessNetflixData.py_min dates
  = Ok (ProcessNetflixData.first_watch_date s) /\
  ProcessNetflixData.py_max dates
  = Ok (ProcessNetflixData.last_watch_date s) /\
  ProcessNetflixData.peak_month_count s
  = dict_get (ProcessNetflixData.monthly_breakdown s)
             (ProcessNetflixData.peak_month s) 0 /\
  ProcessNetflixData.favorite_day_count s
  = dict_get (ProcessNetflixData.day_of_week s)
             (ProcessNetflixData.favorite_day s) 0 /\
  exists p,
    ProcessNetflixData.determine_personality s = Ok p /\
    ProcessNetflixData.personality s = Some p.
Proof.
  unfold ProcessNetflixData.compute_stats. intros H.
  destruct (ProcessNetflixData.daily_show_counts df) as [counts|] eqn:Ec;
    [|discriminate].
  apply daily_show_counts_rows in Ec. destruct Ec as [Hne ->].
  cbn [Cal.month_order Cal.dow_order ProcessNetflixData.time_category_names
       map bind max_by_value] in H.
  cbv zeta.
  destruct (Pd.sorted_unique (map ProcessNetflixData.Date df))
    as [|d0 ds] eqn:E; [discriminate|].
  cbn [ProcessNetflixData.py_min ProcessNetflixData.py_max bind] in H.
  rewrite process_netflix_data_first_match in H. cbn [bind] in H.
  apply Ok_inj in H. rewrite <- H. clear H.
  cbn [ProcessNetflixData.set_personality
    ProcessNetflixData.year ProcessNetflixData.total_titles_watched
    ProcessNetflixData.unique_shows ProcessNetflixData.movies_watched
    ProcessNetflixData.episodes_watched ProcessNetflixData.first_watch_date
    ProcessNetflixData.last_watch_date ProcessNetflixData.peak_month_count
    ProcessNetflixData.favorite_day_count ProcessNetflixData.peak_month
    ProcessNetflixData.favorite_day
    ProcessNetflixData.monthly_breakdown ProcessNetflixData.day_of_week
    ProcessNetflixData.personality
    ProcessNetflixData.py_min ProcessNetflixData.py_max].
  split; [reflexivity|]. split; [reflexivity|]. split; [reflexivity|].
  split; [reflexivity|]. split; [reflexivity|]. split; [reflexivity|].
  split; [reflexivity|]. split; [reflexivity|]. split; [reflexivity|].
  eexists. split; [|reflexivity].
  rewrite process_netflix_data_first_match. reflexivity.
Qed.

Lemma calculate_stats_counts df y s :
  ProcessData.calculate_stats df y = Ok (ProcessData.Stats s) ->
  let sel := ProcessData.select_year df y in
  ProcessData.total_titles_watched s = Z.of_nat (List.length sel) /\
  ProcessData.unique_shows s = Pd.nunique (map ProcessData.ShowName sel) /\
  ProcessData.estimated_hours s
  = ProcessData.estimate_hours (Z.of_nat (List.length sel)) /\
  ProcessData.time_categories s
  = [(s2l "Morning (6am-12pm)",
      Pd.count (fun r => (ProcessData.Hour r >=? 6)
                         && (ProcessData.Hour r <? 12)) sel);
     (s2l "Afternoon (12pm-6pm)",
      Pd.count (fun r => (ProcessData.Hour r >=? 12)
                         && (ProcessData.Hour r <? 18)) sel);
     (s2l "Evening (6pm-10pm)",
      Pd.count (fun r => (ProcessData.Hour r >=? 18)
                         && (ProcessData.Hour r <? 22)) sel);
     (s2l "Night Owl (10pm-6am)",
      Pd.count (fun r => (ProcessData.Hour r >=? 22)
                         || (ProcessData.Hour r <? 6)) sel)] /\
  ProcessData.peak_month_count s
  = option_map (fun k => dict_get (ProcessData.monthly_breakdown s) k 0)
               (ProcessData.peak_month s) /\
  ProcessData.favorite_day_count s
  = match ProcessData.day_of_week s with
    | [] => None
    | kv :: l => Some (Pd.max_of (snd kv) (map snd l))
    end /\
  (exists r0 df',
     sel = r0 :: df' /\
     ProcessData.year s
     = let year_max :=
         Pd.max_of (ProcessData.Year r0) (map ProcessData.Year df') in
       match y with
       | Some y' => if y' =? 0 then year_max else y'
       | None => year_max
       end) /\
  ProcessData.personality s = Some (ProcessData.determine_personality s).
Proof.
  unfold ProcessData.calculate_stats. intros H. cbv zeta.
  destruct (ProcessData.select_year df y) as [|r0 df'] eqn:E;
    [discriminate|].
  cbn [Cal.month_order Cal.dow_order map bind max_by_value] in H.
  apply Ok_inj, Stats_inj in H. rewrite <- H. clear H.
  cbn [ProcessData.set_personality ProcessData.total_titles_watched
    ProcessData.unique_shows ProcessData.estimated_hours
    ProcessData.time_categories ProcessData.peak_month_count
    ProcessData.peak_month ProcessData.monthly_breakdown
    ProcessData.favorite_day_count ProcessData.day_of_week
    ProcessData.year ProcessData.personality].
  split; [reflexivity|]. split; [reflexivity|]. split; [reflexivity|].
  split; [reflexivity|]. split; [reflexivity|]. split; [reflexivity|].
  split; [exists r0, df'; split; reflexivity|].
  reflexivity.
Qed.

Lemma df_main_In csv df m :
  ProcessNetflixData.df_main csv = Ok df -> In m df ->
  exists r, In r (ProcessNetflixData.df_main_rows csv) /\
            ProcessNetflixData.derive r = Ok m.
Proof. apply mapM_In. Qed.

(** What [load_viewing_data] returns, when it returns. *)
Lemma load_viewing_data_inv csv df :
  ProcessData.load_viewing_data csv = Ok df ->
  mapM ProcessData.derive (ProcessData.dropna_date csv) = Ok df /\
  ProcessData.title_is_text csv = true.
Proof.
  unfold ProcessData.load_viewing_data. intros H.
  destruct (mapM ProcessData.derive (ProcessData.dropna_date csv))
    as [df'|]; [|discriminate].
  cbn [bind] in H.
  destruct (ProcessData.title_is_text csv); [|discriminate].
  split; [exact H|reflexivity].
Qed.

Lemma load_viewing_data_In csv df m :
  ProcessData.load_viewing_data csv = Ok df -> In m df ->
  exists r, In r (ProcessData.dropna_date csv) /\
            ProcessData.derive r = Ok m.
Proof.
  intros H. apply load_viewing_data_inv in H. destruct H as [H _].
  revert H. apply mapM_In.
Qed.

Lemma select_year_In df y r :
  In r (ProcessData.select_year df y) -> In r df.
Proof.
  unfold ProcessData.select_year. destruct y as [y'|]; [|easy].
  destruct (y' =? 0); [easy|]. intros H. now apply filter_In in H.
Qed.

(** The four hour tests of process_data.py are the four outcomes of
    [get_time_category]. *)
Lemma time_bucket_tests h :
  (h >=? 6) && (h <? 12)
  = str_eqb (ProcessNetflixData.get_time_category h)
            (s2l "Morning (6am-12pm)") /\
  (h >=? 12) && (h <? 18)
  = str_eqb (ProcessNetflixData.get_time_category h)
            (s2l "Afternoon (12pm-6pm)") /\
  (h >=? 18) && (h <? 22)
  = str_eqb (ProcessNetflixData.get_time_category h)
            (s2l "Evening (6pm-10pm)") /\
  (h >=? 22) || (h <? 6)
  = str_eqb (ProcessNetflixData.get_time_category h)
            (s2l "Night Owl (10pm-6am)").
Proof.
  unfold ProcessNetflixData.get_time_category. rewrite !Z.geb_leb.
  destruct (6 <=? h) eqn:E1, (h <? 12) eqn:E2, (12 <=? h) eqn:E3,
    (h <? 18) eqn:E4, (18 <=? h) eqn:E5, (h <? 22) eqn:E6,
    (22 <=? h) eqn:E7, (h <? 6) eqn:E8; try lia;
    (split; [reflexivity|split; [reflexivity|split; reflexivity]]).
Qed.

Lemma count_ext {A} (f g : A -> bool) df :
  (forall r, f r = g r) -> Pd.count f df = Pd.count g df.
Proof. intros H. unfold Pd.count. now rewrite (filter_ext f g H). Qed.

Lemma time_buckets_agree {A} (hour : A -> Z) df :
  [(s2l "Morning (6am-12pm)",
    Pd.count (fun r => (hour r >=? 6) && (hour r <? 12)) df);
   (s2l "Afternoon (12pm-6pm)",
    Pd.count (fun r => (hour r >=? 12) && (hour r <? 18)) df);
   (s2l "Evening (6pm-10pm)",
    Pd.count (fun r => (hour r >=? 18) && (hour r <? 22)) df);
   (s2l "Night Owl (10pm-6am)",
    Pd.count (fun r => (hour r >=? 22) || (hour r <? 6)) df)]
  = map (fun c => (c, Pd.count
           (fun r => str_eqb (ProcessNetflixData.get_time_category (hour r)) c)
           df))
        ProcessNetflixData.time_category_names.
Proof.
  cbn [map ProcessNetflixData.time_category_names].
  rewrite (count_ext (fun r => (hour r >=? 6) && (hour r <? 12))
             (fun r => str_eqb (ProcessNetflixData.get_time_category (hour r))
                               (s2l "Morning (6am-12pm)")))
    by (intros r; apply (time_bucket_tests (hour r))).
  rewrite (count_ext (fun r => (hour r >=? 12) && (hour r <? 18))
             (fun r => str_eqb (ProcessNetflixData.get_time_category (hour r))
                               (s2l "Afternoon (12pm-6pm)")))
    by (intros r; apply (time_bucket_tests (hour r))).
  rewrite (count_ext (fun r => (hour r >=? 18) && (hour r <? 22))
             (fun r => str_eqb (ProcessNetflixData.get_time_category (hour r))
                               (s2l "Evening (6pm-10pm)")))
    by (intros r; apply (time_bucket_tests (hour r))).
  rewrite (count_ext (fun r => (hour r >=? 22) || (hour r <? 6))
             (fun r => str_eqb (ProcessNetflixData.get_time_category (hour r))
                               (s2l "Night Owl (10pm-6am)")))
    by (intros r; apply (time_bucket_tests (hour r))).
  reflexivity.
Qed.

Lemma main_rows_canonical csv df m :
  ProcessNetflixData.df_main csv = Ok df -> In m df ->
  In (ProcessNetflixData.Month m) Cal.month_order /\
  In (ProcessNetflixData.DayOfWeek m) Cal.dow_order /\
  In (ProcessNetflixData.TimeCategory m)
     ProcessNetflixData.time_category_names.
Proof.
  intros Hdf Hin. destruct (df_main_In csv df m Hdf Hin) as (r & _ & Hr).
  apply main_row_fields in Hr.
  destruct Hr as (_ & -> & -> & _ & _ & -> & _).
  split; [apply month_name_canonical|].
  split; [apply day_name_canonical|apply time_category_canonical].
Qed.

Lemma loaded_rows_canonical csv df m :
  ProcessData.load_viewing_data csv = Ok df -> In m df ->
  In (ProcessData.MonthName m) Cal.month_order /\
  In (ProcessData.DayOfWeek m) Cal.dow_order.
Proof.
  intros Hdf Hin.
  destruct (load_viewing_data_In csv df m Hdf Hin) as (r & _ & Hr).
  apply row_fields in Hr. destruct Hr as (_ & _ & _ & _ & -> & -> & _).
  split; [apply month_name_canonical|apply day_name_canonical].
Qed.

(** The three breakdowns of process_netflix_data.py add up to the
    number of rows. *)
Lemma main_breakdowns_sum csv df :
  ProcessNetflixData.df_main csv = Ok df ->
  ProcessNetflixData.sum_values
    (map (fun m => (m, Pd.count
            (fun r => str_eqb (ProcessNetflixData.Month r) m) df))
         Cal.month_order)
  = Z.of_nat (List.length df) /\
  ProcessNetflixData.sum_values
    (map (fun d => (d, Pd.count
            (fun r => str_eqb (ProcessNetflixData.DayOfWeek r) d) df))
         Cal.dow_order)
  = Z.of_nat (List.length df) /\
  ProcessNetflixData.sum_values
    (map (fun c => (c, Pd.count
            (fun r => str_eqb (ProcessNetflixData.TimeCategory r) c) df))
         ProcessNetflixData.time_category_names)
  = Z.of_nat (List.length df).
Proof.
  intros Hdf. split; [|split].
  - apply keyed_counts_sum; [exact NoDup_month_order|].
    intros m Hin. apply (main_rows_canonical csv df m Hdf Hin).
  - apply keyed_counts_sum; [exact NoDup_dow_order|].
    intros m Hin. apply (main_rows_canonical csv df m Hdf Hin).
  - apply keyed_counts_sum; [exact NoDup_time_category_names|].
    intros m Hin. apply (main_rows_canonical csv df m Hdf Hin).
Qed.

(** The month and weekday breakdowns of process_data.py add up to the
    number of selected rows. *)
Lemma loaded_breakdowns_sum csv df y :
  ProcessData.load_viewing_data csv = Ok df ->
  let sel := ProcessData.select_year df y in
  ProcessNetflixData.sum_values
    (map (fun m => (m, Pd.count
            (fun r => str_eqb (ProcessData.MonthName r) m) sel))
         Cal.month_order)
  = Z.of_nat (List.length sel) /\
  ProcessNetflixData.sum_values
    (map (fun d => (d, Pd.count
            (fun r => str_eqb (ProcessData.DayOfWeek r) d) sel))
         Cal.dow_order)
  = Z.of_nat (List.length sel).
Proof.
  intros Hdf. cbv zeta. split.
  - apply keyed_counts_sum; [exact NoDup_month_order|].
    intros m Hin. apply select_year_In in Hin.
    apply (loaded_rows_canonical csv df m Hdf Hin).
  - apply keyed_counts_sum; [exact NoDup_dow_order|].
    intros m Hin. apply select_year_In in Hin.
    apply (loaded_rows_canonical csv df m Hdf Hin).
Qed.

(** X1: whenever process_netflix_data.py produces statistics, the
    values of [monthly_breakdown], of [day_of_week] and of
    [time_categories] each add up to [total_titles_watched], which is
    at least 1: every counted record falls in exactly one month, one
    weekday and one time bucket. *)
Theorem process_netflix_data_breakdowns_add_up csv s :
  ProcessNetflixData.process_netflix_data csv = Ok s ->
  ProcessNetflixData.sum_values (ProcessNetflixData.monthly_breakdown s)
  = ProcessNetflixData.total_titles_watched s /\
  ProcessNetflixData.sum_values (ProcessNetflixData.day_of_week s)
  = ProcessNetflixData.total_titles_watched s /\
  ProcessNetflixData.sum_values (ProcessNetflixData.time_categories s)
  = ProcessNetflixData.total_titles_watched s /\
  1 <= ProcessNetflixData.total_titles_watched s.
Proof.
  intros H. apply process_netflix_data_inv in H.
  destruct H as (df & Hdf & H).
  pose proof (compute_stats_counts df s H) as Hc. cbv zeta in Hc.
  destruct Hc as (_ & Ht & _).
  apply compute_stats_fields in H. cbv zeta in H.
  destruct H as (Hne & Hm & Hd & Htc & _).
  rewrite Hm, Hd, Htc, Ht.
  destruct (main_breakdowns_sum csv df Hdf) as (H1 & H2 & H3).
  split; [exact H1|]. split; [exact H2|]. split; [exact H3|].
  destruct df; [congruence|]. cbn [List.length]. lia.
Qed.

(** X2: for a frame [load_viewing_data] returned, whenever
    [calculate_stats] produces statistics the values of
    [monthly_breakdown], of [day_of_week] and of [time_categories]
    each add up to [total_titles_watched], which is at least 1. *)
Theorem calculate_stats_breakdowns_add_up csv df y s :
  ProcessData.load_viewing_data csv = Ok df ->
  ProcessData.calculate_stats df y = Ok (ProcessData.Stats s) ->
  ProcessNetflixData.sum_values (ProcessData.monthly_breakdown s)
  = ProcessData.total_titles_watched s /\
  ProcessNetflixData.sum_values (ProcessData.day_of_week s)
  = ProcessData.total_titles_watched s /\
  ProcessNetflixData.sum_values (ProcessData.time_categories s)
  = ProcessData.total_titles_watched s /\
  1 <= ProcessData.total_titles_watched s.
Proof.
  intros Hdf H.
  pose proof (calculate_stats_counts df y s H) as Hc. cbv zeta in Hc.
  destruct Hc as (Ht & _ & _ & Htc & _).
  apply calculate_stats_fields in H. cbv zeta in H.
  destruct H as (Hne & Hm & Hd & _).
  rewrite Hm, Hd, Htc, Ht.
  destruct (loaded_breakdowns_sum csv df y Hdf) as (H1 & H2).
  split; [exact H1|]. split; [exact H2|]. split.
  - rewrite (time_buckets_agree ProcessData.Hour).
    apply keyed_counts_sum; [exact NoDup_time_category_names|].
    intros m _. apply time_category_canonical.
  - destruct (ProcessData.select_year df y); [congruence|].
    cbn [List.length]. lia.
Qed.

(** X22: the four hour masks of process_data.py select the rows that
    [get_time_category] of process_netflix_data.py puts in the bucket
    of the same name: [time_categories] of process_data.py is the
    count, bucket by bucket, of the selected rows by
    [get_time_category] of their hour. *)
Theorem time_categories_agree df y s :
  ProcessData.calculate_stats df y = Ok (ProcessData.Stats s) ->
  ProcessData.time_categories s
  = map (fun c =>
           (c, Pd.count
                 (fun r => str_eqb (ProcessNetflixData.get_time_category
                                      (ProcessData.Hour r)) c)
                 (ProcessData.select_year df y)))
        ProcessNetflixData.time_category_names.
Proof.
  intros H.
  pose proof (calculate_stats_counts df y s H) as Hc. cbv zeta in Hc.
  destruct Hc as (_ & _ & _ & -> & _).
  apply (time_buckets_agree ProcessData.Hour).
Qed.

Lemma sum_nonneg l : Forall (fun v => 0 <= v) l -> 0 <= fold_left Z.add l 0.
Proof.
  induction 1 as [|x l Hx Hl IH]; [cbn; lia|]. rewrite sum_cons. lia.
Qed.

Lemma sum_In_le l v :
  Forall (fun v => 0 <= v) l -> In v l -> v <= fold_left Z.add l 0.
Proof.
  induction 1 as [|x l Hx Hl IH]; intros Hin; [destruct Hin|].
  rewrite sum_cons. pose proof (sum_nonneg l Hl).
  destruct Hin as [->|Hin]; [lia|]. specialize (IH Hin). lia.
Qed.

(** Each value that reaches the threshold takes at least the
    threshold out of the total. *)
Lemma threshold_count thr l :
  0 <= thr -> Forall (fun v => 0 <= v) l ->
  thr * Z.of_nat (List.length (filter (fun v => v >=? thr) l))
  <= fold_left Z.add l 0.
Proof.
  intros Hthr. induction 1 as [|x l Hx Hl IH]; [cbn; lia|].
  rewrite sum_cons. cbn [filter].
  destruct (x >=? thr) eqn:E; cbn [List.length]; lia.
Qed.

(** The largest value times the number of values bounds the total. *)
Lemma sum_le_max l mx :
  (forall v, In v l -> v <= mx) ->
  fold_left Z.add l 0 <= Z.of_nat (List.length l) * mx.
Proof.
  induction l as [|x l IH]; intros H; [cbn; lia|].
  rewrite sum_cons. cbn [List.length].
  specialize (H x (or_introl eq_refl)) as Hx.
  assert (IH' : fold_left Z.add l 0 <= Z.of_nat (List.length l) * mx).
  { apply IH. intros v Hv. apply H. now right. }
  lia.
Qed.

Lemma count_occ_sum keys l :
  NoDup l -> (forall k, In k keys -> In k l) ->
  fold_left Z.add
    (map (fun k => Z.of_nat (count_occ Pd.key_eq_dec keys k)) l) 0
  = Z.of_nat (List.length keys).
Proof.
  intros Hnd. induction keys as [|a keys IH]; intros Hin.
  - apply sum_map_zero. reflexivity.
  - rewrite (map_ext _ (fun k => Cal.b2z (if Pd.key_eq_dec a k
                                          then true else false)
                                 + Z.of_nat (count_occ Pd.key_eq_dec keys k))).
    2:{ intros k. cbn [count_occ].
        destruct (Pd.key_eq_dec a k); cbn [Cal.b2z]; lia. }
    rewrite sum_map_add, IH by (intros k Hk; apply Hin; now right).
    assert (Ha : In a l) by (apply Hin; now left).
    clear - Hnd Ha.
    enough (E : fold_left Z.add
                  (map (fun k => Cal.b2z (if Pd.key_eq_dec a k
                                          then true else false)) l) 0 = 1)
      by (rewrite E; cbn [List.length]; lia).
    induction Hnd as [|m l Hm Hnd IH]; [destruct Ha|].
    cbn [map]. rewrite sum_cons. destruct Ha as [->|Ha].
    + rewrite sum_map_zero.
      * destruct (Pd.key_eq_dec a a); [reflexivity|congruence].
      * intros k Hk. destruct (Pd.key_eq_dec a k); [|reflexivity].
        subst. contradiction.
    + rewrite (IH Ha). destruct (Pd.key_eq_dec a m); [|reflexivity].
      subst. contradiction.
Qed.

(** The sizes of the groups are positive and add up to the number of
    rows grouped. *)
Lemma group_sizes_total keys :
  fold_left Z.add (map snd (Pd.group_sizes keys)) 0
  = Z.of_nat (List.length keys) /\
  Forall (fun v => 1 <= v) (map snd (Pd.group_sizes keys)).
Proof.
  unfold Pd.group_sizes. rewrite map_map. cbn [snd]. split.
  - apply count_occ_sum; [apply NoDup_nodup|].
    intros k Hk. now apply nodup_In.
  - apply Forall_forall. intros v Hv. apply in_map_iff in Hv.
    destruct Hv as (k & <- & Hk). apply nodup_In in Hk.
    apply (count_occ_In Pd.key_eq_dec) in Hk. lia.
Qed.

Lemma group_sizes_nil keys : Pd.group_sizes keys = [] -> keys = [].
Proof.
  unfold Pd.group_sizes. intros H. apply map_eq_nil in H.
  destruct keys as [|k keys]; [reflexivity|].
  assert (Hin : In k (nodup Pd.key_eq_dec (k :: keys)))
    by (apply nodup_In; now left).
  rewrite H in Hin. destruct Hin.
Qed.

Lemma nodup_length_le {A} (dec : forall a b : A, {a = b} + {a <> b}) l :
  (List.length (nodup dec l) <= List.length l)%nat.
Proof.
  induction l as [|a l IH]; [reflexivity|]. cbn [nodup].
  destruct (in_dec dec a l); cbn [List.length]; lia.
Qed.

Lemma nunique_range col :
  col <> [] -> 1 <= Pd.nunique col <= Z.of_nat (List.length col).
Proof.
  intros Hne. unfold Pd.nunique.
  split; [|apply Nat2Z.inj_le, nodup_length_le].
  destruct col as [|c col]; [congruence|].
  assert (Hin : In c (nodup (list_eq_dec ascii_dec) (c :: col)))
    by (apply nodup_In; now left).
  destruct (nodup (list_eq_dec ascii_dec) (c :: col)); [destruct Hin|].
  cbn [List.length]. lia.
Qed.

Lemma insert_length x l :
  List.length (Pd.insert x l) = S (List.length l).
Proof.
  induction l as [|a l IH]; [reflexivity|]. cbn [Pd.insert].
  destruct (x <=? a); cbn [List.length]; [reflexivity|now rewrite IH].
Qed.

Lemma sorted_unique_length col :
  (List.length (Pd.sorted_unique col) <= List.length col)%nat.
Proof.
  unfold Pd.sorted_unique.
  pose proof (nodup_length_le Z.eq_dec col) as H.
  enough (E : forall l, List.length (fold_right Pd.insert [] l)
                        = List.length l) by now rewrite E.
  induction l as [|a l IH]; [reflexivity|].
  cbn [fold_right]. rewrite insert_length. cbn [List.length]. now rewrite IH.
Qed.

Lemma sorted_unique_nil col : Pd.sorted_unique col = [] -> col = [].
Proof.
  intros E. destruct col as [|c col]; [reflexivity|].
  assert (H : In c (Pd.sorted_unique (c :: col)))
    by (apply sorted_unique_In; now left).
  rewrite E in H. destruct H.
Qed.

(** The streak loop keeps the current streak between 1 and the
    maximum, and the maximum grows by at most one a date. *)
Lemma walk_bounds rest :
  forall prev mx cur k,
  1 <= cur <= mx -> mx <= k ->
  1 <= fst (Streak.walk prev (mx, cur) rest)
  <= k + Z.of_nat (List.length rest).
Proof.
  induction rest as [|d rest IH]; intros prev mx cur k Hc Hk.
  - cbn [Streak.walk fst List.length]. lia.
  - cbn [Streak.walk fst snd]. destruct (d - prev =? 1).
    + specialize (IH d (Z.max mx (cur + 1)) (cur + 1) (k + 1)).
      cbn [List.length]. lia.
    + specialize (IH d mx 1 k). cbn [List.length]. lia.
Qed.

Lemma longest_streak_bounds dates :
  dates <> [] ->
  1 <= Streak.longest_streak dates <= Z.of_nat (List.length dates).
Proof.
  destruct dates as [|d ds]; [congruence|]. intros _.
  rewrite longest_streak_walk.
  pose proof (walk_bounds ds d 1 1 1). cbn [List.length]. lia.
Qed.

Lemma streak_active_total col :
  col <> [] ->
  1 <= Streak.longest_streak (Pd.sorted_unique col)
  <= Z.of_nat (List.length (Pd.sorted_unique col)) /\
  Z.of_nat (List.length (Pd.sorted_unique col))
  <= Z.of_nat (List.length col).
Proof.
  intros Hne. split.
  - apply longest_streak_bounds. intros E. now apply sorted_unique_nil in E.
  - pose proof (sorted_unique_length col). lia.
Qed.

Lemma count_partition {A} (f : A -> bool) df :
  Pd.count (fun r => negb (f r)) df + Pd.count f df
  = Z.of_nat (List.length df).
Proof.
  induction df as [|r df IH]; [reflexivity|].
  rewrite !count_cons. cbn [List.length].
  destruct (f r); cbn [negb Cal.b2z]; lia.
Qed.

(** X3: in the statistics of process_netflix_data.py,
    [movies_watched] and [episodes_watched] add up to
    [total_titles_watched]; [unique_shows] lies between 1 and
    [total_titles_watched]; [longest_streak] lies between 1 and
    [active_days], and [active_days] is at most
    [total_titles_watched]. *)
Theorem process_netflix_data_counts_consistent csv s :
  ProcessNetflixData.process_netflix_data csv = Ok s ->
  ProcessNetflixData.movies_watched s + ProcessNetflixData.episodes_watched s
  = ProcessNetflixData.total_titles_watched s /\
  0 <= ProcessNetflixData.movies_watched s /\
  0 <= ProcessNetflixData.episodes_watched s /\
  1 <= ProcessNetflixData.unique_shows s
  <= ProcessNetflixData.total_titles_watched s /\
  1 <= ProcessNetflixData.longest_streak s
  <= ProcessNetflixData.active_days s /\
  ProcessNetflixData.active_days s
  <= ProcessNetflixData.total_titles_watched s.
Proof.
  intros H. apply process_netflix_data_inv in H.
  destruct H as (df & _ & H).
  pose proof (compute_stats_counts df s H) as Hc. cbv zeta in Hc.
  destruct Hc as (_ & -> & -> & -> & -> & _).
  apply compute_stats_fields in H. cbv zeta in H.
  destruct H as (Hne & _ & _ & _ & _ & _ & _ & _ & _ & -> & ->).
  split; [apply count_partition|].
  split; [apply count_range|]. split; [apply count_range|].
  split.
  - rewrite <- (length_map ProcessNetflixData.Show df).
    apply nunique_range. intros E. apply map_eq_nil in E. contradiction.
  - rewrite <- (length_map ProcessNetflixData.Date df).
    apply streak_active_total. intros E. apply map_eq_nil in E.
    contradiction.
Qed.

(** X4: in the statistics of process_data.py, [unique_shows] lies
    between 1 and [total_titles_watched]; [longest_streak] lies
    between 1 and [active_days]; [active_days] is at most
    [total_titles_watched], which is at most the number of rows of
    the frame. *)
Theorem calculate_stats_counts_consistent df y s :
  ProcessData.calculate_stats df y = Ok (ProcessData.Stats s) ->
  1 <= ProcessData.unique_shows s <= ProcessData.total_titles_watched s /\
  1 <= ProcessData.longest_streak s <= ProcessData.active_days s /\
  ProcessData.active_days s <= ProcessData.total_titles_watched s /\
  ProcessData.total_titles_watched s <= Z.of_nat (List.length df).
Proof.
  intros H.
  pose proof (calculate_stats_counts df y s H) as Hc. cbv zeta in Hc.
  destruct Hc as (-> & -> & _).
  apply calculate_stats_fields in H. cbv zeta in H.
  destruct H as (Hne & _ & _ & _ & _ & _ & _ & _ & _ & -> & ->).
  split.
  { rewrite <- (length_map ProcessData.ShowName).
    apply nunique_range. intros E. apply map_eq_nil in E. contradiction. }
  rewrite <- (length_map (fun r => Cal.date (ProcessData.Date r))
                (ProcessData.select_year df y)) at 1.
  destruct (streak_active_total
              (map (fun r => Cal.date (ProcessData.Date r))
                   (ProcessData.select_year df y))) as [H1 H2].
  { intros E. apply map_eq_nil in E. contradiction. }
  split; [exact H1|]. split; [exact H2|].
  unfold ProcessData.select_year. destruct y as [y'|]; [|lia].
  destruct (y' =? 0); [lia|].
  pose proof (filter_length_le (fun r => ProcessData.Year r =? y') df).
  lia.
Qed.

Lemma min_of_spec l :
  forall x, In (fold_left Z.min l x) (x :: l) /\
            forall y, In y (x :: l) -> fold_left Z.min l x <= y.
Proof.
  induction l as [|a l IH]; intros x; cbn [fold_left].
  - split; [now left|]. intros y [->|[]]. lia.
  - destruct (IH (Z.min x a)) as [Hin Hmin]. split.
    + destruct Hin as [Hin|Hin]; [|now right; right].
      rewrite <- Hin. destruct (Z.min_spec x a) as [[_ ->]|[_ ->]];
        [now left|now right; left].
    + intros y [->|[->|Hy]].
      * specialize (Hmin (Z.min y a) (or_introl eq_refl)). lia.
      * specialize (Hmin (Z.min x y) (or_introl eq_refl)). lia.
      * apply Hmin. now right.
Qed.

(** Distinct days between two days: no more than the days of the
    interval. *)
Lemma sorted_span l :
  forall x hi,
  StronglySorted Z.lt (x :: l) -> Forall (fun d => d <= hi) (x :: l) ->
  Z.of_nat (List.length (x :: l)) <= hi - x + 1.
Proof.
  induction l as [|y l IH]; intros x hi Hs Hhi.
  - inversion Hhi; subst. cbn [List.length]. lia.
  - inversion Hs as [|? ? Hs' Hx]; subst.
    inversion Hhi as [|? ? _ Hhi']; subst.
    inversion Hx as [|? ? Hxy _]; subst.
    specialize (IH y hi Hs' Hhi').
    cbn [List.length] in IH |- *. lia.
Qed.

Lemma biggest_spec sizes :
  let big := match sizes with [] => 0 | x :: l => Pd.max_of x l end in
  (sizes = [] -> big = 0) /\
  (sizes <> [] -> In big sizes /\ forall v, In v sizes -> v <= big).
Proof.
  cbv zeta. destruct sizes as [|x l].
  - split; [reflexivity|congruence].
  - split; [discriminate|]. intros _. apply max_of_spec.
Qed.

Lemma dict_get_NoDup {V} (d : list (str * V)) k v x :
  NoDup (map fst d) -> In (k, v) d -> dict_get d k x = v.
Proof.
  induction d as [|[k' v'] d IH]; intros Hnd Hin; [destruct Hin|].
  cbn [dict_get]. cbn [map fst] in Hnd. inversion Hnd as [|? ? Hk' Hnd']; subst.
  destruct Hin as [E|Hin].
  - inversion E; subst.
    replace (str_eqb k k) with true; [reflexivity|].
    symmetry. now apply str_eqb_eq.
  - destruct (str_eqb k' k) eqn:E; [|now apply IH].
    apply str_eqb_eq in E. subst k'. exfalso. apply Hk'.
    apply in_map_iff. exists (k, v). split; [reflexivity|exact Hin].
Qed.

(** With distinct keys, the value at the key [max(d, key=d.get)]
    returns is the largest value, and the values do not add up to more
    than that value times their number. *)
Lemma max_by_value_count (d : list (str * Z)) k :
  NoDup (map fst d) -> max_by_value d = Ok k ->
  In (k, dict_get d k 0) d /\
  (forall k' v', In (k', v') d -> v' <= dict_get d k 0) /\
  ProcessNetflixData.sum_values d
  <= Z.of_nat (List.length d) * dict_get d k 0.
Proof.
  intros Hnd H. apply max_by_value_first_argmax in H.
  destruct H as (i & v & Hi & Hmax).
  assert (Hin : In (k, v) d) by (eapply nth_error_In; exact Hi).
  rewrite (dict_get_NoDup d k v 0 Hnd Hin).
  assert (Hall : forall k' v', In (k', v') d -> v' <= v).
  { intros k' v' Hin'. apply In_nth_error in Hin'. destruct Hin' as [j Hj].
    now apply (Hmax j k' v'). }
  split; [exact Hin|]. split; [exact Hall|].
  unfold ProcessNetflixData.sum_values.
  rewrite <- (length_map snd d). apply sum_le_max.
  intros v' Hv'. apply in_map_iff in Hv'.
  destruct Hv' as ([k' v''] & E & Hin'). cbn [snd] in E. subst v''.
  now apply (Hall k').
Qed.

Lemma main_dates_2025 csv df d :
  ProcessNetflixData.df_main csv = Ok df ->
  In d (map ProcessNetflixData.Date df) ->
  (exists r, In r (ProcessNetflixData.df_main_rows csv) /\
             Cal.date (fst r) = d) /\
  Cal.ymd2ord 2025 1 1 <= d <= Cal.ymd2ord 2025 12 31.
Proof.
  intros Hdf Hd. rewrite (dates_of_main csv df Hdf) in Hd.
  apply in_map_iff in Hd. destruct Hd as ([t r] & E & Hin).
  split; [exists (t, r); split; [exact Hin|exact E]|].
  apply df_main_rows_kept in Hin. destruct Hin as (_ & _ & _ & Hy).
  apply year_2025_ordinals in Hy. cbn [fst] in E. unfold Cal.date in E.
  rewrite <- E. exact Hy.
Qed.

(** X5: in process_netflix_data.py, [first_watch_date] and
    [last_watch_date] are dates of counted records, every counted
    record lies between them, both are days of 2025, and
    [active_days] is at most the number of days from the first to the
    last, which is at most 365. *)
Theorem watch_dates_span csv s :
  ProcessNetflixData.process_netflix_data csv = Ok s ->
  let rows := ProcessNetflixData.df_main_rows csv in
  let first := ProcessNetflixData.first_watch_date s in
  let last := ProcessNetflixData.last_watch_date s in
  (exists r, In r rows /\ Cal.date (fst r) = first) /\
  (exists r, In r rows /\ Cal.date (fst r) = last) /\
  (forall r, In r rows -> first <= Cal.date (fst r) <= last) /\
  Cal.ymd2ord 2025 1 1 <= first /\ last <= Cal.ymd2ord 2025 12 31 /\
  ProcessNetflixData.active_days s <= last - first + 1 /\
  last - first + 1 <= 365.
Proof.
  intros H. cbv zeta. apply process_netflix_data_inv in H.
  destruct H as (df & Hdf & H).
  pose proof (compute_stats_counts df s H) as Hc. cbv zeta in Hc.
  destruct Hc as (_ & _ & _ & _ & _ & Hmin & Hmax & _).
  apply compute_stats_fields in H. cbv zeta in H.
  destruct H as (_ & _ & _ & _ & _ & _ & _ & _ & _ & _ & Hact).
  pose proof (sorted_unique_sorted (map ProcessNetflixData.Date df)) as Hs.
  assert (Hin : forall d,
            In d (Pd.sorted_unique (map ProcessNetflixData.Date df)) ->
            (exists r, In r (ProcessNetflixData.df_main_rows csv) /\
                       Cal.date (fst r) = d) /\
            Cal.ymd2ord 2025 1 1 <= d <= Cal.ymd2ord 2025 12 31).
  { intros d Hd. apply (proj1 (sorted_unique_In _ _)) in Hd.
    exact (main_dates_2025 csv df d Hdf Hd). }
  assert (Hall : forall r, In r (ProcessNetflixData.df_main_rows csv) ->
            In (Cal.date (fst r))
               (Pd.sorted_unique (map ProcessNetflixData.Date df))).
  { intros r Hr. apply sorted_unique_In.
    rewrite (dates_of_main csv df Hdf).
    apply in_map_iff. exists r. split; [reflexivity|exact Hr]. }
  destruct (Pd.sorted_unique (map ProcessNetflixData.Date df))
    as [|d0 ds]; [discriminate|].
  cbn [ProcessNetflixData.py_min ProcessNetflixData.py_max] in Hmin, Hmax.
  apply Ok_inj in Hmin, Hmax.
  destruct (min_of_spec ds d0) as [Hmin_in Hmin_le].
  destruct (max_of_spec ds d0) as [Hmax_in Hmax_le].
  unfold Pd.max_of in Hmax_in, Hmax_le.
  rewrite Hmin in Hmin_in, Hmin_le. rewrite Hmax in Hmax_in, Hmax_le.
  split; [apply (Hin _ Hmin_in)|]. split; [apply (Hin _ Hmax_in)|].
  split.
  { intros r Hr. split; [apply Hmin_le|apply Hmax_le]; now apply Hall. }
  destruct (Hin _ Hmin_in) as [_ [Hlo _]].
  destruct (Hin _ Hmax_in) as [_ [_ Hhi]].
  split; [exact Hlo|]. split; [exact Hhi|]. split.
  - rewrite Hact.
    assert (Hspan := sorted_span ds d0 (ProcessNetflixData.last_watch_date s)
                       Hs).
    assert (Hd0 := Hmin_le d0 (or_introl eq_refl)).
    enough (Z.of_nat (List.length (d0 :: ds))
            <= ProcessNetflixData.last_watch_date s - d0 + 1) by lia.
    apply Hspan. apply Forall_forall. exact Hmax_le.
  - change (Cal.ymd2ord 2025 1 1) with 739252 in Hlo.
    change (Cal.ymd2ord 2025 12 31) with 739616 in Hhi. lia.
Qed.

Lemma groups_over_threshold (groups : list (Pd.key * Z)) thr :
  Z.of_nat (List.length (filter (fun g => snd g >=? thr) groups))
  = Z.of_nat (List.length (filter (fun v => v >=? thr) (map snd groups))).
Proof. now rewrite filter_map_comm, length_map. Qed.

(** X6: in process_netflix_data.py every binge session takes four
    episode records of its own, so four times [binge_sessions] is at
    most [episodes_watched]; [biggest_binge] is at most
    [episodes_watched]; there is a binge session exactly when
    [biggest_binge] is at least 4, [biggest_binge] being the size of
    the largest group also when that is below the threshold; and
    [biggest_binge] is 0 exactly when no episode is counted. *)
Theorem process_netflix_data_binge_bounds csv s :
  ProcessNetflixData.process_netflix_data csv = Ok s ->
  0 <= ProcessNetflixData.binge_sessions s /\
  4 * ProcessNetflixData.binge_sessions s
  <= ProcessNetflixData.episodes_watched s /\
  ProcessNetflixData.biggest_binge s
  <= ProcessNetflixData.episodes_watched s /\
  (1 <= ProcessNetflixData.binge_sessions s
   <-> 4 <= ProcessNetflixData.biggest_binge s) /\
  (ProcessNetflixData.biggest_binge s = 0
   <-> ProcessNetflixData.episodes_watched s = 0).
Proof.
  intros H. apply process_netflix_data_inv in H.
  destruct H as (df & _ & H).
  pose proof (compute_stats_counts df s H) as Hc. cbv zeta in Hc.
  destruct Hc as (_ & _ & _ & _ & -> & _).
  apply compute_stats_fields in H. cbv zeta in H.
  destruct H as (_ & _ & _ & _ & _ & _ & _ & -> & -> & _).
  set (keys := map (fun r => (ProcessNetflixData.Date r,
                              ProcessNetflixData.Show r))
                   (filter ProcessNetflixData.Is_Episode df)).
  set (sizes := map snd (Pd.group_sizes keys)).
  destruct (group_sizes_total keys) as [Hsum Hpos]. fold sizes in Hsum, Hpos.
  assert (Heps : Pd.count ProcessNetflixData.Is_Episode df
                 = fold_left Z.add sizes 0).
  { rewrite Hsum. unfold Pd.count, keys. now rewrite length_map. }
  assert (Hbs : Pd.count
                  (fun g => snd g >=? ProcessNetflixData.binge_threshold)
                  (Pd.group_sizes keys)
                = Z.of_nat (List.length (filter (fun v => v >=? 4) sizes))).
  { unfold Pd.count. apply groups_over_threshold. }
  rewrite Heps, Hbs. clear Heps Hbs.
  assert (Hpos0 : Forall (fun v => 0 <= v) sizes).
  { eapply Forall_impl; [|exact Hpos]. cbv beta. intros; lia. }
  pose proof (threshold_count 4 _ ltac:(lia) Hpos0) as Hthr.
  destruct (biggest_spec sizes) as [Hnil Hbig]. cbv zeta in Hnil, Hbig.
  set (big := match sizes with [] => 0 | x :: l => Pd.max_of x l end) in *.
  split; [lia|]. split; [exact Hthr|].
  destruct sizes as [|x l] eqn:E.
  - rewrite (Hnil eq_refl). cbn [filter List.length fold_left].
    split; [lia|]. split; [lia|]. split; reflexivity.
  - destruct Hbig as [Hin Hmax]; [discriminate|].
    pose proof (sum_In_le _ _ Hpos0 Hin) as Hle.
    rewrite Forall_forall in Hpos. specialize (Hpos _ Hin) as Hb1.
    split; [exact Hle|]. split; [split|].
    + intros Hn.
      destruct (filter (fun v => v >=? 4) (x :: l)) as [|v l'] eqn:Ef;
        [cbn [List.length] in Hn; lia|].
      assert (Hv : In v (filter (fun v => v >=? 4) (x :: l)))
        by (rewrite Ef; now left).
      apply filter_In in Hv. destruct Hv as [Hv H4].
      specialize (Hmax v Hv). lia.
    + intros H4.
      assert (Hv : In big (filter (fun v => v >=? 4) (x :: l))).
      { apply filter_In. split; [exact Hin|lia]. }
      destruct (filter (fun v => v >=? 4) (x :: l)); [destruct Hv|].
      cbn [List.length]. lia.
    + split; lia.
Qed.

(** X7: in process_data.py three times [binge_sessions] is at most
    [total_titles_watched]; [biggest_binge] is 0 exactly when there
    is no binge session, and otherwise lies between 3 and
    [total_titles_watched]. *)
Theorem calculate_stats_binge_bounds df y s :
  ProcessData.calculate_stats df y = Ok (ProcessData.Stats s) ->
  0 <= ProcessData.binge_sessions s /\
  3 * ProcessData.binge_sessions s <= ProcessData.total_titles_watched s /\
  (ProcessData.binge_sessions s = 0 <-> ProcessData.biggest_binge s = 0) /\
  (ProcessData.biggest_binge s = 0
   \/ 3 <= ProcessData.biggest_binge s
      <= ProcessData.total_titles_watched s).
Proof.
  intros H.
  pose proof (calculate_stats_counts df y s H) as Hc. cbv zeta in Hc.
  destruct Hc as (-> & _).
  apply calculate_stats_fields in H. cbv zeta in H.
  destruct H as (_ & _ & _ & _ & _ & _ & _ & -> & -> & _).
  set (keys := map (fun r => (Cal.date (ProcessData.Date r),
                              ProcessData.ShowName r))
                   (ProcessData.select_year df y)).
  set (sizes := map snd (Pd.group_sizes keys)).
  destruct (group_sizes_total keys) as [Hsum Hpos]. fold sizes in Hsum, Hpos.
  assert (Htot : Z.of_nat (List.length (ProcessData.select_year df y))
                 = fold_left Z.add sizes 0).
  { rewrite Hsum. unfold keys. now rewrite length_map. }
  rewrite Htot. clear Htot Hsum.
  unfold ProcessData.binge_threshold.
  rewrite groups_over_threshold. fold sizes.
  assert (Hb : map snd (filter (fun g : Pd.key * Z => snd g >=? 3)
                               (Pd.group_sizes keys))
               = filter (fun v => v >=? 3) sizes).
  { unfold sizes. now rewrite filter_map_comm. }
  rewrite Hb. clear Hb.
  assert (Hpos0 : Forall (fun v => 0 <= v) sizes).
  { eapply Forall_impl; [|exact Hpos]. cbv beta. intros; lia. }
  pose proof (threshold_count 3 _ ltac:(lia) Hpos0) as Hthr.
  split; [lia|]. split; [exact Hthr|].
  destruct (biggest_spec (filter (fun v => v >=? 3) sizes)) as [Hnil Hbig].
  cbv zeta in Hnil, Hbig.
  destruct (filter (fun v => v >=? 3) sizes) as [|x l] eqn:E.
  - split; [split; reflexivity|]. now left.
  - destruct Hbig as [Hin _]; [discriminate|].
    rewrite <- E in Hin. apply filter_In in Hin. destruct Hin as [Hin H3].
    pose proof (sum_In_le _ _ Hpos0 Hin) as Hle.
    split; [|right; lia].
    cbn [List.length]. split; intros; lia.
Qed.

(** X8: in process_netflix_data.py [peak_month_count] is the value
    of [peak_month] in [monthly_breakdown], no month has a larger
    value, and it is at least a twelfth of [total_titles_watched];
    likewise [favorite_day_count] is the value of [favorite_day] in
    [day_of_week], the largest one, and at least a seventh of
    [total_titles_watched]. *)
Theorem process_netflix_data_peak_counts csv s :
  ProcessNetflixData.process_netflix_data csv = Ok s ->
  In (ProcessNetflixData.peak_month s, ProcessNetflixData.peak_month_count s)
     (ProcessNetflixData.monthly_breakdown s) /\
  (forall m v, In (m, v) (ProcessNetflixData.monthly_breakdown s) ->
               v <= ProcessNetflixData.peak_month_count s) /\
  ProcessNetflixData.total_titles_watched s
  <= 12 * ProcessNetflixData.peak_month_count s /\
  In (ProcessNetflixData.favorite_day s,
      ProcessNetflixData.favorite_day_count s)
     (ProcessNetflixData.day_of_week s) /\
  (forall d v, In (d, v) (ProcessNetflixData.day_of_week s) ->
               v <= ProcessNetflixData.favorite_day_count s) /\
  ProcessNetflixData.total_titles_watched s
  <= 7 * ProcessNetflixData.favorite_day_count s.
Proof.
  intros H.
  apply process_netflix_data_inv in H. destruct H as (df & Hdf & H).
  pose proof (compute_stats_counts df s H) as Hc. cbv zeta in Hc.
  destruct Hc as (_ & -> & _ & _ & _ & _ & _ & -> & -> & _).
  apply compute_stats_fields in H. cbv zeta in H.
  destruct H as (_ & Hm & Hd & _ & Hpm & Hfd & _).
  destruct (main_breakdowns_sum csv df Hdf) as (Hsm & Hsd & _).
  rewrite <- Hm in Hsm. rewrite <- Hd in Hsd.
  assert (Hkm : NoDup (map fst (ProcessNetflixData.monthly_breakdown s))).
  { rewrite Hm, keyed_counts_keys. exact NoDup_month_order. }
  assert (Hkd : NoDup (map fst (ProcessNetflixData.day_of_week s))).
  { rewrite Hd, keyed_counts_keys. exact NoDup_dow_order. }
  destruct (max_by_value_count _ _ Hkm Hpm) as (Hm1 & Hm2 & Hm3).
  destruct (max_by_value_count _ _ Hkd Hfd) as (Hd1 & Hd2 & Hd3).
  rewrite Hsm in Hm3. rewrite Hsd in Hd3.
  replace (List.length (ProcessNetflixData.monthly_breakdown s))
    with 12%nat in Hm3 by (rewrite Hm, length_map; reflexivity).
  replace (List.length (ProcessNetflixData.day_of_week s))
    with 7%nat in Hd3 by (rewrite Hd, length_map; reflexivity).
  split; [exact Hm1|]. split; [exact Hm2|]. split; [exact Hm3|].
  split; [exact Hd1|]. split; [exact Hd2|exact Hd3].
Qed.

(** X9: for a frame [load_viewing_data] returned, the statistics of
    process_data.py have a [peak_month] and a [favorite_day];
    [peak_month_count] is the value of [peak_month] in
    [monthly_breakdown], the largest one, and at least a twelfth of
    [total_titles_watched]; [favorite_day_count], computed as
    [dow_counts.max()], is the value of [favorite_day] in
    [day_of_week], and at least a seventh of
    [total_titles_watched]. *)
Theorem calculate_stats_peak_counts csv df y s :
  ProcessData.load_viewing_data csv = Ok df ->
  ProcessData.calculate_stats df y = Ok (ProcessData.Stats s) ->
  exists pm pc fd fc,
    ProcessData.peak_month s = Some pm /\
    ProcessData.peak_month_count s = Some pc /\
    ProcessData.favorite_day s = Some fd /\
    ProcessData.favorite_day_count s = Some fc /\
    In (pm, pc) (ProcessData.monthly_breakdown s) /\
    (forall m v, In (m, v) (ProcessData.monthly_breakdown s) -> v <= pc) /\
    ProcessData.total_titles_watched s <= 12 * pc /\
    In (fd, fc) (ProcessData.day_of_week s) /\
    (forall d v, In (d, v) (ProcessData.day_of_week s) -> v <= fc) /\
    ProcessData.total_titles_watched s <= 7 * fc.
Proof.
  intros Hdf H.
  pose proof (calculate_stats_counts df y s H) as Hc. cbv zeta in Hc.
  destruct Hc as (-> & _ & _ & _ & Hpc & Hfc & _).
  apply calculate_stats_fields in H. cbv zeta in H.
  destruct H as (_ & Hm & Hd & _ & (pm & Hpm & Epm) & (fd & Hfd & Efd) & _).
  destruct (loaded_breakdowns_sum csv df y Hdf) as (Hsm & Hsd).
  cbv zeta in Hsm, Hsd. rewrite <- Hm in Hsm. rewrite <- Hd in Hsd.
  assert (Hkm : NoDup (map fst (ProcessData.monthly_breakdown s))).
  { rewrite Hm, keyed_counts_keys. exact NoDup_month_order. }
  assert (Hkd : NoDup (map fst (ProcessData.day_of_week s))).
  { rewrite Hd, keyed_counts_keys. exact NoDup_dow_order. }
  destruct (max_by_value_count _ _ Hkm Hpm) as (Hm1 & Hm2 & Hm3).
  destruct (max_by_value_count _ _ Hkd Hfd) as (Hd1 & Hd2 & Hd3).
  rewrite Hsm in Hm3. rewrite Hsd in Hd3.
  replace (List.length (ProcessData.monthly_breakdown s))
    with 12%nat in Hm3 by (rewrite Hm, length_map; reflexivity).
  replace (List.length (ProcessData.day_of_week s))
    with 7%nat in Hd3 by (rewrite Hd, length_map; reflexivity).
  rewrite Epm in Hpc. cbn [option_map] in Hpc.
  assert (Efc : ProcessData.favorite_day_count s
                = Some (dict_get (ProcessData.day_of_week s) fd 0)).
  { rewrite Hfc. destruct (ProcessData.day_of_week s) as [|kv l] eqn:E;
      [destruct Hd1|].
    f_equal. destruct (max_of_spec (map snd l) (snd kv)) as [Hin Hmax].
    apply Z.le_antisymm.
    - change (snd kv :: map snd l) with (map snd (kv :: l)) in Hin.
      apply in_map_iff in Hin. destruct Hin as ([k v] & Ev & Hin).
      cbn [snd] in Ev. rewrite <- Ev. now apply (Hd2 k).
    - apply Hmax. change (snd kv :: map snd l) with (map snd (kv :: l)).
      apply in_map_iff. exists (fd, dict_get (kv :: l) fd 0).
      split; [reflexivity|exact Hd1]. }
  exists pm, (dict_get (ProcessData.monthly_breakdown s) pm 0),
         fd, (dict_get (ProcessData.day_of_week s) fd 0).
  split; [exact Epm|]. split; [exact Hpc|]. split; [exact Efd|].
  split; [exact Efc|].
  split; [exact Hm1|]. split; [exact Hm2|]. split; [exact Hm3|].
  split; [exact Hd1|]. split; [exact Hd2|exact Hd3].
Qed.
End Totals.

(** ** The year [main] chooses, loading, and the labels *)

Section MainYear.

Lemma py_max_spec l m :
  ProcessNetflixData.py_max l = Ok m ->
  In m l /\ forall y, In y l -> y <= m.
Proof.
  destruct l as [|x l]; [discriminate|]. cbn [ProcessNetflixData.py_max].
  intros H. apply Ok_inj in H. subst m. apply (max_of_spec l x).
Qed.

Lemma py_max_raises l e :
  ProcessNetflixData.py_max l = Raise e <-> l = [] /\ e = ValueError.
Proof.
  destruct l as [|x l]; cbn [ProcessNetflixData.py_max]; split.
  - intros H. inversion H. split; reflexivity.
  - intros [_ ->]. reflexivity.
  - discriminate.
  - intros [H _]. discriminate.
Qed.

Lemma py_max_ok l : l <> [] -> exists m, ProcessNetflixData.py_max l = Ok m.
Proof. destruct l as [|x l]; [congruence|]. intros _. eexists. reflexivity. Qed.

Lemma in_2025 l : existsb (fun y => y =? 2025) l = true <-> In 2025 l.
Proof.
  rewrite existsb_exists. split.
  - intros (y & Hy & E). apply Z.eqb_eq in E. now subst.
  - intros H. exists 2025. split; [exact H|reflexivity].
Qed.

Lemma unique_In col x : In x (ProcessDataRest.unique col) <-> In x col.
Proof.
  induction col as [|a col IH]; cbn [ProcessDataRest.unique]; [tauto|].
  cbn [In]. rewrite filter_In, IH.
  destruct (Z.eq_dec a x) as [->|Hne].
  - tauto.
  - split; [tauto|]. intros [H|H]; [tauto|]. right. split; [exact H|].
    apply negb_true_iff, Z.eqb_neq. congruence.
Qed.

Lemma unique_NoDup col : NoDup (ProcessDataRest.unique col).
Proof.
  induction col as [|a col IH]; cbn [ProcessDataRest.unique];
    constructor.
  - rewrite filter_In. intros [_ H].
    now rewrite Z.eqb_refl in H.
  - now apply NoDup_filter.
Qed.

Lemma target_year_with_2025 available_years current_year :
  In 2025 available_years ->
  ProcessDataRest.target_year available_years current_year = Ok 2025.
Proof.
  intros H. unfold ProcessDataRest.target_year.
  apply in_2025 in H. now rewrite H.
Qed.

Lemma target_year_no_2025 available_years current_year :
  ~ In 2025 available_years ->
  ProcessDataRest.target_year available_years current_year
  = ProcessNetflixData.py_max
      (filter (fun y => y <=? current_year) available_years).
Proof.
  intros H. unfold ProcessDataRest.target_year.
  destruct (existsb (fun y => y =? 2025) available_years) eqn:E;
    [|reflexivity].
  apply in_2025 in E. contradiction.
Qed.

Lemma target_year_latest available_years current_year :
  ~ In 2025 available_years ->
  forall y,
    ProcessDataRest.target_year available_years current_year = Ok y
    <-> In y available_years /\ y <= current_year /\
        forall y', In y' available_years -> y' <= current_year -> y' <= y.
Proof.
  intros Hno y. rewrite (target_year_no_2025 _ _ Hno). split.
  - intros H. apply py_max_spec in H. destruct H as [Hin Hmax].
    apply filter_In in Hin. destruct Hin as [Hin Hle].
    split; [exact Hin|]. split; [lia|].
    intros y' Hy' Hle'. apply Hmax. apply filter_In.
    split; [exact Hy'|lia].
  - intros (Hin & Hle & Hmax).
    destruct (py_max_ok (filter (fun y0 => y0 <=? current_year)
                                available_years)) as [m Hm].
    { intros Enil.
      assert (Hf : In y (filter (fun y0 => y0 <=? current_year)
                                available_years))
        by (apply filter_In; split; [exact Hin|lia]).
      rewrite Enil in Hf. destruct Hf. }
    rewrite Hm. f_equal. apply py_max_spec in Hm.
    destruct Hm as [Hm1 Hm2]. apply filter_In in Hm1.
    destruct Hm1 as [Hm1 Hm1'].
    apply Z.le_antisymm.
    + apply Hmax; [exact Hm1|lia].
    + apply Hm2. apply filter_In. split; [exact Hin|lia].
Qed.

Lemma target_year_raises_iff available_years current_year e :
  ProcessDataRest.target_year available_years current_year = Raise e
  <-> e = ValueError /\ ~ In 2025 available_years /\
      forall y, In y available_years -> current_year < y.
Proof.
  destruct (in_dec Z.eq_dec 2025 available_years) as [Hin|Hno].
  - rewrite (target_year_with_2025 _ _ Hin). split; [discriminate|].
    intros (_ & H & _). contradiction.
  - rewrite (target_year_no_2025 _ _ Hno), py_max_raises. split.
    + intros [Hnil ->]. split; [reflexivity|]. split; [exact Hno|].
      intros y Hy. destruct (Z.le_gt_cases y current_year) as [Hle|]; [|lia].
      exfalso.
      assert (Hf : In y (filter (fun y0 => y0 <=? current_year)
                                available_years))
        by (apply filter_In; split; [exact Hy|lia]).
      rewrite Hnil in Hf. destruct Hf.
    + intros (-> & _ & Hall). split; [|reflexivity].
      destruct (filter (fun y0 => y0 <=? current_year) available_years)
        as [|y l] eqn:Ef; [reflexivity|].
      assert (Hf : In y (filter (fun y0 => y0 <=? current_year)
                                available_years))
        by (rewrite Ef; now left).
      apply filter_In in Hf. destruct Hf as [Hy Hle].
      specialize (Hall y Hy). lia.
Qed.

(** X10: the year [main] of process_data.py computes statistics
    for: 2025 whenever the export has a record of 2025, whatever the
    current year; otherwise the latest year of the export that is not
    after the current year; and when the export has no year of either
    kind, no dated record at all in particular, [max] of an empty
    list raises [ValueError]. *)
Theorem target_year_choice available_years current_year :
  (In 2025 available_years ->
   ProcessDataRest.target_year available_years current_year = Ok 2025) /\
  (~ In 2025 available_years ->
   forall y,
     ProcessDataRest.target_year available_years current_year = Ok y
     <-> In y available_years /\ y <= current_year /\
         forall y', In y' available_years -> y' <= current_year -> y' <= y) /\
  (forall e,
     ProcessDataRest.target_year available_years current_year = Raise e
     <-> e = ValueError /\ ~ In 2025 available_years /\
         forall y, In y available_years -> current_year < y).
Proof.
  split; [apply target_year_with_2025|].
  split; [apply target_year_latest|].
  intros e. apply target_year_raises_iff.
Qed.

(** [target_year_choice] with viewing in 2023, 2024 and 2025 run in
    2024, viewing in 2023 and 2024 run in 2026, and viewing in 2027
    run in 2026. *)
Lemma target_year_choice_witness :
  ProcessDataRest.target_year [2023; 2025; 2024] 2024 = Ok 2025 /\
  ProcessDataRest.target_year [2023; 2024] 2026 = Ok 2024 /\
  ProcessDataRest.target_year [2027] 2026 = Raise ValueError.
Proof.
  split; [|split].
  - apply (proj1 (target_year_choice [2023; 2025; 2024] 2024)).
    right. now left.
  - destruct (target_year_choice [2023; 2024] 2026) as (_ & H & _).
    apply H.
    + intros [E|[E|[]]]; discriminate.
    + split; [right; now left|]. split; [lia|].
      intros y' [<-|[<-|[]]] _; lia.
  - destruct (target_year_choice [2027] 2026) as (_ & _ & H).
    apply H. split; [reflexivity|]. split.
    + intros [E|[]]. discriminate.
    + intros y [<-|[]]. lia.
Defined.

Lemma extract_show_name_ok title :
  exists name, ProcessData.extract_show_name title = Ok name.
Proof.
  destruct title as [|t]; cbn [ProcessData.extract_show_name].
  - eexists. reflexivity.
  - rewrite split_first. cbn [bind]. eexists. reflexivity.
Qed.

Lemma derive_rows_ok csv :
  exists df, mapM ProcessData.derive (ProcessData.dropna_date csv) = Ok df.
Proof.
  destruct (mapM_ok ProcessData.derive (ProcessData.dropna_date csv))
    as (df & Hdf & _).
  - intros r _. unfold ProcessData.derive.
    destruct (extract_show_name_ok (Csv.Title (snd r))) as [name ->].
    cbn [bind]. eexists. reflexivity.
  - now exists df.
Qed.

(** On a [Title] column of text the frame is returned. *)
Lemma load_viewing_data_ok csv :
  ProcessData.title_is_text csv = true ->
  exists df, ProcessData.load_viewing_data csv = Ok df.
Proof.
  intros Ht. unfold ProcessData.load_viewing_data.
  destruct (derive_rows_ok csv) as [df ->]. cbn [bind]. rewrite Ht.
  now exists df.
Qed.

(** The only exception of [load_viewing_data] is that of the [.str]
    accessor. *)
Lemma load_viewing_data_raises csv e :
  ProcessData.load_viewing_data csv = Raise e
  <-> e = AttributeError /\ ProcessData.title_is_text csv = false.
Proof.
  unfold ProcessData.load_viewing_data.
  destruct (derive_rows_ok csv) as [df ->]. cbn [bind].
  destruct (ProcessData.title_is_text csv); split.
  - discriminate.
  - intros [_ H]. discriminate.
  - intros H. injection H as <-. now split.
  - intros [-> _]. reflexivity.
Qed.

Lemma dropna_date_In csv t r :
  In (t, r) (ProcessData.dropna_date csv)
  <-> In r csv /\ Csv.Start_Time r = Some t.
Proof.
  induction csv as [|r' csv IH]; cbn [ProcessData.dropna_date In]; [tauto|].
  destruct (Csv.Start_Time r') as [t'|] eqn:E; cbn [In]; rewrite IH.
  - split.
    + intros [H|H]; [inversion H; subst; tauto|tauto].
    + intros [[->|H] Ht]; [left; congruence|tauto].
  - split; [tauto|]. intros [[->|H] Ht]; [congruence|tauto].
Qed.

(** The years of a loaded frame are the years of the dated records. *)
Lemma loaded_years csv df y :
  ProcessData.load_viewing_data csv = Ok df ->
  In y (map ProcessData.Year df)
  <-> exists r t, In r csv /\ Csv.Start_Time r = Some t /\ Cal.year t = y.
Proof.
  intros Hdf. apply load_viewing_data_inv in Hdf. destruct Hdf as [Hdf _].
  rewrite (mapM_map ProcessData.derive (fun r => Cal.year (fst r))
             ProcessData.Year (ProcessData.dropna_date csv)
             (fun r m H => proj1 (proj2 (proj2 (row_fields r m H)))) df Hdf).
  rewrite in_map_iff. split.
  - intros ([t r] & E & Hin). apply dropna_date_In in Hin.
    exists r, t. cbn [fst] in E. tauto.
  - intros (r & t & Hin & Ht & E). exists (t, r).
    split; [exact E|]. now apply dropna_date_In.
Qed.

Lemma select_year_some df y :
  In y (map ProcessData.Year df) ->
  ProcessData.select_year df (Some y) <> [].
Proof.
  intros Hin. apply in_map_iff in Hin. destruct Hin as (r & E & Hr).
  unfold ProcessData.select_year. destruct (y =? 0).
  - intros Enil. rewrite Enil in Hr. destruct Hr.
  - intros Enil.
    assert (Hf : In r (filter (fun r0 => ProcessData.Year r0 =? y) df))
      by (apply filter_In; split; [exact Hr|now apply Z.eqb_eq]).
    rewrite Enil in Hf. destruct Hf.
Qed.

Lemma main_inv csv cy :
  ProcessData.title_is_text csv = true ->
  exists df,
    ProcessData.load_viewing_data csv = Ok df /\
    ProcessDataRest.main csv cy
    = bind (ProcessDataRest.target_year
              (ProcessDataRest.unique (map ProcessData.Year df)) cy)
           (fun y => ProcessData.calculate_stats df (Some y)).
Proof.
  intros Ht. destruct (load_viewing_data_ok csv Ht) as [df Hdf]. exists df.
  split; [exact Hdf|]. unfold ProcessDataRest.main. now rewrite Hdf.
Qed.

Lemma main_not_text csv cy :
  ProcessData.title_is_text csv = false ->
  ProcessDataRest.main csv cy = Raise AttributeError.
Proof.
  intros Ht. unfold ProcessDataRest.main.
  now rewrite (proj2 (load_viewing_data_raises csv AttributeError)
                 (conj eq_refl Ht)).
Qed.

Lemma target_year_In years cy y :
  ProcessDataRest.target_year years cy = Ok y -> In y years.
Proof.
  destruct (in_dec Z.eq_dec 2025 years) as [Hin|Hno]; intros H.
  - rewrite (target_year_with_2025 _ _ Hin) in H. apply Ok_inj in H.
    now subst.
  - now apply (target_year_latest _ _ Hno) in H.
Qed.

Lemma target_year_raises years cy e :
  ProcessDataRest.target_year years cy = Raise e
  <-> e = ValueError /\ forall y, In y years -> y <> 2025 /\ cy < y.
Proof.
  rewrite target_year_raises_iff. split.
  - intros (-> & Hno & Hall). split; [reflexivity|].
    intros y Hy. split; [congruence|now apply Hall].
  - intros (-> & Hall). split; [reflexivity|]. split.
    + intros Hin. now destruct (Hall 2025 Hin).
    + intros y Hy. now apply Hall.
Qed.

(** X11: on an export whose titles are strings or missing, [main] of
    process_data.py never gets the error dictionary of
    [calculate_stats]: the year it asks for is a year of the loaded
    frame. It raises in two cases only: [AttributeError], from
    loading, when the export has rows and every title is missing; and
    [ValueError], from [max] of an empty list, when some title is
    there or the export has no row, and every dated record is of a
    year after the current year and other than 2025. And when the
    [Title] column is text and the export has a record of 2025 it
    produces the statistics of 2025, whatever the current year. *)
Theorem main_never_reports_no_data csv current_year :
  (forall msg,
     ProcessDataRest.main csv current_year <> Ok (ProcessData.Error msg)) /\
  (forall e,
     ProcessDataRest.main csv current_year = Raise e
     <-> (e = AttributeError /\ ProcessData.title_is_text csv = false)
         \/ (e = ValueError /\ ProcessData.title_is_text csv = true /\
             forall r t, In r csv -> Csv.Start_Time r = Some t ->
                         Cal.year t <> 2025 /\ current_year < Cal.year t)) /\
  (ProcessData.title_is_text csv = true ->
   (exists r t, In r csv /\ Csv.Start_Time r = Some t /\ Cal.year t = 2025) ->
   exists s,
     ProcessDataRest.main csv current_year = Ok (ProcessData.Stats s) /\
     ProcessData.year s = 2025).
Proof.
  destruct (ProcessData.title_is_text csv) eqn:Etext.
  2:{ rewrite (main_not_text csv current_year Etext).
      split; [discriminate|]. split; [|discriminate].
      intros e. split.
      - intros H. injection H as <-. left. now split.
      - intros [[-> _]|(_ & H & _)]; [reflexivity|discriminate]. }
  destruct (main_inv csv current_year Etext) as (df & Hdf & ->).
  set (years := ProcessDataRest.unique (map ProcessData.Year df)).
  assert (Hyears : forall y, In y years
            <-> exists r t, In r csv /\ Csv.Start_Time r = Some t /\
                            Cal.year t = y).
  { intros y. unfold years. rewrite unique_In.
    exact (loaded_years csv df y Hdf). }
  assert (Hok : forall y,
            ProcessDataRest.target_year years current_year = Ok y ->
            exists s, ProcessData.calculate_stats df (Some y)
                      = Ok (ProcessData.Stats s)).
  { intros y Hy. apply calculate_stats_ok, select_year_some.
    apply target_year_In in Hy. unfold years in Hy.
    exact (proj1 (unique_In _ _) Hy). }
  split; [|split].
  - intros msg H.
    destruct (ProcessDataRest.target_year years current_year) as [y|e] eqn:E;
      [|discriminate].
    cbn [bind] in H. destruct (Hok y eq_refl) as [s Hs]. congruence.
  - intros e.
    destruct (ProcessDataRest.target_year years current_year) as [y|e'] eqn:E;
      cbn [bind].
    + destruct (Hok y eq_refl) as [s ->]. split; [discriminate|].
      intros [[_ H]|(_ & _ & Hall)]; [discriminate|]. exfalso.
      apply target_year_In in E as Hin. apply Hyears in Hin.
      destruct Hin as (r & t & Hr & Ht & Ey).
      destruct (Hall r t Hr Ht) as [H25 Hcy].
      assert (Hno : ~ In 2025 years).
      { intros H. apply Hyears in H. destruct H as (r' & t' & Hr' & Ht' & E').
        now destruct (Hall r' t' Hr' Ht'). }
      apply (target_year_latest _ _ Hno) in E. lia.
    + apply target_year_raises in E. destruct E as (-> & Hall). split.
      * intros H. inversion H; subst e. right.
        split; [reflexivity|]. split; [reflexivity|].
        intros r t Hr Ht. apply Hall, Hyears.
        now exists r, t.
      * intros [[_ H]|(-> & _)]; [discriminate|reflexivity].
  - intros _ H. apply Hyears in H.
    pose proof (target_year_with_2025 years current_year H) as H1.
    rewrite H1. cbn [bind].
    destruct (Hok 2025 H1) as [s Hs]. exists s. split; [exact Hs|].
    pose proof (calculate_stats_counts df (Some 2025) s Hs) as Hc.
    cbv zeta in Hc.
    destruct Hc as (_ & _ & _ & _ & _ & _ & (r0 & df' & _ & Hy) & _).
    exact Hy.
Qed.
End MainYear.

Section Names.

Lemma lstrip_by_idem sp s : lstrip_by sp (lstrip_by sp s) = lstrip_by sp s.
Proof.
  destruct (lstrip_by sp s) as [|c s'] eqn:E; [reflexivity|].
  apply lstrip_by_head_false in E. now apply lstrip_by_head.
Qed.

Lemma lstrip_by_last sp p c :
  sp c = false -> exists q, lstrip_by sp (p ++ [c]) = q ++ [c].
Proof.
  intros Hc. induction p as [|a p IH]; cbn [app lstrip_by].
  - rewrite Hc. now exists [].
  - destruct (sp a); [exact IH|]. now exists (a :: p).
Qed.

(** Stripping twice is stripping once. *)
Lemma strip_by_idem sp s : strip_by sp (strip_by sp s) = strip_by sp s.
Proof.
  unfold strip_by, rstrip_by.
  destruct (lstrip_by sp s) as [|c l] eqn:E; [reflexivity|].
  apply lstrip_by_head_false in E.
  cbn [rev]. destruct (lstrip_by_last sp (rev l) c E) as [q Hq].
  rewrite Hq, rev_app_distr. cbn [rev app].
  rewrite (lstrip_by_head sp c (rev q) E).
  cbn [rev]. rewrite rev_involutive, <- Hq.
  rewrite lstrip_by_idem, Hq, rev_app_distr. reflexivity.
Qed.

Lemma before_first_no_sep sep s :
  Forall (fun c => Ascii.eqb c sep = false) (Spec.before_first sep s).
Proof.
  induction s as [|c s IH]; cbn [Spec.before_first]; [constructor|].
  destruct (Ascii.eqb c sep) eqn:E; constructor; assumption.
Qed.

Lemma extract_show_name_str t :
  ProcessData.extract_show_name (Str t)
  = Ok (strip (Spec.before_first ":" t)).
Proof.
  cbn [ProcessData.extract_show_name]. now rewrite split_first.
Qed.

Lemma extract_show_name_trimmed title name :
  ProcessData.extract_show_name title = Ok name ->
  Forall (fun c => Ascii.eqb c ":" = false) name /\ strip name = name.
Proof.
  intros H. destruct title as [|t].
  - cbn [ProcessData.extract_show_name] in H. apply Ok_inj in H.
    subst name. split; [|reflexivity].
    repeat constructor.
  - rewrite extract_show_name_str in H. apply Ok_inj in H. subst name.
    split; [|apply strip_by_idem].
    apply Forall_forall. intros c Hc. apply strip_by_In in Hc.
    pose proof (before_first_no_sep ":" t) as Hb.
    rewrite Forall_forall in Hb. now apply Hb.
Qed.

Lemma extract_show_info_trimmed title info :
  ProcessNetflixData.extract_show_info title = Ok info ->
  strip (ProcessNetflixData.show info) = ProcessNetflixData.show info.
Proof.
  destruct title as [|t]; [discriminate|]. intros H.
  destruct (extract_show_info_returns t info H)
    as [(a & g1 & g2 & ep & _ & _ & ->)|[[_ ->]|[_ ->]]];
    cbn [ProcessNetflixData.show]; apply strip_by_idem.
Qed.

(** X13: a show name [extract_show_name] returns has no colon and no
    white space at either end, and is left unchanged by
    [extract_show_name]; a show [extract_show_info] returns has no
    white space at either end. *)
Theorem show_names_are_trimmed :
  (forall title name,
     ProcessData.extract_show_name title = Ok name ->
     ~ In ":"%char name /\
     strip name = name /\
     ProcessData.extract_show_name (Str name) = Ok name) /\
  (forall title info,
     ProcessNetflixData.extract_show_info title = Ok info ->
     strip (ProcessNetflixData.show info) = ProcessNetflixData.show info).
Proof.
  split; [|exact extract_show_info_trimmed].
  intros title name H.
  destruct (extract_show_name_trimmed title name H) as [Hcolon Hstrip].
  split; [|split; [exact Hstrip|]].
  - intros Hin. rewrite Forall_forall in Hcolon.
    specialize (Hcolon _ Hin). now rewrite Ascii.eqb_refl in Hcolon.
  - cbn [ProcessData.extract_show_name].
    rewrite (split_clean ":" name Hcolon). cbn [first_item bind].
    now rewrite Hstrip.
Qed.

(** [show_names_are_trimmed] at an episode title with white space
    around the show. *)
Lemma show_names_are_trimmed_witness :
  ProcessData.extract_show_name (Str (s2l "  Stranger Things : Season 4"))
  = Ok (s2l "Stranger Things") /\
  ProcessData.extract_show_name (Str (s2l "Stranger Things"))
  = Ok (s2l "Stranger Things") /\
  exists info,
    ProcessNetflixData.extract_show_info
      (Str (s2l "  Stranger Things : Season 4")) = Ok info /\
    strip (ProcessNetflixData.show info) = ProcessNetflixData.show info.
Proof.
  assert (H : ProcessData.extract_show_name
                (Str (s2l "  Stranger Things : Season 4"))
              = Ok (s2l "Stranger Things")) by reflexivity.
  destruct show_names_are_trimmed as [H1 H2].
  split; [exact H|].
  split; [exact (proj2 (proj2 (H1 _ _ H)))|].
  destruct (ProcessNetflixData.extract_show_info
              (Str (s2l "  Stranger Things : Season 4")))
    as [info|e] eqn:E; [|vm_compute in E; discriminate].
  exists info. split; [reflexivity|exact (H2 _ _ E)].
Defined.

Lemma title_is_text_false csv :
  ProcessData.title_is_text csv = false
  <-> csv <> [] /\ forall r, In r csv -> Csv.Title r = NaN.
Proof.
  assert (E : forall l,
    existsb (fun r => ProcessData.is_text (Csv.Title r)) l = false
    <-> forall r, In r l -> Csv.Title r = NaN).
  { induction l as [|x l IH]; cbn [existsb In]; [tauto|].
    rewrite orb_false_iff, IH. split.
    - intros [Hx Hl] r [<-|Hr]; [|now apply Hl].
      destruct (Csv.Title x); [reflexivity|discriminate].
    - intros H. split; [now rewrite (H x (or_introl eq_refl))|].
      intros r Hr. apply H. now right. }
  destruct csv as [|r csv].
  - cbn [ProcessData.title_is_text]. split; [discriminate|].
    intros [H _]. congruence.
  - cbn [ProcessData.title_is_text]. rewrite (E (r :: csv)).
    split; [intros H; split; [discriminate|exact H]|tauto].
Qed.

Lemma loaded_rows csv df :
  ProcessData.load_viewing_data csv = Ok df ->
  map (fun r => (ProcessData.Title r, Some (ProcessData.Date r))) df
  = map (fun r => (Csv.Title r, Csv.Start_Time r))
        (filter (fun r => match Csv.Start_Time r with
                          | Some _ => true
                          | None => false
                          end) csv).
Proof.
  intros Hdf. apply load_viewing_data_inv in Hdf. destruct Hdf as [Hdf _].
  rewrite (mapM_map ProcessData.derive
             (fun r => (Csv.Title (snd r), Some (fst r)))
             (fun r => (ProcessData.Title r, Some (ProcessData.Date r)))
             (ProcessData.dropna_date csv)) with (ys := df);
    [|intros r m H; apply row_fields in H;
      destruct H as (-> & -> & _); reflexivity|exact Hdf].
  clear. induction csv as [|r csv IH]; [reflexivity|].
  cbn [ProcessData.dropna_date filter].
  destruct (Csv.Start_Time r) as [t|] eqn:E; [|exact IH].
  cbn [map fst snd]. now rewrite IH, E.
Qed.

(** X12: on an export whose titles are strings or missing,
    [load_viewing_data] raises in one case only, with
    [AttributeError]: when the export has rows and every title is
    missing. Otherwise it returns a frame, and the frame it returns
    has one row for each record whose date parses, in the order of
    the file, with the title and the date of the record, the other
    records being dropped; [ShowName] and [IsEpisode] are computed
    from the title, and a missing title gives the show ["Unknown"]
    and an [IsEpisode] that is false. *)
Theorem load_viewing_data_keeps_dated_records csv :
  (forall e,
     ProcessData.load_viewing_data csv = Raise e
     <-> e = AttributeError /\ csv <> [] /\
         forall r, In r csv -> Csv.Title r = NaN) /\
  (csv = [] \/ (exists r t, In r csv /\ Csv.Title r = Str t) ->
   exists df, ProcessData.load_viewing_data csv = Ok df) /\
  (forall df,
     ProcessData.load_viewing_data csv = Ok df ->
     map (fun r => (ProcessData.Title r, Some (ProcessData.Date r))) df
     = map (fun r => (Csv.Title r, Csv.Start_Time r))
           (filter (fun r => match Csv.Start_Time r with
                             | Some _ => true
                             | None => false
                             end) csv) /\
     Forall (fun r =>
               ProcessData.extract_show_name (ProcessData.Title r)
               = Ok (ProcessData.ShowName r) /\
               ProcessData.IsEpisode r
               = ProcessData.str_contains_colon (ProcessData.Title r) /\
               (ProcessData.Title r = NaN ->
                ProcessData.ShowName r = s2l "Unknown" /\
                ProcessData.IsEpisode r = Some false)) df).
Proof.
  split; [|split].
  - intros e. rewrite load_viewing_data_raises, title_is_text_false.
    tauto.
  - intros H. apply load_viewing_data_ok.
    destruct (ProcessData.title_is_text csv) eqn:E; [reflexivity|].
    apply title_is_text_false in E. destruct E as [Hne Hall].
    destruct H as [->|(r & t & Hr & Ht)]; [congruence|].
    rewrite (Hall r Hr) in Ht. discriminate.
  - intros df Hdf. split; [exact (loaded_rows csv df Hdf)|].
    apply Forall_forall. intros m Hm.
    destruct (load_viewing_data_In csv df m Hdf Hm) as (r & _ & Hr).
    apply row_fields in Hr.
    destruct Hr as (Ht & _ & _ & _ & _ & _ & _ & Hname & Hep).
    rewrite Ht. split; [exact Hname|]. split; [exact Hep|].
    intros E. rewrite E in Hname, Hep.
    cbn [ProcessData.extract_show_name] in Hname. apply Ok_inj in Hname.
    split; [now symmetry|exact Hep].
Qed.

Lemma max_year_spec r0 df' :
  let m := Pd.max_of (ProcessData.Year r0) (map ProcessData.Year df') in
  (exists r, In r (r0 :: df') /\ ProcessData.Year r = m) /\
  forall r, In r (r0 :: df') -> ProcessData.Year r <= m.
Proof.
  cbv zeta.
  destruct (max_of_spec (map ProcessData.Year df') (ProcessData.Year r0))
    as [Hin Hmax].
  change (ProcessData.Year r0 :: map ProcessData.Year df')
    with (map ProcessData.Year (r0 :: df')) in Hin, Hmax.
  split.
  - apply in_map_iff in Hin. destruct Hin as (r & E & Hr). now exists r.
  - intros r Hr. apply Hmax. now apply in_map.
Qed.

(** X14: given a year other than 0, [calculate_stats] counts the
    rows of that year and labels the statistics with it; given no
    year, or the year 0, which is falsy, it counts the rows of all
    years and labels the statistics with the latest year of the
    frame. *)
Theorem calculate_stats_year df y s :
  ProcessData.calculate_stats df y = Ok (ProcessData.Stats s) ->
  (forall y', y = Some y' -> y' <> 0 ->
     ProcessData.year s = y' /\
     ProcessData.total_titles_watched s
     = Pd.count (fun r => ProcessData.Year r =? y') df) /\
  (y = None \/ y = Some 0 ->
     ProcessData.total_titles_watched s = Z.of_nat (List.length df) /\
     (exists r, In r df /\ ProcessData.Year r = ProcessData.year s) /\
     forall r, In r df -> ProcessData.Year r <= ProcessData.year s).
Proof.
  intros H.
  pose proof (calculate_stats_counts df y s H) as Hc. cbv zeta in Hc.
  destruct Hc as (Ht & _ & _ & _ & _ & _ & (r0 & df' & Hsel & Hy) & _).
  cbv zeta in Hy. split.
  - intros y' -> Hne. apply Z.eqb_neq in Hne. rewrite Hne in Hy.
    split; [exact Hy|]. rewrite Ht. unfold ProcessData.select_year.
    now rewrite Hne.
  - intros Hy0.
    assert (Hall : ProcessData.select_year df y = df).
    { destruct Hy0 as [->| ->]; reflexivity. }
    assert (Hyear : ProcessData.year s
                    = Pd.max_of (ProcessData.Year r0)
                                (map ProcessData.Year df')).
    { destruct Hy0 as [->| ->]; exact Hy. }
    rewrite Hall in Ht, Hsel. split; [exact Ht|].
    rewrite Hyear, Hsel. apply max_year_spec.
Qed.
End Names.

Section Labels.

Lemma hours_over n k :
  Qgtb (ProcessData.estimate_hours n) (k # 1)
  = (20 * k + 1 <? 15 * n)
    || ((20 * k + 1 =? 15 * n) && Z.odd ((15 * n) / 2)).
Proof.
  unfold Qgtb, Qle_bool, ProcessData.estimate_hours. cbv zeta.
  cbn [Qnum Qden].
  rewrite <- Z.negb_even.
  destruct ((15 * n) mod 2 =? 0) eqn:Em.
  - apply Z.eqb_eq in Em.
    destruct (Z.even (15 * n / 2));
      Z.div_mod_to_equations; lia.
  - apply Z.eqb_neq in Em.
    destruct (Z.even (15 * n / 2)); cbn [negb];
      Z.div_mod_to_equations; lia.
Qed.

Lemma hours_over_500 n :
  Qgtb (ProcessData.estimate_hours n) (500 # 1) = (667 <=? n).
Proof.
  rewrite hours_over.
  destruct (20 * 500 + 1 =? 15 * n) eqn:E; [lia|]. lia.
Qed.

Lemma hours_over_200 n :
  Qgtb (ProcessData.estimate_hours n) (200 # 1) = (267 <=? n).
Proof.
  rewrite hours_over.
  destruct (20 * 200 + 1 =? 15 * n) eqn:E; [lia|]. lia.
Qed.

Lemma ratio_gt a b p (q : positive) :
  0 < b ->
  Qgtb (inject_Z a / inject_Z b) (p # q) = (a * Zpos q >? p * b).
Proof.
  intros Hb. unfold Qgtb, Qle_bool, Qdiv, Qmult, Qinv, inject_Z.
  destruct b as [|b|b]; try lia.
  cbn [Qnum Qden]. rewrite Pos.mul_1_l, Z.mul_1_r.
  destruct (a * Z.pos q <=? p * Z.pos b) eqn:E; cbn [negb]; lia.
Qed.

Ltac wrong_label :=
  match goal with
  | H : Some _ = Some _ |- _ => vm_compute in H; discriminate H
  | H : _ \/ _ |- _ => destruct H as [H|H]; vm_compute in H; discriminate H
  end.

(** X15: in process_data.py [estimated_hours] is three quarters of
    [total_titles_watched] to within a twentieth, so the hour rules
    of the personality are rules on the number of titles: the
    personality is the Streaming Champion exactly when at least 667
    titles are counted, it is the Enthusiast only with 267 to 666
    titles, and the Casual Viewer or the Early Bird only with at most
    266. *)
Theorem personality_by_title_count df y s :
  ProcessData.calculate_stats df y = Ok (ProcessData.Stats s) ->
  let n := ProcessData.total_titles_watched s in
  (exists t, ProcessData.estimated_hours s = (t # 10)%Q /\
             15 * n - 1 <= 2 * t <= 15 * n + 1) /\
  (ProcessData.personality s = Some ProcessData.streaming_champion
   <-> 667 <= n) /\
  (ProcessData.personality s = Some ProcessData.enthusiast ->
   267 <= n <= 666) /\
  (ProcessData.personality s = Some ProcessData.casual_viewer
   \/ ProcessData.personality s = Some ProcessData.early_bird ->
   n <= 266).
Proof.
  intros H. cbv zeta.
  pose proof (calculate_stats_counts df y s H) as Hc. cbv zeta in Hc.
  destruct Hc as (Ht & _ & Hh & _ & _ & _ & _ & Hp).
  rewrite <- Ht in Hh. clear Ht H.
  set (n := ProcessData.total_titles_watched s) in *.
  split.
  { rewrite Hh. unfold ProcessData.estimate_hours. cbv zeta.
    eexists. split; [reflexivity|].
    destruct ((15 * n) mod 2 =? 0) eqn:Em;
      [|destruct (Z.even (15 * n / 2))];
      Z.div_mod_to_equations; lia. }
  rewrite Hp. unfold ProcessData.determine_personality.
  rewrite Hh, hours_over_500, hours_over_200.
  destruct (667 <=? n) eqn:E1.
  { split; [split; [lia|reflexivity]|].
    split; intros; wrong_label. }
  destruct (ProcessData.binge_sessions s >? 50).
  { split; [split; [intros; wrong_label|lia]|].
    split; intros; wrong_label. }
  destruct (contains (s2l "Night") (ProcessData.peak_time s)).
  { split; [split; [intros; wrong_label|lia]|].
    split; intros; wrong_label. }
  destruct (ProcessData.longest_streak s >? 30).
  { split; [split; [intros; wrong_label|lia]|].
    split; intros; wrong_label. }
  destruct (267 <=? n) eqn:E5.
  { split; [split; [intros; wrong_label|lia]|].
    split; [lia|intros; wrong_label]. }
  destruct (contains (s2l "Morning") (ProcessData.peak_time s)).
  { split; [split; [intros; wrong_label|lia]|].
    split; [intros; wrong_label|lia]. }
  split; [split; [intros; wrong_label|lia]|].
  split; [intros; wrong_label|lia].
Qed.

Lemma or_1_pos x : 1 <= x -> ProcessNetflixData.or_1 x = x.
Proof.
  intros H. unfold ProcessNetflixData.or_1.
  destruct (x =? 0) eqn:E; [lia|reflexivity].
Qed.

(** X16: on the statistics process_netflix_data.py produces, the
    night ratio exceeds 0.5 exactly when twice the Night Owl count
    exceeds [total_titles_watched], and the weekend ratio exceeds 0.4
    exactly when five times the Saturday and Sunday counts exceed
    twice [total_titles_watched]; the personality is the After Hours
    Explorer exactly when there are at most 100 shows, the Marathon
    Runner rule fails and more than half of the titles fall in the
    Night Owl bucket; and it is the Serial Chiller only with a
    longest streak of at most 20 days, the Marathon Runner coming
    first otherwise. *)
Theorem personality_on_counts csv s :
  ProcessNetflixData.process_netflix_data csv = Ok s ->
  let n := ProcessNetflixData.total_titles_watched s in
  let night :=
    dict_get (ProcessNetflixData.time_categories s)
             (s2l "Night Owl (10pm-6am)") 0 in
  let weekend :=
    dict_get (ProcessNetflixData.day_of_week s) (s2l "Saturday") 0
    + dict_get (ProcessNetflixData.day_of_week s) (s2l "Sunday") 0 in
  Qgtb (ProcessNetflixData.night_ratio s) (1 # 2) = (2 * night >? n) /\
  Qgtb (ProcessNetflixData.weekend_ratio s) (4 # 10)
  = (5 * weekend >? 2 * n) /\
  (ProcessNetflixData.personality s
   = Some ProcessNetflixData.after_hours_explorer
   <-> ProcessNetflixData.unique_shows s <= 100 /\
       (ProcessNetflixData.longest_streak s <= 20
        \/ ProcessNetflixData.binge_sessions s <= 40) /\
       n < 2 * night) /\
  (ProcessNetflixData.personality s = Some ProcessNetflixData.serial_chiller ->
   ProcessNetflixData.longest_streak s <= 20 /\
   50 < ProcessNetflixData.binge_sessions s /\
   2 * night <= n).
Proof.
  intros H. cbv zeta. apply process_netflix_data_inv in H.
  destruct H as (df & Hdf & H).
  pose proof (compute_stats_counts df s H) as Hc. cbv zeta in Hc.
  destruct Hc as (_ & Ht & _ & _ & _ & _ & _ & _ & _ & (p & Hp & Hpers)).
  apply compute_stats_fields in H. cbv zeta in H.
  destruct H as (Hne & _ & Hd & Htc & _).
  destruct (main_breakdowns_sum csv df Hdf) as (_ & Hsd & Hst).
  rewrite <- Hd in Hsd. rewrite <- Htc in Hst. rewrite <- Ht in Hsd, Hst.
  assert (Hn : 1 <= ProcessNetflixData.total_titles_watched s).
  { rewrite Ht. destruct df; [congruence|]. cbn [List.length]. lia. }
  set (n := ProcessNetflixData.total_titles_watched s) in *.
  assert (Hnight : Qgtb (ProcessNetflixData.night_ratio s) (1 # 2)
                   = (2 * dict_get (ProcessNetflixData.time_categories s)
                                   (s2l "Night Owl (10pm-6am)") 0 >? n)).
  { unfold ProcessNetflixData.night_ratio. cbv zeta.
    rewrite Hst, (or_1_pos n Hn), ratio_gt by lia.
    f_equal; lia. }
  assert (Hweek : Qgtb (ProcessNetflixData.weekend_ratio s) (4 # 10)
                  = (5 * (dict_get (ProcessNetflixData.day_of_week s)
                                   (s2l "Saturday") 0
                          + dict_get (ProcessNetflixData.day_of_week s)
                                     (s2l "Sunday") 0) >? 2 * n)).
  { unfold ProcessNetflixData.weekend_ratio. cbv zeta.
    rewrite Hsd, (or_1_pos n Hn), ratio_gt by lia.
    set (w := _ + _).
    destruct (w * 10 >? 4 * n) eqn:E1; destruct (5 * w >? 2 * n) eqn:E2; lia. }
  split; [exact Hnight|]. split; [exact Hweek|].
  rewrite Hpers. rewrite process_netflix_data_first_match in Hp.
  apply Ok_inj in Hp. subst p.
  unfold Spec.first_match, Spec.rules_process_netflix_data.
  cbn [find fst snd]. rewrite Hnight.
  destruct (ProcessNetflixData.unique_shows s >? 100) eqn:E1.
  { split; [split; [intros; wrong_label|lia]|intros; wrong_label]. }
  destruct ((ProcessNetflixData.longest_streak s >? 20)
            && (ProcessNetflixData.binge_sessions s >? 40)) eqn:E2.
  { split; [split; [intros; wrong_label|lia]|intros; wrong_label]. }
  destruct (2 * dict_get (ProcessNetflixData.time_categories s)
                         (s2l "Night Owl (10pm-6am)") 0 >? n) eqn:E3.
  { split; [split; [lia|reflexivity]|intros; wrong_label]. }
  destruct (ProcessNetflixData.binge_sessions s >? 50) eqn:E4.
  { split; [split; [intros; wrong_label|lia]|]. intros _. lia. }
  destruct ((ProcessNetflixData.movies_watched s >? 150)
            && (ProcessNetflixData.episodes_watched s >? 400)).
  { split; [split; [intros; wrong_label|lia]|intros; wrong_label]. }
  destruct (Qgtb (ProcessNetflixData.weekend_ratio s) (4 # 10)).
  { split; [split; [intros; wrong_label|lia]|intros; wrong_label]. }
  destruct (ProcessNetflixData.active_days s >? 200).
  { split; [split; [intros; wrong_label|lia]|intros; wrong_label]. }
  split; [split; [intros; wrong_label|lia]|intros; wrong_label].
Qed.
End Labels.

(** ** The hourly breakdown and the device name *)

Section Hours.

Lemma to_int_not_nil z :
  Z.to_int z <> Decimal.Pos Decimal.Nil /\
  Z.to_int z <> Decimal.Neg Decimal.Nil.
Proof.
  pose proof (DecimalZ.to_of (Z.to_int z)) as H.
  rewrite DecimalZ.of_to in H. rewrite H.
  destruct (Z.to_int z) as [d|d]; cbn [Decimal.norm].
  - split; [|discriminate]. unfold Decimal.unorm.
    destruct (Decimal.nzhead d); discriminate.
  - destruct (Decimal.nzhead d); split; discriminate.
Qed.

(** Distinct integers have distinct decimal representations. *)
Lemma str_of_int_inj a b :
  Groups.str_of_int a = Groups.str_of_int b -> a = b.
Proof.
  unfold Groups.str_of_int, s2l. intros H.
  apply (f_equal string_of_list_ascii) in H.
  rewrite !string_of_list_ascii_of_string in H.
  apply (f_equal NilZero.int_of_string) in H.
  destruct (to_int_not_nil a) as [Ha1 Ha2].
  destruct (to_int_not_nil b) as [Hb1 Hb2].
  rewrite !NilZero.isi in H by assumption.
  inversion H as [E]. apply (f_equal Z.of_int) in E.
  now rewrite !DecimalZ.of_to in E.
Qed.

Lemma sorted_NoDup l : StronglySorted Z.lt l -> NoDup l.
Proof.
  induction 1 as [|a l Hs IH Ha]; constructor; [|exact IH].
  intros Hin. rewrite Forall_forall in Ha. specialize (Ha a Hin). lia.
Qed.

Lemma NoDup_map_inj {A B} (f : A -> B) l :
  (forall a b, f a = f b -> a = b) -> NoDup l -> NoDup (map f l).
Proof.
  intros Hf. induction 1 as [|a l Ha Hnd IH]; cbn [map]; constructor.
  - intros Hin. apply in_map_iff in Hin. destruct Hin as (b & E & Hb).
    apply Hf in E. subst b. contradiction.
  - exact IH.
Qed.

Lemma indicator_sum (k : Z) order :
  NoDup order -> In k order ->
  fold_left Z.add (map (fun m => Cal.b2z (k =? m)) order) 0 = 1.
Proof.
  induction 1 as [|m order Hm Hnd IH]; intros Hin; [destruct Hin|].
  cbn [map]. rewrite sum_cons.
  destruct Hin as [->|Hin].
  - rewrite sum_map_zero.
    + now rewrite Z.eqb_refl.
    + intros a Ha. destruct (k =? a) eqn:E; [|reflexivity].
      apply Z.eqb_eq in E. subst. contradiction.
  - rewrite (IH Hin). destruct (k =? m) eqn:E; [|reflexivity].
    apply Z.eqb_eq in E. subst. contradiction.
Qed.

Lemma hour_counts_sum {A} (key : A -> Z) order df :
  NoDup order -> (forall r, In r df -> In (key r) order) ->
  fold_left Z.add
    (map (fun m => Pd.count (fun r => key r =? m) df) order) 0
  = Z.of_nat (List.length df).
Proof.
  intros Hnd. induction df as [|r df IH]; intros Hin.
  - apply sum_map_zero. reflexivity.
  - rewrite (map_ext _ (fun m => Cal.b2z (key r =? m)
                                 + Pd.count (fun r0 => key r0 =? m) df))
      by (intros m; exact (count_cons (fun r0 => key r0 =? m) r df)).
    rewrite sum_map_add, IH, indicator_sum.
    + cbn [List.length]. lia.
    + exact Hnd.
    + apply Hin. now left.
    + intros r' Hr'. apply Hin. now right.
Qed.

Lemma count_pos {A} (f : A -> bool) df r :
  In r df -> f r = true -> 1 <= Pd.count f df.
Proof.
  intros Hin Hf. unfold Pd.count.
  assert (H : In r (filter f df)) by (apply filter_In; now split).
  destruct (filter f df); [destruct H|]. cbn [List.length]. lia.
Qed.

(** X17: [hourly_breakdown] is not zero-filled: its keys are the
    decimal representations of the hours that occur among the rows,
    in increasing order of the hours and without repetition, every
    value is at least 1 and is the number of rows of that hour, and
    the values add up to the number of rows. *)
Theorem hourly_breakdown_lists_hours_seen df :
  let hb := ProcessDataRest.hourly_breakdown df in
  let hours := Pd.sorted_unique (map ProcessData.Hour df) in
  map fst hb = map Groups.str_of_int hours /\
  StronglySorted Z.lt hours /\
  NoDup (map fst hb) /\
  (forall k v, In (k, v) hb ->
     1 <= v /\ exists r, In r df /\ k = Groups.str_of_int (ProcessData.Hour r)) /\
  (forall r, In r df ->
     In (Groups.str_of_int (ProcessData.Hour r),
         Pd.count (fun r' => ProcessData.Hour r' =? ProcessData.Hour r) df)
        hb) /\
  ProcessNetflixData.sum_values hb = Z.of_nat (List.length df).
Proof.
  cbv zeta. unfold ProcessDataRest.hourly_breakdown.
  pose proof (sorted_unique_sorted (map ProcessData.Hour df)) as Hs.
  split; [now rewrite map_map|]. split; [exact Hs|]. split.
  { rewrite map_map. cbn [fst].
    apply NoDup_map_inj; [apply str_of_int_inj|now apply sorted_NoDup]. }
  split; [|split].
  - intros k v Hin. apply in_map_iff in Hin.
    destruct Hin as (h & E & Hh). inversion E; subst. clear E.
    apply sorted_unique_In, in_map_iff in Hh.
    destruct Hh as (r & <- & Hr). split.
    + apply (count_pos _ df r Hr). apply Z.eqb_refl.
    + now exists r.
  - intros r Hr. apply in_map_iff. exists (ProcessData.Hour r).
    split; [reflexivity|]. apply sorted_unique_In. now apply in_map.
  - unfold ProcessNetflixData.sum_values. rewrite map_map. cbn [snd].
    apply hour_counts_sum; [now apply sorted_NoDup|].
    intros r Hr. apply sorted_unique_In. now apply in_map.
Qed.
End Hours.

Section Device.

Lemma starts_with_app p q s :
  starts_with (p ++ q) s = true ->
  exists s', s = p ++ s' /\ starts_with q s' = true.
Proof.
  revert s. induction p as [|a p IH]; intros s H; cbn [app] in *.
  - now exists s.
  - destruct s as [|b s]; cbn [starts_with] in H; [discriminate|].
    apply andb_true_iff in H. destruct H as [Hab H].
    apply Ascii.eqb_eq in Hab. subst b.
    destruct (IH s H) as (s' & -> & Hq). now exists s'.
Qed.

Lemma contains_starts q s : starts_with q s = true -> contains q s = true.
Proof. intros H. destruct s; cbn [contains]; now rewrite H. Qed.

Lemma contains_skip q p s :
  contains q s = true -> contains q (p ++ s) = true.
Proof.
  intros H. induction p as [|a p IH]; [exact H|].
  cbn [app contains]. rewrite IH. apply orb_true_r.
Qed.

(** What contains a text contains the end of that text. *)
Lemma contains_app_r p q s :
  contains (p ++ q) s = true -> contains q s = true.
Proof.
  induction s as [|a s IH]; intros H; cbn [contains] in H.
  - rewrite orb_false_r in H. apply starts_with_app in H.
    destruct H as (s' & E & Hq). symmetry in E.
    apply app_eq_nil in E. destruct E as [_ ->].
    now apply contains_starts.
  - apply orb_true_iff in H. destruct H as [H|H].
    + apply starts_with_app in H. destruct H as (s' & -> & Hq).
      now apply contains_skip, contains_starts.
    + cbn [contains]. rewrite (IH H). apply orb_true_r.
Qed.

(** X18: in the simplification of the device name the test for
    ["Smart TV"] never decides, a name that contains it containing
    ["TV"]; a name with ["TV"] becomes ["Smart TV"] also when it
    contains ["iPhone"] or ["Android"]; and simplifying a simplified
    name changes nothing. *)
Theorem simplify_device_idempotent top_device :
  ProcessNetflixDataRest.simplify_device top_device
  = (if contains (s2l "TV") top_device then s2l "Smart TV"
     else if contains (s2l "iPhone") top_device then s2l "iPhone"
     else if contains (s2l "Android") top_device then s2l "Android"
     else top_device) /\
  ProcessNetflixDataRest.simplify_device
    (ProcessNetflixDataRest.simplify_device top_device)
  = ProcessNetflixDataRest.simplify_device top_device.
Proof.
  assert (H : ProcessNetflixDataRest.simplify_device top_device
    = (if contains (s2l "TV") top_device then s2l "Smart TV"
       else if contains (s2l "iPhone") top_device then s2l "iPhone"
       else if contains (s2l "Android") top_device then s2l "Android"
       else top_device)).
  { unfold ProcessNetflixDataRest.simplify_device.
    destruct (contains (s2l "TV") top_device) eqn:E1; [reflexivity|].
    destruct (contains (s2l "Smart TV") top_device) eqn:E2; [|reflexivity].
    apply (contains_app_r (s2l "Smart ") (s2l "TV")) in E2. congruence. }
  split; [exact H|]. rewrite H.
  destruct (contains (s2l "TV") top_device) eqn:E1; [reflexivity|].
  destruct (contains (s2l "iPhone") top_device) eqn:E2; [reflexivity|].
  destruct (contains (s2l "Android") top_device) eqn:E3; [reflexivity|].
  exact H.
Qed.
End Device.

(** ** The biggest binge and the order of the groups *)

Section GroupOrder.

Lemma nat_of_ascii_inj a b : nat_of_ascii a = nat_of_ascii b -> a = b.
Proof.
  intros H. rewrite <- (ascii_nat_embedding a), <- (ascii_nat_embedding b).
  now rewrite H.
Qed.

Lemma str_ltb_irrefl a : Groups.str_ltb a a = false.
Proof.
  induction a as [|x a IH]; cbn [Groups.str_ltb]; [reflexivity|].
  now rewrite Nat.ltb_irrefl, Nat.eqb_refl, IH.
Qed.

Lemma str_ltb_cons x a y b :
  Groups.str_ltb (x :: a) (y :: b) = true
  <-> (nat_of_ascii x < nat_of_ascii y)%nat
      \/ x = y /\ Groups.str_ltb a b = true.
Proof.
  cbn [Groups.str_ltb].
  rewrite orb_true_iff, andb_true_iff, Nat.ltb_lt, Nat.eqb_eq. split.
  - intros [H|[H1 H2]]; [now left|right]. split; [|exact H2].
    now apply nat_of_ascii_inj.
  - intros [H|[-> H]]; [now left|right]. now split.
Qed.

Lemma str_ltb_trans a :
  forall b c, Groups.str_ltb a b = true -> Groups.str_ltb b c = true ->
              Groups.str_ltb a c = true.
Proof.
  induction a as [|x a IH]; intros [|y b] [|z c] H1 H2;
    try discriminate; try reflexivity.
  apply str_ltb_cons in H1, H2. apply str_ltb_cons.
  destruct H1 as [H1|[-> H1]], H2 as [H2|[-> H2]].
  - left. lia.
  - now left.
  - now left.
  - right. split; [reflexivity|]. now apply (IH b c).
Qed.

Lemma str_ltb_total a :
  forall b, a = b \/ Groups.str_ltb a b = true \/ Groups.str_ltb b a = true.
Proof.
  induction a as [|x a IH]; intros [|y b].
  - now left.
  - right. now left.
  - right. now right.
  - destruct (Nat.lt_trichotomy (nat_of_ascii x) (nat_of_ascii y))
      as [H|[H|H]].
    + right. left. apply str_ltb_cons. now left.
    + apply nat_of_ascii_inj in H. subst y.
      destruct (IH b) as [->|[H|H]].
      * now left.
      * right. left. apply str_ltb_cons. now right.
      * right. right. apply str_ltb_cons. now right.
    + right. right. apply str_ltb_cons. now left.
Qed.

Lemma key_ltb_spec a b :
  Groups.key_ltb a b = true
  <-> fst a < fst b \/ fst a = fst b /\ Groups.str_ltb (snd a) (snd b) = true.
Proof.
  unfold Groups.key_ltb.
  now rewrite orb_true_iff, andb_true_iff, Z.ltb_lt, Z.eqb_eq.
Qed.

Lemma key_ltb_irrefl a : Groups.key_ltb a a = false.
Proof.
  unfold Groups.key_ltb.
  now rewrite Z.ltb_irrefl, Z.eqb_refl, str_ltb_irrefl.
Qed.

Lemma key_ltb_trans a b c :
  Groups.key_ltb a b = true -> Groups.key_ltb b c = true ->
  Groups.key_ltb a c = true.
Proof.
  rewrite !key_ltb_spec.
  intros [H1|[E1 H1]] [H2|[E2 H2]].
  - left. lia.
  - left. lia.
  - left. lia.
  - right. split; [lia|]. now apply (str_ltb_trans _ (snd b)).
Qed.

Lemma key_ltb_total a b :
  a = b \/ Groups.key_ltb a b = true \/ Groups.key_ltb b a = true.
Proof.
  destruct a as [d1 s1], b as [d2 s2]. rewrite !key_ltb_spec. cbn [fst snd].
  destruct (Z.lt_trichotomy d1 d2) as [H|[->|H]].
  - right. left. now left.
  - destruct (str_ltb_total s1 s2) as [->|[H|H]].
    + now left.
    + right. left. right. now split.
    + right. right. right. now split.
  - right. right. now left.
Qed.

Lemma group_insert_In k l x :
  In x (Groups.insert_key k l) <-> x = k \/ In x l.
Proof.
  induction l as [|a l IH]; cbn [Groups.insert_key In].
  - intuition congruence.
  - destruct (Groups.key_ltb a k); cbn [In]; rewrite ?IH;
      intuition congruence.
Qed.

Lemma group_insert_sorted k l :
  StronglySorted Groups.key_lt l -> ~ In k l ->
  StronglySorted Groups.key_lt (Groups.insert_key k l).
Proof.
  induction 1 as [|a l Hs IH Ha]; intros Hk; cbn [Groups.insert_key].
  - repeat constructor.
  - destruct (Groups.key_ltb a k) eqn:E.
    + constructor.
      * apply IH. intros H. apply Hk. now right.
      * apply Forall_forall. intros x Hx. apply group_insert_In in Hx.
        destruct Hx as [->|Hx]; [exact E|].
        rewrite Forall_forall in Ha. now apply Ha.
    + assert (Hka : Groups.key_lt k a).
      { destruct (key_ltb_total k a) as [->|[H|H]].
        - exfalso. apply Hk. now left.
        - exact H.
        - unfold Groups.key_lt. congruence. }
      constructor; [now constructor|].
      constructor; [exact Hka|].
      eapply Forall_impl; [|exact Ha].
      intros x Hx. now apply (key_ltb_trans k a x).
Qed.

Lemma sorted_keys_In keys k : In k (Groups.sorted_keys keys) <-> In k keys.
Proof.
  unfold Groups.sorted_keys. rewrite <- (nodup_In Pd.key_eq_dec keys k).
  induction (nodup Pd.key_eq_dec keys) as [|a l IH]; cbn [fold_right In];
    [tauto|].
  rewrite group_insert_In, IH. intuition congruence.
Qed.

Lemma sorted_keys_sorted keys :
  StronglySorted Groups.key_lt (Groups.sorted_keys keys).
Proof.
  unfold Groups.sorted_keys.
  pose proof (NoDup_nodup Pd.key_eq_dec keys) as Hnd.
  induction Hnd as [|a l Ha Hnd IH]; cbn [fold_right]; [constructor|].
  apply group_insert_sorted; [exact IH|].
  intros H. apply Ha. clear - H.
  induction l as [|b l IH]; cbn [fold_right] in H; [exact H|].
  apply group_insert_In in H. destruct H as [->|H]; [now left|].
  right. now apply IH.
Qed.

(** The entries of the sorted groups are those of the groups. *)
Lemma sizes_In keys k v :
  In (k, v) (Groups.sizes keys)
  <-> In k keys /\ v = Z.of_nat (count_occ Pd.key_eq_dec keys k).
Proof.
  unfold Groups.sizes. rewrite in_map_iff. split.
  - intros (k' & E & Hk'). inversion E; subst.
    split; [now apply sorted_keys_In|reflexivity].
  - intros [Hk ->]. exists k. split; [reflexivity|].
    now apply sorted_keys_In.
Qed.

Lemma group_sizes_In keys k v :
  In (k, v) (Pd.group_sizes keys)
  <-> In k keys /\ v = Z.of_nat (count_occ Pd.key_eq_dec keys k).
Proof.
  unfold Pd.group_sizes. rewrite in_map_iff. split.
  - intros (k' & E & Hk'). inversion E; subst.
    split; [now apply nodup_In in Hk'|reflexivity].
  - intros [Hk ->]. exists k. split; [reflexivity|].
    now apply nodup_In.
Qed.

Lemma sizes_sorted keys : StronglySorted Groups.entry_lt (Groups.sizes keys).
Proof.
  unfold Groups.sizes.
  induction (sorted_keys_sorted keys) as [|a l Hs IH Ha]; cbn [map];
    constructor; [exact IH|].
  apply Forall_forall. intros x Hx. apply in_map_iff in Hx.
  destruct Hx as (k & <- & Hk). unfold Groups.entry_lt. cbn [fst].
  rewrite Forall_forall in Ha. now apply Ha.
Qed.

Lemma filter_sorted {A} (R : A -> A -> Prop) (p : A -> bool) l :
  StronglySorted R l -> StronglySorted R (filter p l).
Proof.
  induction 1 as [|a l Hs IH Ha]; cbn [filter]; [constructor|].
  destruct (p a); [|exact IH]. constructor; [exact IH|].
  apply Forall_forall. intros x Hx. apply filter_In in Hx.
  rewrite Forall_forall in Ha. now apply Ha.
Qed.

Lemma sorted_nth {A} (R : A -> A -> Prop) l :
  StronglySorted R l ->
  forall i j a b, (i < j)%nat ->
  nth_error l i = Some a -> nth_error l j = Some b -> R a b.
Proof.
  induction 1 as [|x l Hs IH Hx]; intros i j a b Hij Hi Hj.
  - destruct i; discriminate.
  - destruct j as [|j]; [lia|]. cbn [nth_error] in Hj.
    destruct i as [|i]; cbn [nth_error] in Hi.
    + inversion Hi; subst. rewrite Forall_forall in Hx.
      apply Hx. eapply nth_error_In. exact Hj.
    + apply (IH i j); [lia|exact Hi|exact Hj].
Qed.

(** [idxmax] on groups in key order: the key of a largest group, and
    the smallest such key. *)
Lemma idxmax_smallest_key (d : list (Pd.key * Z)) :
  StronglySorted Groups.entry_lt d -> d <> [] ->
  exists k v,
    max_by_value d = Ok k /\ In (k, v) d /\
    (forall k' v', In (k', v') d -> v' <= v) /\
    (forall k', In (k', v) d -> k' = k \/ Groups.key_ltb k k' = true).
Proof.
  intros Hs Hne. destruct d as [|kv d]; [congruence|]. clear Hne.
  cbn [max_by_value].
  destruct (max_by_loop_first d [kv] kv 0%nat eq_refl) as (i & Hi & Hmax).
  { intros j kv' Hj. destruct j as [|[|j]]; cbn in Hj; try discriminate.
    inversion Hj; subst. split; lia. }
  cbn [app] in Hi, Hmax.
  destruct (max_by_loop kv d) as [k v] eqn:Eb. cbn [fst snd] in *.
  exists k, v. split; [reflexivity|].
  split; [eapply nth_error_In; exact Hi|]. split.
  - intros k' v' Hin. apply In_nth_error in Hin. destruct Hin as [j Hj].
    apply (Hmax j (k', v') Hj).
  - intros k' Hin. apply In_nth_error in Hin. destruct Hin as [j Hj].
    destruct (Nat.lt_trichotomy j i) as [Hlt|[->|Hgt]].
    + destruct (Hmax j (k', v) Hj) as [_ H]. specialize (H Hlt).
      cbn [snd] in H. lia.
    + left. congruence.
    + right. apply (sorted_nth Groups.entry_lt _ Hs i j (k, v) (k', v) Hgt Hi Hj).
Qed.

Lemma max_unique (l : list Z) x y :
  In x l -> In y l -> (forall v, In v l -> v <= x) ->
  (forall v, In v l -> v <= y) -> x = y.
Proof.
  intros Hx Hy Hmx Hmy. apply Z.le_antisymm; [now apply Hmy|now apply Hmx].
Qed.


Lemma biggest_eq (l1 l2 : list Z) :
  (forall v, In v l1 <-> In v l2) ->
  match l1 with [] => 0 | x :: l => Pd.max_of x l end
  = match l2 with [] => 0 | x :: l => Pd.max_of x l end.
Proof.
  intros H.
  destruct (biggest_spec l1) as [Hn1 Hb1], (biggest_spec l2) as [Hn2 Hb2].
  cbv zeta in *.
  destruct l1 as [|x1 l1'] eqn:E1, l2 as [|x2 l2'] eqn:E2.
  - reflexivity.
  - exfalso. apply (H x2). now left.
  - exfalso. apply (H x1). now left.
  - destruct Hb1 as [Hi1 Hm1]; [discriminate|].
    destruct Hb2 as [Hi2 Hm2]; [discriminate|].
    apply Z.le_antisymm.
    + apply Hm2, H, Hi1.
    + apply Hm1, H, Hi2.
Qed.

(** The binge groups in key order are the binge groups. *)
Lemma sorted_binges_In keys thr e :
  In e (filter (fun g : Pd.key * Z => snd g >=? thr) (Groups.sizes keys))
  <-> In e (filter (fun g : Pd.key * Z => snd g >=? thr)
                   (Pd.group_sizes keys)).
Proof.
  destruct e as [k v]. now rewrite !filter_In, sizes_In, group_sizes_In.
Qed.

Lemma sorted_sizes_values keys v :
  In v (map snd (Groups.sizes keys)) <-> In v (map snd (Pd.group_sizes keys)).
Proof.
  rewrite !in_map_iff. split; intros ([k v'] & E & Hin); exists (k, v');
    (split; [exact E|]).
  - apply group_sizes_In. now apply sizes_In.
  - apply sizes_In. now apply group_sizes_In.
Qed.

Lemma size_In keys k :
  1 <= Z.of_nat (count_occ Pd.key_eq_dec keys k) -> In k keys.
Proof. intros H. apply (count_occ_In Pd.key_eq_dec). lia. Qed.

(** X19: in process_data.py the key behind [biggest_binge_show] and
    [biggest_binge_date] is absent when there is no binge session;
    otherwise it is a (date, show) group whose size is
    [biggest_binge], and among the groups of that size the one with
    the earliest date, and with the smallest show name on that
    date. *)
Theorem biggest_binge_idx_breaks_ties_by_key df y s :
  ProcessData.calculate_stats df y = Ok (ProcessData.Stats s) ->
  let sel := ProcessData.select_year df y in
  let size k :=
    Z.of_nat (count_occ Pd.key_eq_dec
                (map (fun r => (Cal.date (ProcessData.Date r),
                                ProcessData.ShowName r)) sel) k) in
  (ProcessData.binge_sessions s = 0 ->
   ProcessDataRest.biggest_binge_idx sel = Ok None) /\
  (1 <= ProcessData.binge_sessions s ->
   exists k,
     ProcessDataRest.biggest_binge_idx sel = Ok (Some k) /\
     size k = ProcessData.biggest_binge s /\
     forall k', size k' = ProcessData.biggest_binge s ->
                k' = k \/ Groups.key_ltb k k' = true).
Proof.
  intros H. cbv zeta.
  apply calculate_stats_fields in H. cbv zeta in H.
  destruct H as (_ & _ & _ & _ & _ & _ & _ & Hb & Hbig & _).
  unfold ProcessDataRest.biggest_binge_idx. cbv zeta.
  set (keys := map (fun r => (Cal.date (ProcessData.Date r),
                              ProcessData.ShowName r))
                   (ProcessData.select_year df y)) in *.
  set (p := fun g : Pd.key * Z => snd g >=? ProcessData.binge_threshold) in *.
  pose proof (sorted_binges_In keys ProcessData.binge_threshold) as Heq.
  fold p in Heq.
  pose proof (filter_sorted Groups.entry_lt p _ (sizes_sorted keys)) as Hs.
  split.
  - intros H0. rewrite H0 in Hb.
    destruct (filter p (Pd.group_sizes keys)) as [|e l] eqn:E;
      [|cbn [List.length] in Hb; lia].
    destruct (filter p (Groups.sizes keys)) as [|e l] eqn:E';
      [reflexivity|].
    exfalso. apply (Heq e). now left.
  - intros H1.
    assert (Hne : filter p (Groups.sizes keys) <> []).
    { intros E. rewrite Hb in H1.
      destruct (filter p (Pd.group_sizes keys)) as [|e l] eqn:E';
        [cbn [List.length] in H1; lia|].
      assert (Hin : In e (filter p (Groups.sizes keys)))
        by (apply Heq; now left).
      rewrite E in Hin. destruct Hin. }
    destruct (idxmax_smallest_key _ Hs Hne) as (k & v & Hk & Hin & Hmax & Hmin).
    exists k.
    assert (Hv : v = ProcessData.biggest_binge s).
    { rewrite Hbig.
      destruct (biggest_spec (map snd (filter p (Pd.group_sizes keys))))
        as [_ Hbs]. cbv zeta in Hbs.
      destruct Hbs as [Hbin Hbmax].
      { intros E. apply map_eq_nil in E.
        apply Heq in Hin. rewrite E in Hin. destruct Hin. }
      apply Z.le_antisymm.
      - apply Hbmax. apply in_map_iff. exists (k, v).
        split; [reflexivity|now apply Heq].
      - apply in_map_iff in Hbin. destruct Hbin as ([k' v'] & E & Hin').
        cbn [snd] in E. rewrite <- E. apply (Hmax k'). now apply Heq. }
    apply filter_In in Hin as Hin'. destruct Hin' as [Hsz Hp].
    apply sizes_In in Hsz. destruct Hsz as [_ Hsz].
    unfold p, ProcessData.binge_threshold in Hp. cbn [snd] in Hp.
    split; [|split].
    + destruct (filter p (Groups.sizes keys)); [congruence|].
      rewrite Hk. reflexivity.
    + rewrite <- Hv. now symmetry.
    + intros k' Hk'. apply Hmin. apply filter_In. split.
      * apply sizes_In. split; [|now rewrite Hk', Hv].
        apply size_In. lia.
      * unfold p, ProcessData.binge_threshold. cbn [snd]. exact Hp.
Qed.

(** X20: in process_netflix_data.py [biggest_binge_show] is the
    empty string when there is no binge session; otherwise it is the
    show of a (date, show) group of episodes whose size is
    [biggest_binge], and among the groups of that size the one with
    the earliest date, and with the smallest show name on that
    date. *)
Theorem biggest_binge_show_breaks_ties_by_key csv s :
  ProcessNetflixData.process_netflix_data csv = Ok s ->
  exists df,
    ProcessNetflixData.df_main csv = Ok df /\
    let size k :=
      Z.of_nat (count_occ Pd.key_eq_dec
                  (map (fun r => (ProcessNetflixData.Date r,
                                  ProcessNetflixData.Show r))
                       (filter ProcessNetflixData.Is_Episode df)) k) in
    (ProcessNetflixData.binge_sessions s = 0 ->
     ProcessNetflixDataRest.biggest_binge_show df = Ok []) /\
    (1 <= ProcessNetflixData.binge_sessions s ->
     exists k,
       ProcessNetflixDataRest.biggest_binge_show df = Ok (snd k) /\
       size k = ProcessNetflixData.biggest_binge s /\
       forall k', size k' = ProcessNetflixData.biggest_binge s ->
                  k' = k \/ Groups.key_ltb k k' = true).
Proof.
  intros H. apply process_netflix_data_inv in H.
  destruct H as (df & Hdf & H). exists df. split; [exact Hdf|]. cbv zeta.
  apply compute_stats_fields in H. cbv zeta in H.
  destruct H as (_ & _ & _ & _ & _ & _ & _ & Hb & Hbig & _).
  unfold ProcessNetflixDataRest.biggest_binge_show. cbv zeta.
  set (keys := map (fun r => (ProcessNetflixData.Date r,
                              ProcessNetflixData.Show r))
                   (filter ProcessNetflixData.Is_Episode df)) in *.
  assert (Hbig' : ProcessNetflixData.biggest_binge s
                  = match map snd (Groups.sizes keys) with
                    | [] => 0
                    | x :: l => Pd.max_of x l
                    end).
  { rewrite Hbig. apply biggest_eq. intros v. symmetry.
    apply sorted_sizes_values. }
  assert (Hcount : 1 <= ProcessNetflixData.binge_sessions s
                   <-> exists e, In e (Groups.sizes keys) /\ 4 <= snd e).
  { rewrite Hb. unfold Pd.count, ProcessNetflixData.binge_threshold. split.
    - intros H1.
      destruct (filter (fun g : Pd.key * Z => snd g >=? 4)
                       (Pd.group_sizes keys)) as [|e l] eqn:E;
        [cbn [List.length] in H1; lia|].
      assert (Hin : In e (filter (fun g : Pd.key * Z => snd g >=? 4)
                                 (Pd.group_sizes keys)))
        by (rewrite E; now left).
      apply sorted_binges_In, filter_In in Hin. destruct Hin as [Hin H4].
      exists e. split; [exact Hin|lia].
    - intros (e & Hin & H4).
      assert (Hin' : In e (filter (fun g : Pd.key * Z => snd g >=? 4)
                                  (Pd.group_sizes keys))).
      { apply sorted_binges_In, filter_In. split; [exact Hin|lia]. }
      destruct (filter (fun g : Pd.key * Z => snd g >=? 4)
                       (Pd.group_sizes keys)); [destruct Hin'|].
      cbn [List.length]. lia. }
  destruct (Groups.sizes keys) as [|x l] eqn:E.
  { split; [reflexivity|]. intros H1. apply Hcount in H1.
    destruct H1 as (e & [] & _). }
  destruct (idxmax_smallest_key (x :: l)) as (k & v & Hk & Hin & Hmax & Hmin).
  { rewrite <- E. apply sizes_sorted. }
  { discriminate. }
  rewrite Hk. cbn [bind].
  cbn [map] in Hbig'. rewrite <- Hbig'.
  assert (Hv : v = ProcessNetflixData.biggest_binge s).
  { rewrite Hbig'.
    destruct (max_of_spec (map snd l) (snd x)) as [Hbin Hbmax].
    change (snd x :: map snd l) with (map snd (x :: l)) in Hbin, Hbmax.
    apply Z.le_antisymm.
    - apply Hbmax. apply in_map_iff. now exists (k, v).
    - apply in_map_iff in Hbin. destruct Hbin as ([k' v'] & Ev & Hin').
      cbn [snd] in Ev. rewrite <- Ev. now apply (Hmax k'). }
  split.
  - intros H0.
    destruct (ProcessNetflixData.biggest_binge s
              >=? ProcessNetflixData.binge_threshold) eqn:E4;
      [|reflexivity].
    exfalso. unfold ProcessNetflixData.binge_threshold in E4.
    assert (H1 : 1 <= ProcessNetflixData.binge_sessions s).
    { apply Hcount. exists (k, v). split; [exact Hin|]. cbn [snd]. lia. }
    lia.
  - intros H1. exists k. apply Hcount in H1 as (e & He & H4).
    destruct e as [k0 v0]. cbn [snd] in H4.
    specialize (Hmax k0 v0 He).
    replace (ProcessNetflixData.biggest_binge s
             >=? ProcessNetflixData.binge_threshold) with true
      by (unfold ProcessNetflixData.binge_threshold; lia).
    split; [reflexivity|].
    rewrite <- E in Hin. apply sizes_In in Hin as Hsz.
    destruct Hsz as [_ Hsz]. split; [rewrite <- Hv; now symmetry|].
    intros k' Hk'. apply Hmin. rewrite <- E. apply sizes_In.
    split; [|now rewrite Hk', Hv]. apply size_In. lia.
Qed.
End GroupOrder.

(** ** Show names across the two files *)

Section Agreement.

Lemma lstrip_by_keeps sp s c :
  In c s -> sp c = false -> In c (lstrip_by sp s).
Proof.
  induction s as [|a s IH]; intros Hin Hc; [destruct Hin|].
  cbn [lstrip_by]. destruct (sp a) eqn:E; [|exact Hin].
  destruct Hin as [->|Hin]; [congruence|now apply IH].
Qed.

(** Stripping keeps every character that is not stripped. *)
Lemma strip_by_keeps sp s c :
  In c s -> sp c = false -> In c (strip_by sp s).
Proof.
  intros Hin Hc. unfold strip_by, rstrip_by.
  apply in_rev. rewrite rev_involutive.
  apply lstrip_by_keeps; [|exact Hc].
  apply -> in_rev. now apply lstrip_by_keeps.
Qed.

Lemma before_first_app sep g rest :
  ~ In sep g -> Spec.before_first sep (g ++ sep :: rest) = g.
Proof.
  induction g as [|a g IH]; intros Hg; cbn [app Spec.before_first].
  - now rewrite Ascii.eqb_refl.
  - destruct (Ascii.eqb a sep) eqn:E.
    + apply Ascii.eqb_eq in E. subst. exfalso. apply Hg. now left.
    + f_equal. apply IH. intros H. apply Hg. now right.
Qed.

Lemma before_first_clean sep s :
  ~ In sep s -> Spec.before_first sep s = s.
Proof.
  induction s as [|a s IH]; intros Hs; cbn [Spec.before_first];
    [reflexivity|].
  destruct (Ascii.eqb a sep) eqn:E.
  - apply Ascii.eqb_eq in E. subst. exfalso. apply Hs. now left.
  - f_equal. apply IH. intros H. apply Hs. now right.
Qed.

Lemma contains_In c q s : contains (c :: q) s = true -> In c s.
Proof.
  induction s as [|a s IH]; cbn [contains starts_with]; intros H.
  - discriminate.
  - apply orb_true_iff in H. destruct H as [H|H].
    + apply andb_true_iff in H. destruct H as [H _].
      apply Ascii.eqb_eq in H. now left.
    + right. now apply IH.
Qed.

Lemma colon_not_space : is_space ":" = false.
Proof. reflexivity. Qed.

(** X21: the two files give a title the same show name when
    process_netflix_data.py takes it for an episode and its show has
    no colon, when process_netflix_data.py does not take it for an
    episode although it contains [": Season"] or [": Episode"], and
    when it has no colon and none of the deleted fragments, in which
    case it is not an episode. *)
Theorem show_names_agree t info :
  ProcessNetflixData.extract_show_info (Str t) = Ok info ->
  (ProcessNetflixData.is_episode info = true ->
   ~ In ":"%char (ProcessNetflixData.show info) ->
   ProcessData.extract_show_name (Str t)
   = Ok (ProcessNetflixData.show info)) /\
  (ProcessNetflixData.is_episode info = false ->
   ~ Spec.no_marker t ->
   ProcessData.extract_show_name (Str t)
   = Ok (ProcessNetflixData.show info)) /\
  (Spec.no_fragment t -> ~ In ":"%char t ->
   ProcessNetflixData.is_episode info = false /\
   ProcessData.extract_show_name (Str t)
   = Ok (ProcessNetflixData.show info)).
Proof.
  intros H. rewrite extract_show_name_str.
  destruct (extract_show_info_returns t info H)
    as [(a & g1 & g2 & ep & Hst & _ & ->)|[[Hm ->]|[Hm ->]]];
    cbn [ProcessNetflixData.show ProcessNetflixData.is_episode].
  - destruct Hst as (ws1 & ws2 & tail & Ht & _).
    split; [|split].
    + intros _ Hcolon. f_equal. f_equal. rewrite Ht.
      change (s2l ":" ++ ws1 ++ s2l "Season" ++ ws2 ++ g2 ++ tail)
        with (":"%char :: ws1 ++ s2l "Season" ++ ws2 ++ g2 ++ tail).
      apply before_first_app. intros Hin. apply Hcolon.
      apply strip_by_keeps; [exact Hin|exact colon_not_space].
    + discriminate.
    + intros _ Hcolon. exfalso. apply Hcolon. rewrite Ht.
      apply in_or_app. right. now left.
  - split; [discriminate|]. split; [contradiction|].
    intros Hf Hcolon. split; [reflexivity|]. f_equal. f_equal.
    rewrite (before_first_clean _ _ Hcolon).
    unfold Re.sub_empty. symmetry. now apply sub_loop_clean.
  - split; [discriminate|]. split; [reflexivity|].
    intros _ Hcolon. exfalso. apply Hm. unfold Spec.no_marker.
    split.
    + destruct (contains (s2l ": Season") t) eqn:Ec; [|reflexivity].
      apply contains_In in Ec. contradiction.
    + destruct (contains (s2l ": Episode") t) eqn:Ec; [|reflexivity].
      apply contains_In in Ec. contradiction.
Qed.

(** [show_names_agree] at an episode title and at a film title. *)
Lemma show_names_agree_witness :
  ProcessData.extract_show_name
    (Str (s2l "Stranger Things: Season 4: Chapter One (Episode 1)"))
  = Ok (s2l "Stranger Things") /\
  ProcessData.extract_show_name (Str (s2l "Inception"))
  = Ok (s2l "Inception").
Proof.
  split.
  - assert (E : ProcessNetflixData.extract_show_info
                  (Str (s2l "Stranger Things: Season 4: Chapter One (Episode 1)"))
                = Ok {| ProcessNetflixData.show := s2l "Stranger Things";
                        ProcessNetflixData.season := Some 4;
                        ProcessNetflixData.episode := Some 1;
                        ProcessNetflixData.is_episode := true |})
      by reflexivity.
    apply (proj1 (show_names_agree _ _ E)); [reflexivity|].
    cbn. intuition discriminate.
  - assert (E : ProcessNetflixData.extract_show_info (Str (s2l "Inception"))
                = Ok {| ProcessNetflixData.show := s2l "Inception";
                        ProcessNetflixData.season := None;
                        ProcessNetflixData.episode := None;
                        ProcessNetflixData.is_episode := false |})
      by reflexivity.
    apply (proj2 (proj2 (show_names_agree _ _ E))).
    + repeat constructor.
    + cbn. intuition discriminate.
Defined.
End Agreement.

(** ** The properties above at sample exports *)

Section Instances.

Ltac run_process_netflix_data csv s E :=
  destruct (ProcessNetflixData.process_netflix_data csv) as [s|?] eqn:E;
  [|vm_compute in E; discriminate E].

Ltac run_process_data csv y df s Edf Es :=
  destruct (ProcessData.load_viewing_data csv) as [df|?] eqn:Edf;
  [|vm_compute in Edf; discriminate Edf];
  destruct (ProcessData.calculate_stats df y) as [[?|s]|?] eqn:Es;
  [exfalso; vm_compute in Edf; apply Ok_inj in Edf; subst df;
   vm_compute in Es; discriminate Es
  |
  |exfalso; vm_compute in Edf; apply Ok_inj in Edf; subst df;
   vm_compute in Es; discriminate Es].

(** [process_netflix_data_breakdowns_add_up] at an export with viewing
    on four days. *)
Lemma process_netflix_data_breakdowns_add_up_witness :
  exists s,
    ProcessNetflixData.process_netflix_data Samples.four_days = Ok s /\
    ProcessNetflixData.total_titles_watched s = 4 /\
    ProcessNetflixData.sum_values (ProcessNetflixData.monthly_breakdown s)
    = 4 /\
    ProcessNetflixData.sum_values (ProcessNetflixData.day_of_week s) = 4 /\
    ProcessNetflixData.sum_values (ProcessNetflixData.time_categories s) = 4.
Proof.
  run_process_netflix_data Samples.four_days s E.
  exists s. split; [reflexivity|].
  destruct (process_netflix_data_breakdowns_add_up _ _ E) as (H1 & H2 & H3 & _).
  assert (Ht : ProcessNetflixData.total_titles_watched s = 4).
  { vm_compute in E. apply Ok_inj in E. now subst s. }
  rewrite Ht in H1, H2, H3.
  split; [exact Ht|]. split; [exact H1|]. split; [exact H2|exact H3].
Defined.

(** [calculate_stats_breakdowns_add_up] at the same export, loaded by
    process_data.py. *)
Lemma calculate_stats_breakdowns_add_up_witness :
  exists df s,
    ProcessData.load_viewing_data Samples.four_days = Ok df /\
    ProcessData.calculate_stats df (Some 2025) = Ok (ProcessData.Stats s) /\
    ProcessNetflixData.sum_values (ProcessData.monthly_breakdown s)
    = ProcessData.total_titles_watched s /\
    ProcessNetflixData.sum_values (ProcessData.day_of_week s)
    = ProcessData.total_titles_watched s /\
    ProcessNetflixData.sum_values (ProcessData.time_categories s)
    = ProcessData.total_titles_watched s.
Proof.
  run_process_data Samples.four_days (Some 2025) df s Edf Es.
  exists df, s. split; [reflexivity|]. split; [exact Es|].
  destruct (calculate_stats_breakdowns_add_up _ _ _ _ Edf Es)
    as (H1 & H2 & H3 & _).
  split; [exact H1|]. split; [exact H2|exact H3].
Defined.

(** [process_netflix_data_counts_consistent] at an export with four
    episodes of one show and a film. *)
Lemma process_netflix_data_counts_consistent_witness :
  exists s,
    ProcessNetflixData.process_netflix_data Samples.one_binge = Ok s /\
    ProcessNetflixData.movies_watched s = 1 /\
    ProcessNetflixData.episodes_watched s = 4 /\
    ProcessNetflixData.movies_watched s + ProcessNetflixData.episodes_watched s
    = ProcessNetflixData.total_titles_watched s /\
    1 <= ProcessNetflixData.longest_streak s
    <= ProcessNetflixData.active_days s.
Proof.
  run_process_netflix_data Samples.one_binge s E.
  exists s. split; [reflexivity|].
  destruct (process_netflix_data_counts_consistent _ _ E)
    as (H1 & _ & _ & _ & H2 & _).
  split; [vm_compute in E; apply Ok_inj in E; now subst s|].
  split; [vm_compute in E; apply Ok_inj in E; now subst s|].
  split; [exact H1|exact H2].
Defined.

(** [calculate_stats_counts_consistent] at an export with viewing on
    four days. *)
Lemma calculate_stats_counts_consistent_witness :
  exists df s,
    ProcessData.load_viewing_data Samples.four_days = Ok df /\
    ProcessData.calculate_stats df (Some 2025) = Ok (ProcessData.Stats s) /\
    1 <= ProcessData.unique_shows s <= ProcessData.total_titles_watched s /\
    1 <= ProcessData.longest_streak s <= ProcessData.active_days s /\
    ProcessData.active_days s <= ProcessData.total_titles_watched s.
Proof.
  run_process_data Samples.four_days (Some 2025) df s Edf Es.
  exists df, s. split; [reflexivity|]. split; [exact Es|].
  destruct (calculate_stats_counts_consistent _ _ _ Es) as (H1 & H2 & H3 & _).
  split; [exact H1|]. split; [exact H2|exact H3].
Defined.

(** [watch_dates_span] at an export with viewing on 1, 2, 3 and 5
    January 2025. *)
Lemma watch_dates_span_witness :
  exists s,
    ProcessNetflixData.process_netflix_data Samples.four_days = Ok s /\
    ProcessNetflixData.first_watch_date s = Cal.ymd2ord 2025 1 1 /\
    ProcessNetflixData.last_watch_date s = Cal.ymd2ord 2025 1 5 /\
    ProcessNetflixData.active_days s
    <= ProcessNetflixData.last_watch_date s
       - ProcessNetflixData.first_watch_date s + 1.
Proof.
  run_process_netflix_data Samples.four_days s E.
  exists s. split; [reflexivity|].
  pose proof (watch_dates_span _ _ E) as H. cbv zeta in H.
  destruct H as (_ & _ & _ & _ & _ & H & _).
  split; [vm_compute in E; apply Ok_inj in E; now subst s|].
  split; [vm_compute in E; apply Ok_inj in E; now subst s|].
  exact H.
Defined.

(** [process_netflix_data_binge_bounds] at an export with four
    episodes of one show on one day. *)
Lemma process_netflix_data_binge_bounds_witness :
  exists s,
    ProcessNetflixData.process_netflix_data Samples.one_binge = Ok s /\
    4 * ProcessNetflixData.binge_sessions s
    <= ProcessNetflixData.episodes_watched s /\
    (1 <= ProcessNetflixData.binge_sessions s
     <-> 4 <= ProcessNetflixData.biggest_binge s).
Proof.
  run_process_netflix_data Samples.one_binge s E.
  exists s. split; [reflexivity|].
  destruct (process_netflix_data_binge_bounds _ _ E) as (_ & H1 & _ & H2 & _).
  split; [exact H1|exact H2].
Defined.

(** [calculate_stats_binge_bounds] at one film with three viewing
    records on one day. *)
Lemma calculate_stats_binge_bounds_witness :
  exists df s,
    ProcessData.load_viewing_data Samples.film_thrice = Ok df /\
    ProcessData.calculate_stats df (Some 2025) = Ok (ProcessData.Stats s) /\
    3 * ProcessData.binge_sessions s <= ProcessData.total_titles_watched s /\
    (ProcessData.binge_sessions s = 0 <-> ProcessData.biggest_binge s = 0).
Proof.
  run_process_data Samples.film_thrice (Some 2025) df s Edf Es.
  exists df, s. split; [reflexivity|]. split; [exact Es|].
  destruct (calculate_stats_binge_bounds _ _ _ Es) as (_ & H1 & H2 & _).
  split; [exact H1|exact H2].
Defined.

(** [process_netflix_data_peak_counts] at an export with viewing on
    four days of January. *)
Lemma process_netflix_data_peak_counts_witness :
  exists s,
    ProcessNetflixData.process_netflix_data Samples.four_days = Ok s /\
    ProcessNetflixData.peak_month_count s = 4 /\
    In (ProcessNetflixData.peak_month s,
        ProcessNetflixData.peak_month_count s)
       (ProcessNetflixData.monthly_breakdown s) /\
    ProcessNetflixData.total_titles_watched s
    <= 12 * ProcessNetflixData.peak_month_count s.
Proof.
  run_process_netflix_data Samples.four_days s E.
  exists s. split; [reflexivity|].
  destruct (process_netflix_data_peak_counts _ _ E) as (H1 & _ & H2 & _).
  split; [vm_compute in E; apply Ok_inj in E; now subst s|].
  split; [exact H1|exact H2].
Defined.

(** [calculate_stats_peak_counts] at the same export, loaded by
    process_data.py. *)
Lemma calculate_stats_peak_counts_witness :
  exists df s pm pc,
    ProcessData.load_viewing_data Samples.four_days = Ok df /\
    ProcessData.calculate_stats df (Some 2025) = Ok (ProcessData.Stats s) /\
    ProcessData.peak_month s = Some pm /\
    ProcessData.peak_month_count s = Some pc /\
    In (pm, pc) (ProcessData.monthly_breakdown s) /\
    ProcessData.total_titles_watched s <= 12 * pc.
Proof.
  run_process_data Samples.four_days (Some 2025) df s Edf Es.
  destruct (calculate_stats_peak_counts _ _ _ _ Edf Es)
    as (pm & pc & fd & fc & H1 & H2 & _ & _ & H3 & _ & H4 & _).
  exists df, s, pm, pc. split; [reflexivity|]. split; [exact Es|].
  split; [exact H1|]. split; [exact H2|]. split; [exact H3|exact H4].
Defined.

(** [main_never_reports_no_data] at an export with viewing in 2023 and
    2024 run in 2026, at an export with viewing in 2024 run in 2020,
    at an export whose only record, of 2025, has no title, and at an
    export with viewing in 2025. *)
Lemma main_never_reports_no_data_witness :
  (exists s, ProcessDataRest.main MoreSamples.two_years 2026
             = Ok (ProcessData.Stats s)) /\
  ProcessDataRest.main Samples.last_year 2020 = Raise ValueError /\
  ProcessDataRest.main [MoreSamples.untitled] 2026 = Raise AttributeError /\
  (exists s, ProcessDataRest.main Samples.four_days 2030
             = Ok (ProcessData.Stats s) /\ ProcessData.year s = 2025).
Proof.
  split; [|split; [|split]].
  - destruct (ProcessDataRest.main MoreSamples.two_years 2026)
      as [[msg|s]|e] eqn:E.
    + exfalso.
      exact (proj1 (main_never_reports_no_data MoreSamples.two_years 2026)
               msg E).
    + now exists s.
    + vm_compute in E. discriminate E.
  - apply (proj1 (proj2 (main_never_reports_no_data Samples.last_year 2020))).
    right. split; [reflexivity|]. split; [reflexivity|].
    intros r t [<-|[]] Ht.
    unfold Samples.viewing in Ht. cbn [Csv.Start_Time] in Ht.
    injection Ht as <-.
    split; [vm_compute; discriminate|vm_compute; reflexivity].
  - apply (proj1 (proj2 (main_never_reports_no_data
                           [MoreSamples.untitled] 2026))).
    left. split; reflexivity.
  - apply (proj2 (proj2 (main_never_reports_no_data Samples.four_days 2030)));
      [reflexivity|].
    eexists. eexists. split; [left; reflexivity|].
    split; [reflexivity|reflexivity].
Defined.

(** [load_viewing_data_keeps_dated_records] at an export whose only
    record has no title, and at a film followed by that record. *)
Lemma load_viewing_data_keeps_dated_records_witness :
  ProcessData.load_viewing_data [MoreSamples.untitled]
  = Raise AttributeError /\
  exists df,
    ProcessData.load_viewing_data MoreSamples.film_and_untitled = Ok df /\
    map ProcessData.Title df = [Str (s2l "Inception"); NaN] /\
    map ProcessData.ShowName df = [s2l "Inception"; s2l "Unknown"] /\
    Forall (fun r => ProcessData.Title r = NaN ->
                     ProcessData.IsEpisode r = Some false) df.
Proof.
  split.
  - apply (proj1 (load_viewing_data_keeps_dated_records
                    [MoreSamples.untitled])).
    split; [reflexivity|]. split; [discriminate|].
    intros r [<-|[]]. reflexivity.
  - destruct (load_viewing_data_keeps_dated_records
                MoreSamples.film_and_untitled) as (_ & Hok & Hrows).
    destruct Hok as [df Hdf].
    { right. eexists. eexists. split; [left; reflexivity|reflexivity]. }
    exists df. split; [exact Hdf|].
    destruct (Hrows df Hdf) as [_ Hall].
    split; [|split].
    + vm_compute in Hdf. apply Ok_inj in Hdf. now subst df.
    + vm_compute in Hdf. apply Ok_inj in Hdf. now subst df.
    + eapply Forall_impl; [|exact Hall].
      intros r (_ & _ & H) E. exact (proj2 (H E)).
Defined.

(** [personality_by_title_count] at an export of five records. *)
Lemma personality_by_title_count_witness :
  exists df s,
    ProcessData.load_viewing_data Samples.one_binge = Ok df /\
    ProcessData.calculate_stats df (Some 2025) = Ok (ProcessData.Stats s) /\
    ProcessData.total_titles_watched s = 5 /\
    (ProcessData.personality s = Some ProcessData.streaming_champion
     <-> 667 <= ProcessData.total_titles_watched s).
Proof.
  run_process_data Samples.one_binge (Some 2025) df s Edf Es.
  exists df, s. split; [reflexivity|]. split; [exact Es|].
  pose proof (personality_by_title_count _ _ _ Es) as H. cbv zeta in H.
  destruct H as (_ & H & _).
  split; [|exact H].
  vm_compute in Edf. apply Ok_inj in Edf. subst df.
  vm_compute in Es. apply Ok_inj, Stats_inj in Es. now subst s.
Defined.

(** [personality_on_counts] at an export with four episodes watched in
    the evening and at night. *)
Lemma personality_on_counts_witness :
  exists s,
    ProcessNetflixData.process_netflix_data Samples.one_binge = Ok s /\
    Qgtb (ProcessNetflixData.night_ratio s) (1 # 2)
    = (2 * dict_get (ProcessNetflixData.time_categories s)
                    (s2l "Night Owl (10pm-6am)") 0
       >? ProcessNetflixData.total_titles_watched s) /\
    (ProcessNetflixData.personality s
     = Some ProcessNetflixData.serial_chiller ->
     ProcessNetflixData.longest_streak s <= 20).
Proof.
  run_process_netflix_data Samples.one_binge s E.
  exists s. split; [reflexivity|].
  pose proof (personality_on_counts _ _ E) as H. cbv zeta in H.
  destruct H as (H1 & _ & _ & H2).
  split; [exact H1|]. intros Hp. now apply H2.
Defined.

(** [biggest_binge_idx_breaks_ties_by_key] at an export with four
    episodes of one show on 8 March 2025. *)
Lemma biggest_binge_idx_breaks_ties_by_key_witness :
  exists df s,
    ProcessData.load_viewing_data Samples.one_binge = Ok df /\
    ProcessData.calculate_stats df (Some 2025) = Ok (ProcessData.Stats s) /\
    ProcessData.binge_sessions s = 1 /\
    exists k,
      ProcessDataRest.biggest_binge_idx (ProcessData.select_year df (Some 2025))
      = Ok (Some k) /\
      k = (Cal.ymd2ord 2025 3 8, s2l "Stranger Things").
Proof.
  run_process_data Samples.one_binge (Some 2025) df s Edf Es.
  exists df, s. split; [reflexivity|]. split; [exact Es|].
  assert (Hb : ProcessData.binge_sessions s = 1).
  { vm_compute in Edf. apply Ok_inj in Edf. subst df.
    vm_compute in Es. apply Ok_inj, Stats_inj in Es. now subst s. }
  split; [exact Hb|].
  pose proof (biggest_binge_idx_breaks_ties_by_key _ _ _ Es) as H.
  cbv zeta in H. destruct H as (_ & H).
  destruct H as (k & Hk & _); [lia|].
  exists k. split; [exact Hk|].
  vm_compute in Edf. apply Ok_inj in Edf. subst df.
  vm_compute in Hk. apply Ok_inj in Hk. now inversion Hk.
Defined.

(** [biggest_binge_show_breaks_ties_by_key] at the same export. *)
Lemma biggest_binge_show_breaks_ties_by_key_witness :
  exists s df,
    ProcessNetflixData.process_netflix_data Samples.one_binge = Ok s /\
    ProcessNetflixData.df_main Samples.one_binge = Ok df /\
    ProcessNetflixDataRest.biggest_binge_show df = Ok (s2l "Stranger Things").
Proof.
  run_process_netflix_data Samples.one_binge s E.
  destruct (biggest_binge_show_breaks_ties_by_key _ _ E) as (df & Hdf & H).
  exists s, df. split; [reflexivity|]. split; [exact Hdf|].
  cbv zeta in H. destruct H as (_ & H).
  destruct H as (k & Hk & _).
  { vm_compute in E. apply Ok_inj in E. subst s. cbn. lia. }
  rewrite Hk. f_equal. vm_compute in Hdf. apply Ok_inj in Hdf. subst df.
  vm_compute in Hk. apply Ok_inj in Hk. symmetry. exact Hk.
Defined.

(** [calculate_stats_year] at an export with viewing in 2023 and 2024,
    for the year 2024 and for no year. *)
Lemma calculate_stats_year_witness :
  exists df s s',
    ProcessData.load_viewing_data MoreSamples.two_years = Ok df /\
    ProcessData.calculate_stats df (Some 2024) = Ok (ProcessData.Stats s) /\
    ProcessData.calculate_stats df None = Ok (ProcessData.Stats s') /\
    ProcessData.year s = 2024 /\
    ProcessData.total_titles_watched s' = Z.of_nat (List.length df) /\
    forall r, In r df -> ProcessData.Year r <= ProcessData.year s'.
Proof.
  run_process_data MoreSamples.two_years (Some 2024) df s Edf Es.
  destruct (ProcessData.calculate_stats df None) as [[?|s']|?] eqn:Es';
    [exfalso; vm_compute in Edf; apply Ok_inj in Edf; subst df;
     vm_compute in Es'; discriminate Es'
    |
    |exfalso; vm_compute in Edf; apply Ok_inj in Edf; subst df;
     vm_compute in Es'; discriminate Es'].
  exists df, s, s'. split; [reflexivity|]. split; [exact Es|].
  split; [exact Es'|].
  destruct (calculate_stats_year _ _ _ Es) as [H1 _].
  destruct (calculate_stats_year _ _ _ Es') as [_ H2].
  destruct (H1 2024 eq_refl ltac:(lia)) as [Hy _].
  destruct (H2 (or_introl eq_refl)) as (Ht & _ & Hmax).
  split; [exact Hy|]. split; [exact Ht|exact Hmax].
Defined.

(** [time_categories_agree] at an export with viewing in the morning,
    in the evening and at night. *)
Lemma time_categories_agree_witness :
  exists df s,
    ProcessData.load_viewing_data Samples.four_days = Ok df /\
    ProcessData.calculate_stats df (Some 2025) = Ok (ProcessData.Stats s) /\
    ProcessData.time_categories s
    = map (fun c =>
             (c, Pd.count
                   (fun r => str_eqb (ProcessNetflixData.get_time_category
                                        (ProcessData.Hour r)) c)
                   (ProcessData.select_year df (Some 2025))))
          ProcessNetflixData.time_category_names.
Proof.
  run_process_data Samples.four_days (Some 2025) df s Edf Es.
  exists df, s. split; [reflexivity|]. split; [exact Es|].
  exact (time_categories_agree _ _ _ Es).
Defined.

End Instances.
